(** * BCG slide generator: the data model and the slide plan

    A shallow embedding of [src/shared/data-processor.js] (the aggregator),
    of the structure table and the driver of
    [src/orchestrator/main-orchestrator.js], and of the dispatch loops of the
    section generators, together with the properties of the specification
    that concern them.

    JavaScript numbers are IEEE 754 binary64 values: they are embedded as
    Rocq's primitive floats, whose operations are the same ones.
    [Number.prototype.toFixed] and [Date.prototype.toISOString] are embedded
    on the exact value of the float, as ECMA-262 defines them;
    [Intl.NumberFormat] rounds the shortest decimal that reads back as the
    float, as the runtime (Node.js, with ICU) does.  An object literal used
    as a table is embedded with the properties it inherits from
    [Object.prototype]. *)

From Stdlib Require Import Floats ZArith List String Ascii Bool Lia DecimalString.
From Stdlib Require Import Permutation.
Import ListNotations.

Local Open Scope string_scope.
Local Open Scope Z_scope.
Set Warnings "-inexact-float".

(** ** JavaScript values and built-ins *)

Module JS.

(** The values a numeric property of the input can hold: a number, or
    nothing ([undefined], [null]). *)
Inductive value : Type :=
| undefined
| null
| num (x : float).

(** [ToNumber]. *)
Definition ToNumber (v : value) : float :=
  match v with
  | undefined => nan
  | null => 0%float
  | num x => x
  end.

(** [ToBoolean] on a number: [0], [-0] and [NaN] are falsy. *)
Definition truthy (x : float) : bool :=
  negb (PrimFloat.eqb x 0) && PrimFloat.eqb x x.

Definition ToBoolean (v : value) : bool :=
  match v with
  | num x => truthy x
  | _ => false
  end.

(** [v || d] for a numeric default [d]: the result is a number. *)
Definition or_num (v : value) (d : float) : float :=
  if ToBoolean v then ToNumber v else d.

(** [s || d] on a string property: [undefined] and the empty string are
    falsy. *)
Definition or_str (s : option string) (d : string) : string :=
  match s with
  | Some (String c r) => String c r
  | _ => d
  end.

(** [a || []] on an array property. *)
Definition or_nil {A : Type} (a : option (list A)) : list A :=
  match a with
  | Some l => l
  | None => []
  end.

(** Arithmetic of the operators [/], [*], [+], [-] on values. *)
Definition div (a b : value) : float := (ToNumber a / ToNumber b)%float.

(** *** Exact rounding of a finite float [m * 2^e] *)

(** The integer nearest to [m * 2^e * k]; of two nearest, the larger. *)
Definition round_scaled (m : positive) (e : Z) (k : Z) : Z :=
  if 0 <=? e then Z.pos m * 2 ^ e * k
  else let d := 2 ^ (- e) in (2 * (Z.pos m * k) + d) / (2 * d).

(** Decimal digits of a natural number. *)
Definition digits (n : Z) : string :=
  NilZero.string_of_uint (N.to_uint (Z.to_N n)).

(** Decimal digits of an integer, as [Number::toString] prints a safe
    integer. *)
Definition string_of_Z (z : Z) : string :=
  if z <? 0 then "-" ++ digits (- z) else digits z.

(** Locale [en-US] grouping: a comma before every group of three digits. *)
Fixpoint group3 (s : string) : string :=
  match s with
  | EmptyString => EmptyString
  | String c rest =>
      let n := String.length rest in
      String c (if (Nat.ltb 0 n && Nat.eqb (Nat.modulo n 3) 0)%bool
                then String "," (group3 rest) else group3 rest)
  end.

Definition sign_str (s : bool) : string := if s then "-" else "".

(** [s] padded with zeros on the left to [n] characters. *)
Fixpoint zeros (n : nat) : string :=
  match n with
  | O => ""
  | S n' => String "0" (zeros n')
  end.

Definition pad_left (n : nat) (s : string) : string :=
  zeros (n - String.length s) ++ s.

(** The string without its trailing zeros. *)
Fixpoint strip_zeros (s : string) : string :=
  match s with
  | EmptyString => EmptyString
  | String c rest =>
      match strip_zeros rest with
      | EmptyString => if Ascii.eqb c "0" then EmptyString else String c EmptyString
      | r => String c r
      end
  end.

(** *** The shortest decimal of a finite float [m * 2^e]

    [Number::toString] and [Intl.NumberFormat] start from the decimal
    [v * 10^q] with the fewest digits that still reads back as the same
    float; of several, the one nearest to the float. *)

(** The decimal exponent [E] of [m * 2^e]: [10^(E-1) <= m * 2^e < 10^E]. *)
Definition decimal_exponent (m : positive) (e : Z) : Z :=
  let len z := Z.of_nat (String.length (digits z)) in
  if 0 <=? e then len (Z.pos m * 2 ^ e)
  else
    let d := 2 ^ (- e) in
    if d <=? Z.pos m then len (Z.pos m / d)
    else
      let j := len d - len (Z.pos m) in
      if d <=? Z.pos m * 10 ^ j then 1 - j else - j.

(** The two [k]-digit decimals around [m * 2^e], whose decimal exponent
    is [E]: the one to take, if one of them rounds (to nearest, ties to
    even) to the float.  The floats next to [m * 2^e] are one unit [2^e]
    away, but for the one below a power of two, which is half a unit away.
    A decimal [v * 10^q] and a binary value [n * 2^(e-2)] are compared as
    the integers [v * dec] and [n * bin]. *)
Definition candidate (m : positive) (e : Z) (E k : Z) : option (Z * Z) :=
  let q := E - k in
  let dec := 10 ^ Z.max q 0 * 2 ^ Z.max (2 - e) 0 in
  let bin := 2 ^ Z.max (e - 2) 0 * 10 ^ Z.max (- q) 0 in
  let x := 4 * Z.pos m * bin in
  let low :=
    (if (Z.pos m =? 2 ^ 52) && (-1074 <? e) then 4 * Z.pos m - 1 else 4 * Z.pos m - 2)
    * bin in
  let high := (4 * Z.pos m + 2) * bin in
  let rounds v :=
    if Z.even (Z.pos m) then (low <=? v * dec) && (v * dec <=? high)
    else (low <? v * dec) && (v * dec <? high) in
  let lo := x / dec in
  let hi := lo + 1 in
  match rounds lo, rounds hi with
  | true, true =>
      match (2 * lo + 1) * dec ?= 2 * x with
      | Gt => Some (lo, q)
      | Lt => Some (hi, q)
      | Eq => if Z.even lo then Some (lo, q) else Some (hi, q)
      end
  | true, false => Some (lo, q)
  | false, true => Some (hi, q)
  | false, false => None
  end.

(** The fewest digits, between [lo] and [hi], of a decimal that rounds to
    the float, [hi] digits being enough.  A decimal that rounds to the
    float is also a decimal of more digits, so that the search can halve
    the range. *)
Fixpoint fewest_digits (fuel : nat) (m : positive) (e : Z) (E lo hi : Z) : Z :=
  match fuel with
  | O => hi
  | S fuel' =>
      if hi <=? lo then hi
      else
        let mid := (lo + hi) / 2 in
        match candidate m e E mid with
        | Some _ => fewest_digits fuel' m e E lo mid
        | None => fewest_digits fuel' m e E (mid + 1) hi
        end
  end.

(** The shortest decimal: 17 digits always suffice, and the exact decimal
    of the float stands for what is never reached. *)
Definition shortest (m : positive) (e : Z) : Z * Z :=
  let E := decimal_exponent m e in
  match candidate m e E (fewest_digits 5 m e E 1 17) with
  | Some r => r
  | None => (Z.pos m * 2 ^ Z.max e 0 * 5 ^ Z.max (- e) 0, Z.min e 0)
  end.

(** [v * 10^q] rounded to a multiple of [10^(-f)], halves away from zero:
    the multiple, counted in units of [10^(-f)]. *)
Definition round_decimal (v q f : Z) : Z :=
  if 0 <=? q + f then v * 10 ^ (q + f)
  else let d := 10 ^ (- (q + f)) in (2 * v + d) / (2 * d).

(** [new Intl.NumberFormat('en-US', {style: 'currency', currency: 'USD',
    maximumFractionDigits: 0}).format(x)]: whole dollars, half rounded away
    from zero, grouped. *)
Definition Intl_currency (x : float) : string :=
  match Prim2SF x with
  | S754_nan => "$NaN"
  | S754_infinity s => sign_str s ++ "$∞"
  | S754_zero s => sign_str s ++ "$0"
  | S754_finite s m e =>
      let '(v, q) := shortest m e in
      sign_str s ++ "$" ++ group3 (digits (round_decimal v q 0))
  end.

(** [new Intl.NumberFormat('en-US').format(x)]: grouped, at most three
    fraction digits. *)
Definition Intl_decimal (x : float) : string :=
  match Prim2SF x with
  | S754_nan => "NaN"
  | S754_infinity s => sign_str s ++ "∞"
  | S754_zero s => sign_str s ++ "0"
  | S754_finite s m e =>
      let '(v, q) := shortest m e in
      let n := round_decimal v q 3 in
      let frac := strip_zeros (pad_left 3 (digits (n mod 1000))) in
      sign_str s ++ group3 (digits (n / 1000)) ++
      match frac with
      | EmptyString => ""
      | _ => "." ++ frac
      end
  end.

(** [Number::toString] of a float that is at least [10^21]: the digits of
    its shortest decimal, in exponent notation. *)
Definition exponent_string (m : positive) (e : Z) : string :=
  let '(v, q) := shortest m e in
  let n := Z.of_nat (String.length (digits v)) + q in
  match strip_zeros (digits v) with
  | String d EmptyString => String d EmptyString
  | String d rest => String d ("." ++ rest)
  | EmptyString => "0"
  end ++ "e+" ++ digits (n - 1).

Inductive Error : Type :=
| GenericError (message : string)
| TypeError (message : string)
| RangeError (message : string).

Definition message (e : Error) : string :=
  match e with
  | GenericError m | TypeError m | RangeError m => m
  end.

(** The outcome of a call: a value, or a thrown exception. *)
Inductive result (A : Type) : Type :=
| Ok (a : A)
| Throw (e : Error).
Arguments Ok {A} a.
Arguments Throw {A} e.

(** [x.toFixed(f)]. *)
Definition toFixed (x : float) (f : Z) : result string :=
  if (f <? 0) || (100 <? f) then
    Throw (RangeError "toFixed() digits argument must be between 0 and 100")
  else
    Ok match Prim2SF x with
       | S754_nan => "NaN"
       | S754_infinity s => sign_str s ++ "Infinity"
       | S754_zero _ => if f =? 0 then "0" else "0." ++ zeros (Z.to_nat f)
       | S754_finite s m e =>
           sign_str s ++
           if 10 ^ 21 <=? round_scaled m e 1 then exponent_string m e
           else
             let n := round_scaled m e (10 ^ f) in
             let d := pad_left (Z.to_nat f + 1) (digits n) in
             let k := (String.length d - Z.to_nat f)%nat in
             if f =? 0 then d
             else substring 0 k d ++ "." ++ substring k (Z.to_nat f) d
       end.

(** *** [Math.floor] and the conversion of an integer to a float *)

(** The float of an integer below [2^53] in magnitude (exact). *)
Definition of_Z (z : Z) : float :=
  if z <? 0 then (- PrimFloat.of_uint63 (Uint63.of_Z (- z)))%float
  else PrimFloat.of_uint63 (Uint63.of_Z z).

(** The largest integer not above the float, when the float is finite. *)
Definition floor_Z (x : float) : option Z :=
  match Prim2SF x with
  | S754_zero _ => Some 0
  | S754_finite s m e =>
      if 0 <=? e then Some ((if s then -1 else 1) * (Z.pos m * 2 ^ e))
      else let d := 2 ^ (- e) in
           Some (if s then - ((Z.pos m + d - 1) / d) else Z.pos m / d)
  | _ => None
  end.

Definition Math_floor (x : float) : float :=
  match Prim2SF x with
  | S754_finite s m e =>
      if 0 <=? e then x
      else match floor_Z x with
           | Some z => of_Z z
           | None => x
           end
  | _ => x
  end.

(** *** Dates *)

(** The civil date of a day number counted from 1970-01-01. *)
Definition civil_from_days (days : Z) : Z * Z * Z :=
  let z := days + 719468 in
  let era := z / 146097 in
  let doe := z - era * 146097 in
  let yoe := (doe - doe / 1460 + doe / 36524 - doe / 146096) / 365 in
  let doy := doe - (365 * yoe + yoe / 4 - yoe / 100) in
  let mp := (5 * doy + 2) / 153 in
  let d := doy - (153 * mp + 2) / 5 + 1 in
  let m := if mp <? 10 then mp + 3 else mp - 9 in
  let y := yoe + era * 400 + (if m <=? 2 then 1 else 0) in
  (y, m, d).

Definition pad_digits (n : nat) (z : Z) : string := pad_left n (digits z).

(** The year of an ISO date string: four digits, or a sign and six. *)
Definition iso_year (y : Z) : string :=
  if (0 <=? y) && (y <=? 9999) then pad_digits 4 y
  else if y <? 0 then "-" ++ pad_digits 6 (- y)
  else "+" ++ pad_digits 6 y.

(** The time value of [new Date(t)]: [t] truncated to an integer, when it
    is finite and within 8.64e15 milliseconds of the epoch. *)
Definition TimeClip (t : float) : option Z :=
  match Prim2SF t with
  | S754_zero _ => Some 0
  | S754_finite s m e =>
      let a := if 0 <=? e then Z.pos m * 2 ^ e else Z.pos m / 2 ^ (- e) in
      if a <=? 8640000000000000 then Some (if s then - a else a) else None
  | _ => None
  end.

(** [new Date(t).toISOString().split('T')[0]]. *)
Definition Date_toISODate (t : float) : result string :=
  match TimeClip t with
  | None => Throw (RangeError "Invalid time value")
  | Some tv =>
      let '(y, m, d) := civil_from_days (tv / 86400000) in
      Ok (iso_year y ++ "-" ++ pad_digits 2 m ++ "-" ++ pad_digits 2 d)
  end.

(** *** Object literals used as tables

    An object literal inherits the properties of [Object.prototype].
    Reading a key that the object does not own gives the inherited value:
    a function for eleven of these names, and the prototype object itself
    for [__proto__]; every one of them is truthy. *)
Definition Object_prototype : list string :=
  [ "constructor"; "__defineGetter__"; "__defineSetter__"; "hasOwnProperty";
    "__lookupGetter__"; "__lookupSetter__"; "isPrototypeOf"; "propertyIsEnumerable";
    "toString"; "valueOf"; "__proto__"; "toLocaleString" ].

Definition inherited (key : string) : bool :=
  existsb (String.eqb key) Object_prototype.

(** The array index that a key denotes, if any: the key is the decimal
    numeral of an integer below [2^32 - 1]. *)
Definition arrayIndex (key : string) : option N :=
  match NilZero.uint_of_string key with
  | Some u =>
      let n := N.of_uint u in
      if String.eqb (NilZero.string_of_uint (N.to_uint n)) key && (n <? 4294967295)%N
      then Some n else None
  | None => None
  end.

Fixpoint insert_index (i : N) (k : string) (sorted : list (N * string))
  : list (N * string) :=
  match sorted with
  | [] => [(i, k)]
  | (j, k') :: rest =>
      if (i <? j)%N then (i, k) :: sorted else (j, k') :: insert_index i k rest
  end.

Fixpoint index_keys (keys : list string) : list (N * string) :=
  match keys with
  | [] => []
  | k :: rest =>
      match arrayIndex k with
      | Some i => insert_index i k (index_keys rest)
      | None => index_keys rest
      end
  end.

(** [Object.keys(table)]: the array indices in ascending order, then the
    other keys in the order of their creation. *)
Definition Object_keys {A : Type} (table : list (string * A)) : list string :=
  let keys := map fst table in
  (map snd (index_keys keys)
   ++ filter (fun k => match arrayIndex k with Some _ => false | None => true end) keys)%list.

End JS.

Import JS.

(** ** Exceptions and [Math.random]

    A call either returns or throws; [Math.random] is the only state the
    aggregator and the driver share.  The random source is a sequence of
    draws and a position in it. *)

Definition bind {A B : Type} (r : result A) (f : A -> result B) : result B :=
  match r with
  | Ok a => f a
  | Throw e => Throw e
  end.

Record Rng : Type := { stream : nat -> float; pos : nat }.

Definition M (A : Type) : Type := Rng -> result (A * Rng).

Definition ret {A : Type} (a : A) : M A := fun g => Ok (a, g).

Definition mbind {A B : Type} (c : M A) (f : A -> M B) : M B :=
  fun g => match c g with
           | Ok (a, g') => f a g'
           | Throw e => Throw e
           end.

Definition lift {A : Type} (r : result A) : M A :=
  fun g => match r with
           | Ok a => Ok (a, g)
           | Throw e => Throw e
           end.

Definition throw {A : Type} (e : Error) : M A := fun _ => Throw e.

Declare Scope js_scope.
Delimit Scope js_scope with js.
Notation "x <- c ;; k" := (mbind c (fun x => k))
  (at level 61, c at next level, right associativity) : js_scope.
Notation "x <-? c ;; k" := (bind c (fun x => k))
  (at level 61, c at next level, right associativity) : js_scope.
Local Open Scope js_scope.

(** [Math.random()]. *)
Definition Math_random : M float :=
  fun g => Ok (stream g (pos g), {| stream := stream g; pos := S (pos g) |}).

(** [array.map((element, index) => f)], the callback possibly throwing. *)
Fixpoint mapi_from {A B : Type} (f : A -> nat -> result B) (i : nat) (l : list A)
  : result (list B) :=
  match l with
  | [] => Ok []
  | x :: l' =>
      y <-? f x i ;;
      ys <-? mapi_from f (S i) l' ;;
      Ok (y :: ys)
  end.

Definition Array_map {A B : Type} (l : list A) (f : A -> nat -> result B)
  : result (list B) :=
  mapi_from f 0 l.

(** [array[i % array.length]]: the remainder by zero is [NaN], and no
    element is at [NaN]. *)
Definition at_index_mod {A : Type} (l : list A) (i : nat) : option A :=
  match List.length l with
  | O => None
  | S _ => nth_error l (Nat.modulo i (List.length l))
  end.

(** [array[x]] for a float [x]. *)
Definition at_float {A : Type} (l : list A) (x : float) : option A :=
  match floor_Z x with
  | Some z => if (0 <=? z) && PrimFloat.eqb (Math_floor x) x
              then nth_error l (Z.to_nat z) else None
  | None => None
  end.

(** [array.slice(start, end)]. *)
Definition relative_index (len k : Z) : Z :=
  if k <? 0 then Z.max (len + k) 0 else Z.min k len.

Definition slice {A : Type} (l : list A) (start end_ : Z) : list A :=
  let len := Z.of_nat (List.length l) in
  let k := relative_index len start in
  let final := relative_index len end_ in
  firstn (Z.to_nat (final - k)) (skipn (Z.to_nat k) l).

(** ** The input: [productData] *)

Module Entity.
(** An element of [topSuppliers] or [topBuyers]. *)
Record t : Type := { name : string; country : string; value : JS.value }.
End Entity.

Module Country.
(** An element of [importingCountries] or [exportingCountries]. *)
Record t : Type :=
  { country : string; value : JS.value; share : JS.value; shipments : JS.value }.
End Country.

Module TopCountry.
Record t : Type := { country : string; count : JS.value }.
End TopCountry.

Module PricePoint.
Record t : Type := { date : string; price : JS.value }.
End PricePoint.

Module ProductData.
Record t : Type :=
  { name : option string;
    description : option string;
    hsCode : option string;
    category : option string;
    totalRecords : JS.value;
    totalValue : JS.value;
    avgPrice : JS.value;
    priceVolatility : JS.value;
    uniqueSuppliers : JS.value;
    uniqueBuyers : JS.value;
    marketGrowth : JS.value;
    supplierConcentration : JS.value;
    buyerConcentration : JS.value;
    minPrice : JS.value;
    maxPrice : JS.value;
    dateRange : option string;
    topImportCountry : option TopCountry.t;
    topExportCountry : option TopCountry.t;
    topSuppliers : option (list Entity.t);
    topBuyers : option (list Entity.t);
    importingCountries : option (list Country.t);
    exportingCountries : option (list Country.t);
    priceHistory : option (list PricePoint.t) }.
End ProductData.

(** ** The normalized view: [processedData] *)

Module ProductInfo.
Record t : Type :=
  { name : string; description : string; hsCode : string; category : string;
    averagePrice : string }.
End ProductInfo.

Module Market.
Record t : Type :=
  { totalRecords : string;
    totalValue : string;
    avgPrice : string;
    avgTransactionValue : string;
    priceVolatility : string;
    uniqueSuppliers : string;
    uniqueBuyers : string;
    supplierDiversity : string;
    buyerDiversity : string;
    marketGrowth : string;
    topImportCountry : TopCountry.t;
    topExportCountry : TopCountry.t;
    dateRange : string }.
End Market.

Module RankedCountry.
Record t : Type :=
  { rank : Z; country : string; value : string; share : string;
    rawValue : JS.value; rawShare : JS.value }.
End RankedCountry.

Module Geography.
Record t : Type :=
  { importingCountries : list RankedCountry.t;
    exportingCountries : list RankedCountry.t }.
End Geography.

Module RankedEntity.
Record t : Type :=
  { rank : Z; name : string; country : string; value : string; share : string;
    rawValue : JS.value; rawShare : float }.
End RankedEntity.

(** An object used as a table from country to entities: its own properties,
    in the order of their creation. *)
Definition ByCountry : Type := list (string * list Entity.t).

Module Suppliers.
Record t : Type :=
  { topSuppliers : list RankedEntity.t; suppliersByCountry : ByCountry }.
End Suppliers.

Module Buyers.
Record t : Type :=
  { topBuyers : list RankedEntity.t; buyersByCountry : ByCountry }.
End Buyers.

Module PriceEntry.
Record t : Type := { date : string; price : string; rawPrice : JS.value }.
End PriceEntry.

Module CountryPrice.
Record t : Type := { country : string; avgPrice : string; rawPrice : float }.
End CountryPrice.

Module Pricing.
Record t : Type :=
  { currentPrice : string;
    priceRange_min : string;
    priceRange_max : string;
    volatility : string;
    priceHistory : list PriceEntry.t;
    priceByCountry : list CountryPrice.t }.
End Pricing.

Module ShipmentRecord.
Record t : Type :=
  { id : Z;
    date : string;
    supplier : string;
    supplierCountry : string;
    buyer : string;
    buyerCountry : string;
    quantity : float;
    unitPrice : string;
    totalValue : string;
    hsCode : string;
    portOfLoading : option string;
    portOfDischarge : option string }.
End ShipmentRecord.

Module Shipments.
Record t : Type :=
  { totalShipments : nat;
    shipmentRecords : list ShipmentRecord.t;
    shipmentsPerSlide : Z;
    totalSlides : Z }.
End Shipments.

Module ProcessedData.
Record t : Type :=
  { product : ProductInfo.t;
    market : Market.t;
    geography : Geography.t;
    suppliers : Suppliers.t;
    buyers : Buyers.t;
    pricing : Pricing.t;
    shipments : Shipments.t }.
End ProcessedData.

(** ** The aggregator: [DataProcessor] *)

Module DataProcessor.

(** *** Formatting *)

Definition formatCurrency (value : JS.value) : string :=
  Intl_currency (or_num value 0).

Definition formatNumber (value : JS.value) : string :=
  Intl_decimal (or_num value 0).

Definition formatPercentage (value : JS.value) : result string :=
  s <-? toFixed (or_num value 0) 1 ;;
  Ok (s ++ "%").

(** *** Grouping by country *)

(** The own property of a key, the object being kept as the list of its
    own properties in the order of their creation. *)
Fixpoint lookup {A : Type} (k : string) (table : list (string * A)) : option A :=
  match table with
  | [] => None
  | (k', a) :: rest => if String.eqb k' k then Some a else lookup k rest
  end.

(** [table[k] = a] on the own properties. *)
Fixpoint assign {A : Type} (k : string) (a : A) (table : list (string * A))
  : list (string * A) :=
  match table with
  | [] => [(k, a)]
  | (k', a') :: rest =>
      if String.eqb k' k then (k', a) :: rest else (k', a') :: assign k a rest
  end.

(** [if (!grouped[k]) grouped[k] = []; grouped[k].push(x)], where
    [grouped] starts as [{}] and [what] names the loop variable.  A key that
    [grouped] owns holds an array, to which [x] is pushed; a key it does not
    own is given a new array, unless it is a name of [Object.prototype]:
    then [grouped[k]] is the inherited value, no array is created, and the
    call of its [push], which is [undefined], throws. *)
Definition push_at (what : string) (k : string) (x : Entity.t) (grouped : ByCountry)
  : result ByCountry :=
  match lookup k grouped with
  | Some xs => Ok (assign k (xs ++ [x])%list grouped)
  | None =>
      if inherited k
      then Throw (TypeError ("grouped[" ++ what ++ ".country].push is not a function"))
      else Ok (assign k [x] grouped)
  end.

(** [entities.forEach(entity => ...)] over the loop body above. *)
Fixpoint group_into (what : string) (entities : list Entity.t) (grouped : ByCountry)
  : result ByCountry :=
  match entities with
  | [] => Ok grouped
  | entity :: rest =>
      grouped' <-? push_at what (Entity.country entity) entity grouped ;;
      group_into what rest grouped'
  end.

Definition groupSuppliersByCountry (suppliers : list Entity.t) : result ByCountry :=
  group_into "supplier" suppliers [].

Definition groupBuyersByCountry (buyers : list Entity.t) : result ByCountry :=
  group_into "buyer" buyers [].

(** *** Random fields of a shipment record *)

Definition ports : list (string * list string) :=
  [ ("USA", ["New York"; "Los Angeles"; "Miami"; "Houston"]);
    ("India", ["Mumbai"; "Chennai"; "Kolkata"; "Cochin"]);
    ("China", ["Shanghai"; "Shenzhen"; "Qingdao"; "Tianjin"]);
    ("Germany", ["Hamburg"; "Bremen"; "Bremerhaven"]);
    ("UK", ["London"; "Southampton"; "Liverpool"]);
    ("France", ["Le Havre"; "Marseille"; "Dunkirk"]) ].

Definition generateRandomDate : M string :=
  r <- Math_random ;;
  let start := 1672531200000%float in
  let end_ := 1703980800000%float in
  lift (Date_toISODate (start + r * (end_ - start))%float).

Definition generateRandomQuantity : M float :=
  r <- Math_random ;;
  ret (Math_floor (r * 10000) + 100)%float.

(** [ports[country] || ['Unknown Port']], then the element at a random
    index.  For a name of [Object.prototype] that is not a key of [ports],
    [ports[country]] is the inherited function (or the prototype object),
    which is truthy and has no element at the index drawn: the result is
    [undefined]. *)
Definition generateRandomPort (country : string) : M (option string) :=
  let countryPorts :=
    match lookup country ports with
    | Some l => Some l
    | None => if inherited country then None else Some ["Unknown Port"]
    end in
  r <- Math_random ;;
  ret match countryPorts with
      | Some l => at_float l (Math_floor (r * of_Z (Z.of_nat (List.length l))))%float
      | None => None
      end.

Section Methods.

Variable productData : ProductData.t.

Definition generateRandomPrice : M float :=
  let basePrice := or_num (ProductData.avgPrice productData) 100 in
  let variation := (basePrice * 0.3)%float in
  r <- Math_random ;;
  ret (basePrice + (r - 0.5) * variation)%float.

Definition generateRandomValue : M float :=
  q <- generateRandomQuantity ;;
  p <- generateRandomPrice ;;
  ret (q * p)%float.

(** *** The sections of the view *)

Definition processProductInfo : ProductInfo.t :=
  {| ProductInfo.name := or_str (ProductData.name productData) "Unknown Product";
     ProductInfo.description :=
       or_str (ProductData.description productData) "Product description not available";
     ProductInfo.hsCode := or_str (ProductData.hsCode productData) "N/A";
     ProductInfo.category := or_str (ProductData.category productData) "General";
     ProductInfo.averagePrice :=
       formatCurrency (num (or_num (ProductData.avgPrice productData) 0)) |}.

Definition unknownCountry : TopCountry.t :=
  {| TopCountry.country := "Unknown"; TopCountry.count := num 0 |}.

Definition processMarketData : result Market.t :=
  let data := productData in
  let totalRecords := formatNumber (num (or_num (ProductData.totalRecords data) 0)) in
  let totalValue := formatCurrency (num (or_num (ProductData.totalValue data) 0)) in
  let avgPrice := formatCurrency (num (or_num (ProductData.avgPrice data) 0)) in
  let avgTransactionValue :=
    formatCurrency (num (or_num (ProductData.totalValue data) 0
                         / or_num (ProductData.totalRecords data) 1)%float) in
  priceVolatility <-? formatPercentage (num (or_num (ProductData.priceVolatility data) 0)) ;;
  let uniqueSuppliers := formatNumber (num (or_num (ProductData.uniqueSuppliers data) 0)) in
  let uniqueBuyers := formatNumber (num (or_num (ProductData.uniqueBuyers data) 0)) in
  supplierDiversity <-?
    formatPercentage (num (or_num (ProductData.supplierConcentration data) 0)) ;;
  buyerDiversity <-?
    formatPercentage (num (or_num (ProductData.buyerConcentration data) 0)) ;;
  marketGrowth <-? formatPercentage (num (or_num (ProductData.marketGrowth data) 0)) ;;
  Ok {| Market.totalRecords := totalRecords;
        Market.totalValue := totalValue;
        Market.avgPrice := avgPrice;
        Market.avgTransactionValue := avgTransactionValue;
        Market.priceVolatility := priceVolatility;
        Market.uniqueSuppliers := uniqueSuppliers;
        Market.uniqueBuyers := uniqueBuyers;
        Market.supplierDiversity := supplierDiversity;
        Market.buyerDiversity := buyerDiversity;
        Market.marketGrowth := marketGrowth;
        Market.topImportCountry :=
          match ProductData.topImportCountry data with
          | Some c => c
          | None => unknownCountry
          end;
        Market.topExportCountry :=
          match ProductData.topExportCountry data with
          | Some c => c
          | None => unknownCountry
          end;
        Market.dateRange := or_str (ProductData.dateRange data) "N/A" |}.

Definition rankCountry (country : Country.t) (index : nat) : result RankedCountry.t :=
  let value := formatCurrency (Country.value country) in
  share <-? formatPercentage (Country.share country) ;;
  Ok {| RankedCountry.rank := Z.of_nat index + 1;
        RankedCountry.country := Country.country country;
        RankedCountry.value := value;
        RankedCountry.share := share;
        RankedCountry.rawValue := Country.value country;
        RankedCountry.rawShare := Country.share country |}.

Definition processGeographicData : result Geography.t :=
  let importingCountries := or_nil (ProductData.importingCountries productData) in
  let exportingCountries := or_nil (ProductData.exportingCountries productData) in
  importing <-? Array_map importingCountries rankCountry ;;
  exporting <-? Array_map exportingCountries rankCountry ;;
  Ok {| Geography.importingCountries := importing;
        Geography.exportingCountries := exporting |}.

(** The callback of [suppliers.map] and of [buyers.map]. *)
Definition rankEntity (entity : Entity.t) (index : nat) : result RankedEntity.t :=
  let value := formatCurrency (Entity.value entity) in
  let rawShare :=
    (JS.div (Entity.value entity) (ProductData.totalValue productData) * 100)%float in
  share <-? formatPercentage (num rawShare) ;;
  Ok {| RankedEntity.rank := Z.of_nat index + 1;
        RankedEntity.name := Entity.name entity;
        RankedEntity.country := Entity.country entity;
        RankedEntity.value := value;
        RankedEntity.share := share;
        RankedEntity.rawValue := Entity.value entity;
        RankedEntity.rawShare := rawShare |}.

Definition processSupplierData : result Suppliers.t :=
  let suppliers := or_nil (ProductData.topSuppliers productData) in
  ranked <-? Array_map suppliers rankEntity ;;
  byCountry <-? groupSuppliersByCountry suppliers ;;
  Ok {| Suppliers.topSuppliers := ranked;
        Suppliers.suppliersByCountry := byCountry |}.

Definition processBuyerData : result Buyers.t :=
  let buyers := or_nil (ProductData.topBuyers productData) in
  ranked <-? Array_map buyers rankEntity ;;
  byCountry <-? groupBuyersByCountry buyers ;;
  Ok {| Buyers.topBuyers := ranked;
        Buyers.buyersByCountry := byCountry |}.

Definition calculatePriceByCountry : list CountryPrice.t :=
  let countries := or_nil (ProductData.importingCountries productData) in
  map (fun country =>
         let rawPrice :=
           (ToNumber (Country.value country) / or_num (Country.shipments country) 1)%float in
         {| CountryPrice.country := Country.country country;
            CountryPrice.avgPrice := formatCurrency (num rawPrice);
            CountryPrice.rawPrice := rawPrice |})
      countries.

Definition processPricingData : result Pricing.t :=
  let priceHistory := or_nil (ProductData.priceHistory productData) in
  let currentPrice := formatCurrency (num (or_num (ProductData.avgPrice productData) 0)) in
  let min := formatCurrency (num (or_num (ProductData.minPrice productData) 0)) in
  let max := formatCurrency (num (or_num (ProductData.maxPrice productData) 0)) in
  volatility <-?
    formatPercentage (num (or_num (ProductData.priceVolatility productData) 0)) ;;
  Ok {| Pricing.currentPrice := currentPrice;
        Pricing.priceRange_min := min;
        Pricing.priceRange_max := max;
        Pricing.volatility := volatility;
        Pricing.priceHistory :=
          map (fun item =>
                 {| PriceEntry.date := PricePoint.date item;
                    PriceEntry.price := formatCurrency (PricePoint.price item);
                    PriceEntry.rawPrice := PricePoint.price item |})
              priceHistory;
        Pricing.priceByCountry := calculatePriceByCountry |}.

(** *** Shipment records *)

Definition unknownSupplier : Entity.t :=
  {| Entity.name := "Unknown Supplier"; Entity.country := "Unknown";
     Entity.value := undefined |}.

Definition unknownBuyer : Entity.t :=
  {| Entity.name := "Unknown Buyer"; Entity.country := "Unknown";
     Entity.value := undefined |}.

Definition unknownImporter : Country.t :=
  {| Country.country := "Unknown"; Country.value := undefined;
     Country.share := undefined; Country.shipments := undefined |}.

Definition or_else {A : Type} (o : option A) (d : A) : A :=
  match o with
  | Some a => a
  | None => d
  end.

(** The three picks at the head of the loop body. *)
Definition pickSupplier (i : nat) : Entity.t :=
  or_else (at_index_mod (or_nil (ProductData.topSuppliers productData)) i) unknownSupplier.

Definition pickBuyer (i : nat) : Entity.t :=
  or_else (at_index_mod (or_nil (ProductData.topBuyers productData)) i) unknownBuyer.

Definition pickCountry (i : nat) : Country.t :=
  or_else (at_index_mod (or_nil (ProductData.importingCountries productData)) i)
          unknownImporter.

(** The body of the loop at index [i]: the record pushed. *)
Definition shipmentRecord (i : nat) : M ShipmentRecord.t :=
  let supplier := pickSupplier i in
  let buyer := pickBuyer i in
  let country := pickCountry i in
  date <- generateRandomDate ;;
  quantity <- generateRandomQuantity ;;
  price <- generateRandomPrice ;;
  value <- generateRandomValue ;;
  portOfLoading <- generateRandomPort (Entity.country supplier) ;;
  portOfDischarge <- generateRandomPort (Entity.country buyer) ;;
  ret {| ShipmentRecord.id := Z.of_nat i + 1;
         ShipmentRecord.date := date;
         ShipmentRecord.supplier := Entity.name supplier;
         ShipmentRecord.supplierCountry := Entity.country supplier;
         ShipmentRecord.buyer := Entity.name buyer;
         ShipmentRecord.buyerCountry := Entity.country buyer;
         ShipmentRecord.quantity := quantity;
         ShipmentRecord.unitPrice := formatCurrency (num price);
         ShipmentRecord.totalValue := formatCurrency (num value);
         ShipmentRecord.hsCode := or_str (ProductData.hsCode productData) "N/A";
         ShipmentRecord.portOfLoading := portOfLoading;
         ShipmentRecord.portOfDischarge := portOfDischarge |}.

(** [for (let i = start; i < start + n; i++) records.push(...)]. *)
Fixpoint recordsLoop (n : nat) (i : nat) (records : list ShipmentRecord.t)
  : M (list ShipmentRecord.t) :=
  match n with
  | O => ret records
  | S n' =>
      record <- shipmentRecord i ;;
      recordsLoop n' (S i) (records ++ [record])%list
  end.

Definition generateShipmentRecords : M (list ShipmentRecord.t) :=
  recordsLoop 2340 0 [].

Definition processShipmentData : M Shipments.t :=
  shipments <- generateShipmentRecords ;;
  ret {| Shipments.totalShipments := List.length shipments;
         Shipments.shipmentRecords := shipments;
         Shipments.shipmentsPerSlide := 10;
         Shipments.totalSlides := (Z.of_nat (List.length shipments) + 9) / 10 |}.

Definition processAllData : M ProcessedData.t :=
  let product := processProductInfo in
  market <- lift processMarketData ;;
  geography <- lift processGeographicData ;;
  suppliers <- lift processSupplierData ;;
  buyers <- lift processBuyerData ;;
  pricing <- lift processPricingData ;;
  shipments <- processShipmentData ;;
  ret {| ProcessedData.product := product;
         ProcessedData.market := market;
         ProcessedData.geography := geography;
         ProcessedData.suppliers := suppliers;
         ProcessedData.buyers := buyers;
         ProcessedData.pricing := pricing;
         ProcessedData.shipments := shipments |}.

End Methods.

(** [new DataProcessor(productData)]. *)
Record t : Type :=
  { productData : ProductData.t; processedData : ProcessedData.t }.

Definition new (productData : ProductData.t) : M t :=
  processedData <- processAllData productData ;;
  ret {| productData := productData; processedData := processedData |}.

Definition getProcessedData (self : t) : ProcessedData.t := processedData self.

End DataProcessor.

(** ** Slide definitions, slides and the rendering collaborators *)

Module SlideDef.
(** An entry of the structure table. *)
Record t : Type :=
  { id : Z;
    type : string;
    title : string;
    countryRank : option Z;
    supplierRank : option Z;
    importerRank : option Z;
    recordStart : option Z;
    recordEnd : option Z }.
End SlideDef.

Module Slide.
Record t : Type := { id : Z; type : string; title : string; html : string }.
End Slide.

(** The methods that build one slide each. *)
Inductive Generator : Type :=
| generateTitleAgendaSlide
| generateTableOfContentsSlide
| generateExecutiveSummarySlide
| generateProductOverviewSlide
| generateMarketShareAnalysisSlide
| generateGeographyIntelligenceSlide
| generateSupplierBuyerRelationshipsSlide
| generateTopImportingCountriesSlide
| generateImportingCountrySuppliersSlide
| generateImportingCountryCompaniesSlide
| generateTopExportingCountriesSlide
| generateExportingCountryDestinationsSlide
| generateExportingCountryCompaniesSlide
| generateSupplierBuyerIntelligenceSlide
| generateTopSuppliersAnalysisSlide
| generateSupplierDetailedAnalysisSlide
| generateTopImportersAnalysisSlide
| generateImporterDetailedAnalysisSlide
| generatePricingAnalysisSlide.

(** The collaborators of the generator.  The template engine and the chart
    generator turn a resolved slide into markup: their output is not part
    of the data model; a call may consume random draws and may throw.  The
    main template turns the title, the markup of the slides, their number
    and the product name into the document, unless it cannot be loaded.
    The file system ([fs-extra]) creates the directory of a path, writes a
    text to a path and writes the summary to a path, and each of these may
    throw.  [generatedAt] is the time of the run, as [toISOString] prints
    it. *)
Record Renderer : Type :=
  { html : Generator -> SlideDef.t -> ProcessedData.t -> M string;
    recordsHtml : SlideDef.t -> list ShipmentRecord.t -> ProcessedData.t -> M string;
    document : string -> string -> nat -> string -> result string;
    ensureDir : string -> result unit;
    writeFile : string -> string -> result unit;
    writeSummary : string -> result unit;
    generatedAt : string }.

(** [list[rank - 1]]: nothing when the rank is missing or out of bounds. *)
Definition at_rank {A : Type} (l : list A) (rank : option Z) : option A :=
  match rank with
  | None => None
  | Some r => if 0 <=? r - 1 then nth_error l (Z.to_nat (r - 1)) else None
  end.

(** A rank inside a template literal. *)
Definition show (rank : option Z) : string :=
  match rank with
  | None => "undefined"
  | Some r => string_of_Z r
  end.

(** [for (const slideDef of slideDefinitions) slides.push(generate(slideDef))]. *)
Fixpoint pushSlides (generate : SlideDef.t -> M Slide.t)
         (slideDefinitions : list SlideDef.t) (slides : list Slide.t)
  : M (list Slide.t) :=
  match slideDefinitions with
  | [] => ret slides
  | slideDef :: rest =>
      slide <- generate slideDef ;;
      pushSlides generate rest (slides ++ [slide])%list
  end.

Definition unknownSlideType {A : Type} (slideDef : SlideDef.t) : M A :=
  throw (GenericError ("Unknown slide type: " ++ SlideDef.type slideDef)).

(** A slide that keeps the title of its definition. *)
Definition plainSlide (R : Renderer) (data : ProcessedData.t)
           (g : Generator) (slideDef : SlideDef.t) : M Slide.t :=
  markup <- html R g slideDef data ;;
  ret {| Slide.id := SlideDef.id slideDef;
         Slide.type := SlideDef.type slideDef;
         Slide.title := SlideDef.title slideDef;
         Slide.html := markup |}.

(** A slide about the entry of a ranked list: the lookup comes first and
    throws when nothing is at the rank. *)
Definition rankedSlide {A : Type} (R : Renderer) (data : ProcessedData.t)
           (g : Generator) (slideDef : SlideDef.t)
           (list : list A) (rank : option Z) (what : string) (title : A -> string)
  : M Slide.t :=
  match at_rank list rank with
  | None => throw (GenericError (what ++ " at rank " ++ show rank ++ " not found"))
  | Some entry =>
      markup <- html R g slideDef data ;;
      ret {| Slide.id := SlideDef.id slideDef;
             Slide.type := SlideDef.type slideDef;
             Slide.title := title entry;
             Slide.html := markup |}
  end.

(** ** The section generators *)

Module FoundationSection.
Section Self.
Variable R : Renderer.
Variable data : ProcessedData.t.

Definition generateSlide (slideDef : SlideDef.t) : M Slide.t :=
  let ty := SlideDef.type slideDef in
  if String.eqb ty "title_agenda" then
    plainSlide R data generateTitleAgendaSlide slideDef
  else if String.eqb ty "table_of_contents" then
    plainSlide R data generateTableOfContentsSlide slideDef
  else if String.eqb ty "executive_summary" then
    plainSlide R data generateExecutiveSummarySlide slideDef
  else if String.eqb ty "product_overview" then
    plainSlide R data generateProductOverviewSlide slideDef
  else if String.eqb ty "market_share_analysis" then
    plainSlide R data generateMarketShareAnalysisSlide slideDef
  else if String.eqb ty "geography_intelligence" then
    plainSlide R data generateGeographyIntelligenceSlide slideDef
  else if String.eqb ty "supplier_buyer_relationships" then
    plainSlide R data generateSupplierBuyerRelationshipsSlide slideDef
  else if String.eqb ty "top_importing_countries" then
    plainSlide R data generateTopImportingCountriesSlide slideDef
  else unknownSlideType slideDef.

Definition generateSlides (slideDefinitions : list SlideDef.t) : M (list Slide.t) :=
  pushSlides generateSlide slideDefinitions [].
End Self.
End FoundationSection.

Module ImportingCountriesSection.
Section Self.
Variable R : Renderer.
Variable data : ProcessedData.t.

Definition importingCountrySuppliersSlide (slideDef : SlideDef.t) : M Slide.t :=
  rankedSlide R data generateImportingCountrySuppliersSlide slideDef
    (Geography.importingCountries (ProcessedData.geography data))
    (SlideDef.countryRank slideDef) "Importing country"
    (fun importingCountry =>
       RankedCountry.country importingCountry ++ ": Top Supplier Countries").

Definition importingCountryCompaniesSlide (slideDef : SlideDef.t) : M Slide.t :=
  rankedSlide R data generateImportingCountryCompaniesSlide slideDef
    (Geography.importingCountries (ProcessedData.geography data))
    (SlideDef.countryRank slideDef) "Importing country"
    (fun importingCountry =>
       RankedCountry.country importingCountry ++ ": Top Supplier Companies").

Definition generateSlide (slideDef : SlideDef.t) : M Slide.t :=
  let ty := SlideDef.type slideDef in
  if String.eqb ty "importing_country_suppliers" then
    importingCountrySuppliersSlide slideDef
  else if String.eqb ty "importing_country_companies" then
    importingCountryCompaniesSlide slideDef
  else unknownSlideType slideDef.

Definition generateSlides (slideDefinitions : list SlideDef.t) : M (list Slide.t) :=
  pushSlides generateSlide slideDefinitions [].
End Self.
End ImportingCountriesSection.

Module ExportingCountriesSection.
Section Self.
Variable R : Renderer.
Variable data : ProcessedData.t.

Definition exportingCountryDestinationsSlide (slideDef : SlideDef.t) : M Slide.t :=
  rankedSlide R data generateExportingCountryDestinationsSlide slideDef
    (Geography.exportingCountries (ProcessedData.geography data))
    (SlideDef.countryRank slideDef) "Exporting country"
    (fun exportingCountry =>
       RankedCountry.country exportingCountry ++ ": Top Destination Countries").

Definition exportingCountryCompaniesSlide (slideDef : SlideDef.t) : M Slide.t :=
  rankedSlide R data generateExportingCountryCompaniesSlide slideDef
    (Geography.exportingCountries (ProcessedData.geography data))
    (SlideDef.countryRank slideDef) "Exporting country"
    (fun exportingCountry =>
       RankedCountry.country exportingCountry ++ ": Top Importer Companies").

Definition generateSlide (slideDef : SlideDef.t) : M Slide.t :=
  let ty := SlideDef.type slideDef in
  if String.eqb ty "top_exporting_countries" then
    plainSlide R data generateTopExportingCountriesSlide slideDef
  else if String.eqb ty "exporting_country_destinations" then
    exportingCountryDestinationsSlide slideDef
  else if String.eqb ty "exporting_country_companies" then
    exportingCountryCompaniesSlide slideDef
  else unknownSlideType slideDef.

Definition generateSlides (slideDefinitions : list SlideDef.t) : M (list Slide.t) :=
  pushSlides generateSlide slideDefinitions [].
End Self.
End ExportingCountriesSection.

Module SupplierBuyerSection.
Section Self.
Variable R : Renderer.
Variable data : ProcessedData.t.

Definition supplierDetailedAnalysisSlide (slideDef : SlideDef.t) : M Slide.t :=
  rankedSlide R data generateSupplierDetailedAnalysisSlide slideDef
    (Suppliers.topSuppliers (ProcessedData.suppliers data))
    (SlideDef.supplierRank slideDef) "Supplier"
    (fun supplier => RankedEntity.name supplier ++ " - Detailed Analysis").

Definition importerDetailedAnalysisSlide (slideDef : SlideDef.t) : M Slide.t :=
  rankedSlide R data generateImporterDetailedAnalysisSlide slideDef
    (Buyers.topBuyers (ProcessedData.buyers data))
    (SlideDef.importerRank slideDef) "Importer"
    (fun importer => RankedEntity.name importer ++ " - Detailed Analysis").

Definition generateSlide (slideDef : SlideDef.t) : M Slide.t :=
  let ty := SlideDef.type slideDef in
  if String.eqb ty "supplier_buyer_intelligence" then
    plainSlide R data generateSupplierBuyerIntelligenceSlide slideDef
  else if String.eqb ty "top_suppliers_analysis" then
    plainSlide R data generateTopSuppliersAnalysisSlide slideDef
  else if String.eqb ty "supplier_detailed_analysis" then
    supplierDetailedAnalysisSlide slideDef
  else if String.eqb ty "top_importers_analysis" then
    plainSlide R data generateTopImportersAnalysisSlide slideDef
  else if String.eqb ty "importer_detailed_analysis" then
    importerDetailedAnalysisSlide slideDef
  else unknownSlideType slideDef.

Definition generateSlides (slideDefinitions : list SlideDef.t) : M (list Slide.t) :=
  pushSlides generateSlide slideDefinitions [].
End Self.
End SupplierBuyerSection.

Module PricingSection.
Section Self.
Variable R : Renderer.
Variable data : ProcessedData.t.

Definition generateSlide (slideDef : SlideDef.t) : M Slide.t :=
  if String.eqb (SlideDef.type slideDef) "pricing_analysis" then
    plainSlide R data generatePricingAnalysisSlide slideDef
  else unknownSlideType slideDef.

Definition generateSlides (slideDefinitions : list SlideDef.t) : M (list Slide.t) :=
  pushSlides generateSlide slideDefinitions [].
End Self.
End PricingSection.

Module ShipmentRecordsSection.

(** [allRecords.slice(slideDef.recordStart - 1, slideDef.recordEnd)]: a
    missing start is [NaN], which [slice] reads as 0; a missing end is
    the length. *)
Definition slideRecords (slideDef : SlideDef.t) (allRecords : list ShipmentRecord.t)
  : list ShipmentRecord.t :=
  let startIndex :=
    match SlideDef.recordStart slideDef with
    | Some recordStart => recordStart - 1
    | None => 0
    end in
  let endIndex :=
    match SlideDef.recordEnd slideDef with
    | Some recordEnd => recordEnd
    | None => Z.of_nat (List.length allRecords)
    end in
  slice allRecords startIndex endIndex.

(** The text of a table cell, as the sequence of its UTF-16 code units. *)
Definition text : Type := list N.

Definition dots : text := [46; 46; 46]%N.

(** [t.substring(start, end)]: each bound is clamped to the text, and the
    two are swapped when the first is the larger. *)
Definition substring (t : text) (start end_ : Z) : text :=
  let len := Z.of_nat (List.length t) in
  let s := Z.min (Z.max start 0) len in
  let e := Z.min (Z.max end_ 0) len in
  firstn (Z.to_nat (Z.max s e - Z.min s e)) (skipn (Z.to_nat (Z.min s e)) t).

Definition truncateText (t : text) (maxLength : Z) : text :=
  if Z.of_nat (List.length t) <=? maxLength then t
  else (substring t 0 (maxLength - 3) ++ dots)%list.

(** What [countryCount[country]] holds: a number, or the string that
    [+ 1] makes of an inherited value. *)
Inductive counter : Type :=
| number (n : nat)
| str (s : string).

(** The string that [+] makes of the value inherited for a name of
    [Object.prototype]: the source text of a built-in function, as Node.js
    prints it, and "[object Object]" for the prototype object, which is
    what [__proto__] gives. *)
Definition inheritedText (key : string) : string :=
  if String.eqb key "__proto__" then "[object Object]"
  else "function " ++ (if String.eqb key "constructor" then "Object" else key)
         ++ "() { [native code] }".

(** [(countryCount[country] || 0) + 1]: the property is read through the
    prototype chain. *)
Definition next (country : string) (countryCount : list (string * counter)) : counter :=
  match DataProcessor.lookup country countryCount with
  | Some (number n) => number (S n)
  | Some (str EmptyString) => number 1
  | Some (str s) => str (s ++ "1")
  | None => if inherited country then str (inheritedText country ++ "1") else number 1
  end.

(** [countryCount[country] = (countryCount[country] || 0) + 1] on the
    object [countryCount], which starts as [{}].  The assignment to
    [__proto__] goes to the setter of [Object.prototype], which ignores a
    value that is not an object: no property is created. *)
Definition bump (country : string) (countryCount : list (string * counter))
  : list (string * counter) :=
  if String.eqb country "__proto__" then countryCount
  else DataProcessor.assign country (next country countryCount) countryCount.

Definition countCountries (countries : list string) : list (string * counter) :=
  fold_left (fun countryCount country => bump country countryCount) countries [].

(** [countryCount[a] > countryCount[b]] for two keys of the object: two
    numbers are compared as numbers and two strings as strings; a string
    held by the object is not a numeral, so that next to a number it
    converts to [NaN], and the comparison is false. *)
Definition greater (countryCount : list (string * counter)) (a b : string) : bool :=
  match DataProcessor.lookup a countryCount, DataProcessor.lookup b countryCount with
  | Some (number x), Some (number y) => Nat.ltb y x
  | Some (str x), Some (str y) => String.ltb y x
  | _, _ => false
  end.

(** [Object.keys(countryCount).reduce((a, b) => ... ? a : b)]: without an
    initial value, [reduce] throws on the empty array. *)
Definition getTopCountry (countries : list string) : result string :=
  let countryCount := countCountries countries in
  match Object_keys countryCount with
  | [] => Throw (TypeError "Reduce of empty array with no initial value")
  | first :: keys =>
      Ok (fold_left (fun a b => if greater countryCount a b then a else b) keys first)
  end.

Section Self.
Variable R : Renderer.
Variable data : ProcessedData.t.

Definition generateShipmentRecordsSlide
           (slideDef : SlideDef.t) (allRecords : list ShipmentRecord.t) : M Slide.t :=
  markup <- recordsHtml R slideDef (slideRecords slideDef allRecords) data ;;
  ret {| Slide.id := SlideDef.id slideDef;
         Slide.type := SlideDef.type slideDef;
         Slide.title :=
           "Shipment Records " ++ show (SlideDef.recordStart slideDef) ++ "-"
             ++ show (SlideDef.recordEnd slideDef);
         Slide.html := markup |}.

Definition generateSlides (slideDefinitions : list SlideDef.t) : M (list Slide.t) :=
  let shipmentRecords := Shipments.shipmentRecords (ProcessedData.shipments data) in
  pushSlides (fun slideDef => generateShipmentRecordsSlide slideDef shipmentRecords)
             slideDefinitions [].
End Self.
End ShipmentRecordsSection.

(** ** The orchestrator: the structure table and the driver *)

Module SectionPlan.
Record t : Type := { range : Z * Z; slides : list SlideDef.t }.
End SectionPlan.

Module SlideStructure.
Record t : Type :=
  { foundation : SectionPlan.t;
    importingCountries : SectionPlan.t;
    exportingCountries : SectionPlan.t;
    supplierBuyer : SectionPlan.t;
    pricing : SectionPlan.t;
    shipmentRecords : SectionPlan.t }.
End SlideStructure.

Module MainOrchestrator.

Import SlideStructure.

Definition entry (id : Z) (type title : string) : SlideDef.t :=
  {| SlideDef.id := id; SlideDef.type := type; SlideDef.title := title;
     SlideDef.countryRank := None; SlideDef.supplierRank := None;
     SlideDef.importerRank := None;
     SlideDef.recordStart := None; SlideDef.recordEnd := None |}.

Definition withCountryRank (rank : Z) (d : SlideDef.t) : SlideDef.t :=
  {| SlideDef.id := SlideDef.id d; SlideDef.type := SlideDef.type d;
     SlideDef.title := SlideDef.title d;
     SlideDef.countryRank := Some rank; SlideDef.supplierRank := None;
     SlideDef.importerRank := None;
     SlideDef.recordStart := None; SlideDef.recordEnd := None |}.

Definition withSupplierRank (rank : Z) (d : SlideDef.t) : SlideDef.t :=
  {| SlideDef.id := SlideDef.id d; SlideDef.type := SlideDef.type d;
     SlideDef.title := SlideDef.title d;
     SlideDef.countryRank := None; SlideDef.supplierRank := Some rank;
     SlideDef.importerRank := None;
     SlideDef.recordStart := None; SlideDef.recordEnd := None |}.

Definition withImporterRank (rank : Z) (d : SlideDef.t) : SlideDef.t :=
  {| SlideDef.id := SlideDef.id d; SlideDef.type := SlideDef.type d;
     SlideDef.title := SlideDef.title d;
     SlideDef.countryRank := None; SlideDef.supplierRank := None;
     SlideDef.importerRank := Some rank;
     SlideDef.recordStart := None; SlideDef.recordEnd := None |}.

Definition withRecords (recordStart recordEnd : Z) (d : SlideDef.t) : SlideDef.t :=
  {| SlideDef.id := SlideDef.id d; SlideDef.type := SlideDef.type d;
     SlideDef.title := SlideDef.title d;
     SlideDef.countryRank := None; SlideDef.supplierRank := None;
     SlideDef.importerRank := None;
     SlideDef.recordStart := Some recordStart; SlideDef.recordEnd := Some recordEnd |}.

(** [Array.from({length: n}, (_, i) => f(i))]. *)
Definition Array_from {A : Type} (n : nat) (f : Z -> A) : list A :=
  map (fun i => f (Z.of_nat i)) (seq 0 n).

(** The shipment entries: [n] batches of [size] records, numbered from
    [first].  The table uses 234 batches of 10 from slide 67. *)
Definition shipmentEntries (n : nat) (size first : Z) : list SlideDef.t :=
  Array_from n (fun i =>
    withRecords (i * size + 1) ((i + 1) * size)
      (entry (first + i) "shipment_records" ("Shipment Records " ++ string_of_Z (i + 1)))).

Definition defineSlideStructure : SlideStructure.t :=
  {| foundation :=
       {| SectionPlan.range := (1, 8);
          SectionPlan.slides :=
            [ entry 1 "title_agenda" "Title & Agenda generation";
              entry 2 "table_of_contents" "Table of Contents";
              entry 3 "executive_summary" "Executive Summary (Key Findings)";
              entry 4 "product_overview" "Product Overview";
              entry 5 "market_share_analysis"
                "Market share analysis- value, volume, import, export, countries";
              entry 6 "geography_intelligence"
                "Geography Import Export Intelligence- top 10 value and volume along with export and import";
              entry 7 "supplier_buyer_relationships"
                "Supplier-Buyer Relationships with countries- Sankey Diagram";
              entry 8 "top_importing_countries"
                "Top 10 Importing countries- name, market share and charts" ] |};
     importingCountries :=
       {| SectionPlan.range := (9, 23);
          SectionPlan.slides :=
            (Array_from 5 (fun i =>
               withCountryRank (i + 1)
                 (entry (9 + i) "importing_country_suppliers"
                    ("Top " ++ string_of_Z (i + 1)
                       ++ " Importing country- Who are the top 10 suppliers countries")))
             ++ Array_from 10 (fun i =>
               withCountryRank (i + 1)
                 (entry (14 + i) "importing_country_companies"
                    ("Top " ++ string_of_Z (i + 1)
                       ++ " Importing country- Who are the top 10 suppliers companies"))))%list |};
     exportingCountries :=
       {| SectionPlan.range := (24, 39);
          SectionPlan.slides :=
            (entry 24 "top_exporting_countries"
               "Top 10 Exporting countries- name, market share and charts"
             :: Array_from 5 (fun i =>
                  withCountryRank (i + 1)
                    (entry (25 + i) "exporting_country_destinations"
                       ("Top " ++ string_of_Z (i + 1)
                          ++ " Exporting country- Who are the top 10 destination countries")))
             ++ Array_from 10 (fun i =>
                  withCountryRank (i + 1)
                    (entry (30 + i) "exporting_country_companies"
                       ("Top " ++ string_of_Z (i + 1)
                          ++ " Exporting country- Who are the top 10 Importer companies"))))%list |};
     supplierBuyer :=
       {| SectionPlan.range := (40, 62);
          SectionPlan.slides :=
            (entry 40 "supplier_buyer_intelligence"
               "SUPPLIER & BUYER INTELLIGENCE - Sankey Diagram"
             :: entry 41 "top_suppliers_analysis"
                  "Top 15 Suppliers Analysis- market share, suppliers countries and importers name - Sankey Diagram"
             :: Array_from 10 (fun i =>
                  withSupplierRank (i + 1)
                    (entry (42 + i) "supplier_detailed_analysis"
                       ("Top " ++ string_of_Z (i + 1)
                          ++ " Supplier detailed analysis- price, number of destination countries, market share and charts")))
             ++ entry 52 "top_importers_analysis"
                  "Top 15 Importers Analysis- Market share, Suppliers countries and Importers name- Sankey Diagram"
             :: Array_from 10 (fun i =>
                  withImporterRank (i + 1)
                    (entry (53 + i) "importer_detailed_analysis"
                       ("Top " ++ string_of_Z (i + 1)
                          ++ " Importer detailed analysis- price, market share, number of suppliers countries and charts"))))%list |};
     pricing :=
       {| SectionPlan.range := (63, 63);
          SectionPlan.slides := [ entry 63 "pricing_analysis" "Pricing analysis (per unit)" ] |};
     shipmentRecords :=
       {| SectionPlan.range := (67, 300);
          SectionPlan.slides := shipmentEntries 234 10 67 |} |}.

(** The orchestrator object. *)
Record t : Type :=
  { productData : ProductData.t;
    slides : list Slide.t;
    dataProcessor : DataProcessor.t;
    slideStructure : SlideStructure.t }.

Definition new (productData : ProductData.t) : M t :=
  dataProcessor <- DataProcessor.new productData ;;
  ret {| productData := productData;
         slides := [];
         dataProcessor := dataProcessor;
         slideStructure := defineSlideStructure |}.

Definition deviation (slideCount : nat) : Error :=
  GenericError ("❌ STRUCTURE DEVIATION DETECTED: Expected 297 slides, got "
                  ++ string_of_Z (Z.of_nat slideCount)).

(** [generateAllSlides]: the sections in turn, then the count check.  The
    result is the orchestrator with its slides set. *)
Definition generateAllSlides (R : Renderer) (self : t) : M t :=
  let data := DataProcessor.getProcessedData (dataProcessor self) in
  let plan := slideStructure self in
  foundationSlides <- FoundationSection.generateSlides R data (SectionPlan.slides (foundation plan)) ;;
  importingSlides <-
    ImportingCountriesSection.generateSlides R data (SectionPlan.slides (importingCountries plan)) ;;
  exportingSlides <-
    ExportingCountriesSection.generateSlides R data (SectionPlan.slides (exportingCountries plan)) ;;
  supplierBuyerSlides <-
    SupplierBuyerSection.generateSlides R data (SectionPlan.slides (supplierBuyer plan)) ;;
  pricingSlides <- PricingSection.generateSlides R data (SectionPlan.slides (pricing plan)) ;;
  shipmentSlides <-
    ShipmentRecordsSection.generateSlides R data (SectionPlan.slides (shipmentRecords plan)) ;;
  let slideCount :=
    (List.length foundationSlides + List.length importingSlides
     + List.length exportingSlides + List.length supplierBuyerSlides
     + List.length pricingSlides + List.length shipmentSlides)%nat in
  if negb (Nat.eqb slideCount 297) then throw (deviation slideCount)
  else ret {| productData := productData self;
              slides := (foundationSlides ++ importingSlides ++ exportingSlides
                            ++ supplierBuyerSlides ++ pricingSlides ++ shipmentSlides)%list;
              dataProcessor := dataProcessor self;
              slideStructure := slideStructure self |}.

(** The number of entries of a structure table. *)
Definition totalEntries (plan : SlideStructure.t) : nat :=
  (List.length (SectionPlan.slides (foundation plan))
   + List.length (SectionPlan.slides (importingCountries plan))
   + List.length (SectionPlan.slides (exportingCountries plan))
   + List.length (SectionPlan.slides (supplierBuyer plan))
   + List.length (SectionPlan.slides (pricing plan))
   + List.length (SectionPlan.slides (shipmentRecords plan)))%nat.

(** A property inside a template literal. *)
Definition showName (name : option string) : string :=
  match name with
  | Some s => s
  | None => "undefined"
  end.

(** [exportToHTML]: the main template is loaded and filled, and the
    document is written to the output path.  The result is the document
    written (the call itself returns the path). *)
Definition exportToHTML (R : Renderer) (self : t) (outputPath : string) : result string :=
  let slidesHTML := String.concat "\n" (map Slide.html (slides self)) in
  html <-? document R (showName (ProductData.name (productData self))
                         ++ " Trade Intelligence Report")
                    slidesHTML (List.length (slides self))
                    (showName (ProductData.name (productData self))) ;;
  _ <-? writeFile R outputPath html ;;
  Ok html.

Record SectionReport : Type :=
  { name : string; reportRange : Z * Z; expected : Z; generatedCount : nat;
    status : string }.

Definition reportSection (self : t) (name : string) (section : SectionPlan.t)
  : SectionReport :=
  let '(first, last) := SectionPlan.range section in
  let sectionSlides :=
    filter (fun slide => (first <=? Slide.id slide) && (Slide.id slide <=? last))
           (slides self) in
  {| name := name;
     reportRange := SectionPlan.range section;
     expected := last - first + 1;
     generatedCount := List.length sectionSlides;
     status := if Z.of_nat (List.length sectionSlides) =? last - first + 1
               then "Complete" else "In Progress" |}.

Record ProgressReport : Type :=
  { totalSlides : Z; generatedSlides : nat; sections : list SectionReport }.

Definition generateProgressReport (self : t) : ProgressReport :=
  let plan := slideStructure self in
  {| totalSlides := 297;
     generatedSlides := List.length (slides self);
     sections :=
       [ reportSection self "foundation" (foundation plan);
         reportSection self "importingCountries" (importingCountries plan);
         reportSection self "exportingCountries" (exportingCountries plan);
         reportSection self "supplierBuyer" (supplierBuyer plan);
         reportSection self "pricing" (pricing plan);
         reportSection self "shipmentRecords" (shipmentRecords plan) ] |}.

End MainOrchestrator.

(** ** The entry point: [generate-300-slides.js] *)

Module Summary.
(** The object written to [generation-summary.json]. *)
Record t : Type :=
  { productName : option string;
    totalSlides : nat;
    generationTime : string;
    sections : list MainOrchestrator.SectionReport;
    outputFile : string;
    generatedAt : string }.
End Summary.

Module Main.

(** What a run leaves behind: the returned object, the document written
    (its path and its text) and the summary written. *)
Record Outcome : Type :=
  { success : bool;
    error : option string;
    totalSlides : option nat;
    outputFile : option (string * string);
    summary : option Summary.t }.

Definition summaryPath : string := "output/generation-summary.json".

(** The [try] block up to the export of the document: the orchestrator
    after generation, and the document written with its path. *)
Definition run (R : Renderer) (sampleProductData : ProductData.t)
  : M (MainOrchestrator.t * (string * string)) :=
  dataProcessor <- DataProcessor.new sampleProductData ;;
  orchestrator <- MainOrchestrator.new sampleProductData ;;
  orchestrator <- MainOrchestrator.generateAllSlides R orchestrator ;;
  let outputPath :=
    "output/" ++ MainOrchestrator.showName (ProductData.name sampleProductData)
      ++ "-300-slides.html" in
  _ <- lift (ensureDir R outputPath) ;;
  html <- lift (MainOrchestrator.exportToHTML R orchestrator outputPath) ;;
  ret (orchestrator, (outputPath, html)).

(** What the [catch] returns; [written] is the document, when the export
    had been done by then. *)
Definition caught (e : Error) (written : option (string * string)) : Outcome :=
  {| success := false;
     error := Some (message e);
     totalSlides := None;
     outputFile := written;
     summary := None |}.

(** [generatePresentation]: the run, then the summary; the [catch] turns
    an exception into a failed outcome. *)
Definition generatePresentation (R : Renderer) (sampleProductData : ProductData.t)
           (g : Rng) : Outcome :=
  match run R sampleProductData g with
  | Throw e => caught e None
  | Ok ((orchestrator, (outputPath, html)), _) =>
      let slides := MainOrchestrator.slides orchestrator in
      let progressReport := MainOrchestrator.generateProgressReport orchestrator in
      let summary :=
        {| Summary.productName := ProductData.name sampleProductData;
           Summary.totalSlides := List.length slides;
           Summary.generationTime := "N/A";
           Summary.sections := MainOrchestrator.sections progressReport;
           Summary.outputFile := outputPath;
           Summary.generatedAt := generatedAt R |} in
      match writeSummary R summaryPath with
      | Throw e => caught e (Some (outputPath, html))
      | Ok _ =>
          {| success := true;
             error := None;
             totalSlides := Some (List.length slides);
             outputFile := Some (outputPath, html);
             summary := Some summary |}
      end
  end.

End Main.

(** ** The sample input: [data/sample-product-data.js] *)

Module Sample.

Definition E (name country : string) (value : float) : Entity.t :=
  {| Entity.name := name; Entity.country := country; Entity.value := num value |}.

Definition C (country : string) (value share shipments : float) : Country.t :=
  {| Country.country := country; Country.value := num value;
     Country.share := num share; Country.shipments := num shipments |}.

Definition P (date : string) (price : float) : PricePoint.t :=
  {| PricePoint.date := date; PricePoint.price := num price |}.

Definition topSuppliers : list Entity.t :=
  [ E "Bristol-Myers Squibb" "USA" 245000000;
           E "Pfizer Inc" "USA" 187000000;
           E "Cipla Ltd" "India" 156000000;
           E "Teva Pharmaceutical" "Israel" 132000000;
           E "Sun Pharmaceutical" "India" 118000000;
           E "Fresenius Kabi" "Germany" 98000000;
           E "Mylan Pharmaceuticals" "USA" 87000000;
           E "Dr. Reddy's Laboratories" "India" 76000000;
           E "Hospira" "USA" 65000000;
           E "Sanofi" "France" 54000000;
           E "Novartis" "Switzerland" 48000000;
           E "Roche" "Switzerland" 42000000;
           E "AstraZeneca" "UK" 38000000;
           E "Johnson & Johnson" "USA" 35000000;
           E "Merck & Co" "USA" 32000000 ].

Definition topBuyers : list Entity.t :=
  [ E "Memorial Sloan Kettering" "USA" 187000000;
           E "Mayo Clinic" "USA" 165000000;
           E "NHS England" "UK" 143000000;
           E "MD Anderson Cancer Center" "USA" 132000000;
           E "Charité - Universitätsmedizin Berlin" "Germany" 112000000;
           E "Institut Gustave Roussy" "France" 98000000;
           E "University Health Network" "Canada" 87000000;
           E "Apollo Hospitals" "India" 76000000;
           E "National Cancer Center Japan" "Japan" 65000000;
           E "Peter MacCallum Cancer Centre" "Australia" 54000000;
           E "European Medicines Agency" "Netherlands" 48000000;
           E "Kaiser Permanente" "USA" 42000000;
           E "Cleveland Clinic" "USA" 38000000;
           E "Johns Hopkins Hospital" "USA" 35000000;
           E "Massachusetts General Hospital" "USA" 32000000 ].

Definition importingCountries : list Country.t :=
  [ C "United States" 325000000 26.1 5872;
           C "Germany" 187000000 15.0 3245;
           C "United Kingdom" 156000000 12.5 2876;
           C "France" 132000000 10.6 2543;
           C "Japan" 118000000 9.5 2187;
           C "Canada" 98000000 7.9 1876;
           C "Australia" 87000000 7.0 1654;
           C "Italy" 76000000 6.1 1432;
           C "Spain" 65000000 5.2 1234;
           C "Netherlands" 54000000 4.3 1098 ].

Definition exportingCountries : list Country.t :=
  [ C "India" 365000000 29.3 6543;
           C "United States" 287000000 23.0 5234;
           C "Israel" 176000000 14.1 3187;
           C "China" 142000000 11.4 2654;
           C "Germany" 98000000 7.9 1876;
           C "France" 87000000 7.0 1654;
           C "Italy" 56000000 4.5 1098;
           C "Switzerland" 34000000 2.7 876;
           C "Belgium" 28000000 2.2 654;
           C "Netherlands" 22000000 1.8 543;
           C "United Kingdom" 18000000 1.4 432;
           C "Spain" 15000000 1.2 321 ].

Definition priceHistory : list PricePoint.t :=
  [ P "2023-01" 41250.75;
           P "2023-02" 41875.30;
           P "2023-03" 42350.45;
           P "2023-04" 42780.20;
           P "2023-05" 43125.80;
           P "2023-06" 43580.25;
           P "2023-07" 44120.60;
           P "2023-08" 44350.75;
           P "2023-09" 44180.30;
           P "2023-10" 43950.45;
           P "2023-11" 43820.10;
           P "2023-12" 43750.52 ].

Definition sampleProductData : ProductData.t :=
  {| ProductData.name := Some "Paclitaxel";
     ProductData.description :=
       Some "Paclitaxel is a chemotherapy medication used to treat several types of cancer including ovarian cancer, breast cancer, lung cancer, Kaposi sarcoma, cervical cancer, and pancreatic cancer. It is given by injection into a vein.";
     ProductData.hsCode := Some "2932999090";
     ProductData.category := Some "Pharmaceutical Active Ingredient";
     ProductData.totalRecords := num 28456;
     ProductData.totalValue := num 1245800000;
     ProductData.avgPrice := num 43750.52;
     ProductData.priceVolatility := num 187.3;
     ProductData.uniqueSuppliers := num 87;
     ProductData.uniqueBuyers := num 142;
     ProductData.marketGrowth := num 12.5;
     ProductData.supplierConcentration := num 0.3;
     ProductData.buyerConcentration := num 0.4;
     ProductData.minPrice := num 32580.75;
     ProductData.maxPrice := num 61250.30;
     ProductData.dateRange := Some "Jan 2023 - Dec 2023";
     ProductData.topImportCountry :=
       Some {| TopCountry.country := "United States"; TopCountry.count := num 5872 |};
     ProductData.topExportCountry :=
       Some {| TopCountry.country := "India"; TopCountry.count := num 6543 |};
     ProductData.topSuppliers := Some topSuppliers;
     ProductData.topBuyers := Some topBuyers;
     ProductData.importingCountries := Some importingCountries;
     ProductData.exportingCountries := Some exportingCountries;
     ProductData.priceHistory := Some priceHistory |}.

End Sample.

(** ** Inputs used in the examples *)

Module Inputs.

(** The sample input with other market totals. *)
Definition withTotals (totalRecords totalValue : JS.value) : ProductData.t :=
  let d := Sample.sampleProductData in
  {| ProductData.name := ProductData.name d;
     ProductData.description := ProductData.description d;
     ProductData.hsCode := ProductData.hsCode d;
     ProductData.category := ProductData.category d;
     ProductData.totalRecords := totalRecords;
     ProductData.totalValue := totalValue;
     ProductData.avgPrice := ProductData.avgPrice d;
     ProductData.priceVolatility := ProductData.priceVolatility d;
     ProductData.uniqueSuppliers := ProductData.uniqueSuppliers d;
     ProductData.uniqueBuyers := ProductData.uniqueBuyers d;
     ProductData.marketGrowth := ProductData.marketGrowth d;
     ProductData.supplierConcentration := ProductData.supplierConcentration d;
     ProductData.buyerConcentration := ProductData.buyerConcentration d;
     ProductData.minPrice := ProductData.minPrice d;
     ProductData.maxPrice := ProductData.maxPrice d;
     ProductData.dateRange := ProductData.dateRange d;
     ProductData.topImportCountry := ProductData.topImportCountry d;
     ProductData.topExportCountry := ProductData.topExportCountry d;
     ProductData.topSuppliers := ProductData.topSuppliers d;
     ProductData.topBuyers := ProductData.topBuyers d;
     ProductData.importingCountries := ProductData.importingCountries d;
     ProductData.exportingCountries := ProductData.exportingCountries d;
     ProductData.priceHistory := ProductData.priceHistory d |}.

(** The sample input with another list of importing countries. *)
Definition withImporters (importingCountries : option (list Country.t)) : ProductData.t :=
  let d := Sample.sampleProductData in
  {| ProductData.name := ProductData.name d;
     ProductData.description := ProductData.description d;
     ProductData.hsCode := ProductData.hsCode d;
     ProductData.category := ProductData.category d;
     ProductData.totalRecords := ProductData.totalRecords d;
     ProductData.totalValue := ProductData.totalValue d;
     ProductData.avgPrice := ProductData.avgPrice d;
     ProductData.priceVolatility := ProductData.priceVolatility d;
     ProductData.uniqueSuppliers := ProductData.uniqueSuppliers d;
     ProductData.uniqueBuyers := ProductData.uniqueBuyers d;
     ProductData.marketGrowth := ProductData.marketGrowth d;
     ProductData.supplierConcentration := ProductData.supplierConcentration d;
     ProductData.buyerConcentration := ProductData.buyerConcentration d;
     ProductData.minPrice := ProductData.minPrice d;
     ProductData.maxPrice := ProductData.maxPrice d;
     ProductData.dateRange := ProductData.dateRange d;
     ProductData.topImportCountry := ProductData.topImportCountry d;
     ProductData.topExportCountry := ProductData.topExportCountry d;
     ProductData.topSuppliers := ProductData.topSuppliers d;
     ProductData.topBuyers := ProductData.topBuyers d;
     ProductData.importingCountries := importingCountries;
     ProductData.exportingCountries := ProductData.exportingCountries d;
     ProductData.priceHistory := ProductData.priceHistory d |}.

(** The empty object [{}]: every property is [undefined]. *)
Definition empty : ProductData.t :=
  {| ProductData.name := None;
     ProductData.description := None;
     ProductData.hsCode := None;
     ProductData.category := None;
     ProductData.totalRecords := undefined;
     ProductData.totalValue := undefined;
     ProductData.avgPrice := undefined;
     ProductData.priceVolatility := undefined;
     ProductData.uniqueSuppliers := undefined;
     ProductData.uniqueBuyers := undefined;
     ProductData.marketGrowth := undefined;
     ProductData.supplierConcentration := undefined;
     ProductData.buyerConcentration := undefined;
     ProductData.minPrice := undefined;
     ProductData.maxPrice := undefined;
     ProductData.dateRange := None;
     ProductData.topImportCountry := None;
     ProductData.topExportCountry := None;
     ProductData.topSuppliers := None;
     ProductData.topBuyers := None;
     ProductData.importingCountries := None;
     ProductData.exportingCountries := None;
     ProductData.priceHistory := None |}.

(** [n] records, numbered from 1, with no other content. *)
Definition numbered (n : nat) : list ShipmentRecord.t :=
  map (fun i =>
         {| ShipmentRecord.id := Z.of_nat i + 1;
            ShipmentRecord.date := "";
            ShipmentRecord.supplier := "";
            ShipmentRecord.supplierCountry := "";
            ShipmentRecord.buyer := "";
            ShipmentRecord.buyerCountry := "";
            ShipmentRecord.quantity := 0;
            ShipmentRecord.unitPrice := "";
            ShipmentRecord.totalValue := "";
            ShipmentRecord.hsCode := "";
            ShipmentRecord.portOfLoading := None;
            ShipmentRecord.portOfDischarge := None |})
      (seq 0 n).

(** The sample input with its first eight importing countries only. *)
Definition eightImporters : ProductData.t :=
  withImporters (Some (firstn 8 Sample.importingCountries)).

(** A view with no country and no entity. *)
Definition bareView : ProcessedData.t :=
  {| ProcessedData.product :=
       {| ProductInfo.name := ""; ProductInfo.description := "";
          ProductInfo.hsCode := ""; ProductInfo.category := "";
          ProductInfo.averagePrice := "" |};
     ProcessedData.market :=
       {| Market.totalRecords := ""; Market.totalValue := ""; Market.avgPrice := "";
          Market.avgTransactionValue := ""; Market.priceVolatility := "";
          Market.uniqueSuppliers := ""; Market.uniqueBuyers := "";
          Market.supplierDiversity := ""; Market.buyerDiversity := "";
          Market.marketGrowth := "";
          Market.topImportCountry := DataProcessor.unknownCountry;
          Market.topExportCountry := DataProcessor.unknownCountry;
          Market.dateRange := "" |};
     ProcessedData.geography :=
       {| Geography.importingCountries := []; Geography.exportingCountries := [] |};
     ProcessedData.suppliers :=
       {| Suppliers.topSuppliers := []; Suppliers.suppliersByCountry := [] |};
     ProcessedData.buyers :=
       {| Buyers.topBuyers := []; Buyers.buyersByCountry := [] |};
     ProcessedData.pricing :=
       {| Pricing.currentPrice := ""; Pricing.priceRange_min := "";
          Pricing.priceRange_max := ""; Pricing.volatility := "";
          Pricing.priceHistory := []; Pricing.priceByCountry := [] |};
     ProcessedData.shipments :=
       {| Shipments.totalShipments := 0; Shipments.shipmentRecords := [];
          Shipments.shipmentsPerSlide := 10; Shipments.totalSlides := 0 |} |}.

(** An orchestrator over the bare view with a given structure table. *)
Definition orchestratorOver (plan : SlideStructure.t) : MainOrchestrator.t :=
  {| MainOrchestrator.productData := empty;
     MainOrchestrator.slides := [];
     MainOrchestrator.dataProcessor :=
       {| DataProcessor.productData := empty; DataProcessor.processedData := bareView |};
     MainOrchestrator.slideStructure := plan |}.

(** The sample input with other ranked lists. *)
Definition withLists (topSuppliers topBuyers : list Entity.t)
           (importingCountries exportingCountries : list Country.t) : ProductData.t :=
  let d := Sample.sampleProductData in
  {| ProductData.name := ProductData.name d;
     ProductData.description := ProductData.description d;
     ProductData.hsCode := ProductData.hsCode d;
     ProductData.category := ProductData.category d;
     ProductData.totalRecords := ProductData.totalRecords d;
     ProductData.totalValue := ProductData.totalValue d;
     ProductData.avgPrice := ProductData.avgPrice d;
     ProductData.priceVolatility := ProductData.priceVolatility d;
     ProductData.uniqueSuppliers := ProductData.uniqueSuppliers d;
     ProductData.uniqueBuyers := ProductData.uniqueBuyers d;
     ProductData.marketGrowth := ProductData.marketGrowth d;
     ProductData.supplierConcentration := ProductData.supplierConcentration d;
     ProductData.buyerConcentration := ProductData.buyerConcentration d;
     ProductData.minPrice := ProductData.minPrice d;
     ProductData.maxPrice := ProductData.maxPrice d;
     ProductData.dateRange := ProductData.dateRange d;
     ProductData.topImportCountry := ProductData.topImportCountry d;
     ProductData.topExportCountry := ProductData.topExportCountry d;
     ProductData.topSuppliers := Some topSuppliers;
     ProductData.topBuyers := Some topBuyers;
     ProductData.importingCountries := Some importingCountries;
     ProductData.exportingCountries := Some exportingCountries;
     ProductData.priceHistory := ProductData.priceHistory d |}.

(** The sample input with its first nine exporting countries only, with
    its first nine suppliers only, and with its first nine buyers only. *)
Definition nineExporters : ProductData.t :=
  withLists Sample.topSuppliers Sample.topBuyers Sample.importingCountries
            (firstn 9 Sample.exportingCountries).

Definition nineSuppliers : ProductData.t :=
  withLists (firstn 9 Sample.topSuppliers) Sample.topBuyers Sample.importingCountries
            Sample.exportingCountries.

Definition nineBuyers : ProductData.t :=
  withLists Sample.topSuppliers (firstn 9 Sample.topBuyers) Sample.importingCountries
            Sample.exportingCountries.

(** The sample input with a supplier whose country is a name of
    [Object.prototype]. *)
Definition inheritedCountry : ProductData.t :=
  withLists (Sample.topSuppliers ++ [Sample.E "Acme" "constructor" 1000])%list
            Sample.topBuyers Sample.importingCountries Sample.exportingCountries.

(** A random source: the draws 0, 0.919, 0.838, ... in thousandths. *)
Definition draws : Rng :=
  {| stream := fun n => (of_Z ((Z.of_nat n * 7919) mod 1000) / 1000)%float; pos := 0 |}.

(** A random source whose every draw is one half. *)
Definition halves : Rng := {| stream := fun _ => 0.5%float; pos := 0 |}.

(** Collaborators that never fail to write, and whose markup for a batch
    of records is what [generateRecordsSummary] computes of it: the top
    supplier country and the top buyer country, which do not exist for an
    empty batch. *)
Definition summarizing : Renderer :=
  {| html := fun _ _ _ => ret "";
     recordsHtml := fun _ records _ =>
       topSupplierCountry <-
         lift (ShipmentRecordsSection.getTopCountry
                 (map ShipmentRecord.supplierCountry records)) ;;
       topBuyerCountry <-
         lift (ShipmentRecordsSection.getTopCountry
                 (map ShipmentRecord.buyerCountry records)) ;;
       ret (topSupplierCountry ++ " | " ++ topBuyerCountry);
     document := fun title slidesHTML _ _ => Ok (title ++ slidesHTML);
     ensureDir := fun _ => Ok tt;
     writeFile := fun _ _ => Ok tt;
     writeSummary := fun _ => Ok tt;
     generatedAt := "2024-01-01T00:00:00.000Z" |}.

(** Collaborators whose file system refuses every summary. *)
Definition readOnlySummary : Renderer :=
  {| html := fun _ _ _ => ret "";
     recordsHtml := fun _ _ _ => ret "";
     document := fun title slidesHTML _ _ => Ok (title ++ slidesHTML);
     ensureDir := fun _ => Ok tt;
     writeFile := fun _ _ => Ok tt;
     writeSummary := fun _ =>
       Throw (GenericError "EACCES: permission denied, open 'output/generation-summary.json'");
     generatedAt := "2024-01-01T00:00:00.000Z" |}.

(** Collaborators that produce empty markup and never throw. *)
Definition blank : Renderer :=
  {| html := fun _ _ _ => ret "";
     recordsHtml := fun _ _ _ => ret "";
     document := fun title slidesHTML _ _ => Ok (title ++ slidesHTML);
     ensureDir := fun _ => Ok tt;
     writeFile := fun _ _ => Ok tt;
     writeSummary := fun _ => Ok tt;
     generatedAt := "2024-01-01T00:00:00.000Z" |}.

End Inputs.

(** Does [hay] contain [needle]? *)
Fixpoint includes (needle hay : string) : bool :=
  match hay with
  | EmptyString => String.eqb needle ""
  | String _ rest => String.prefix needle hay || includes needle rest
  end.

(** The outcome of a call satisfies [P]; a thrown exception does not. *)
Definition returns {A : Type} (r : result A) (P : A -> Prop) : Prop :=
  match r with
  | Ok a => P a
  | Throw _ => False
  end.

(** The random source after [k] more draws. *)
Definition advance (k : nat) (g : Rng) : Rng :=
  {| stream := stream g; pos := (k + pos g)%nat |}.

(** The random source never leads [generateRandomDate] to an invalid
    time value.  [Math.random] draws from the interval from 0 (included)
    to 1 (excluded), where the time value lies between the first and the
    last day of 2023. *)
Definition datesValid (g : Rng) : Prop :=
  forall n, exists s,
    Date_toISODate (1672531200000 + stream g n * (1703980800000 - 1672531200000))%float
    = Ok s.

(** The fields of the record of index [i] that do not depend on the
    random source. *)
Definition pickedAt (pd : ProductData.t) (r : ShipmentRecord.t) (i : nat) : Prop :=
  ShipmentRecord.id r = Z.of_nat i + 1
  /\ ShipmentRecord.supplier r = Entity.name (DataProcessor.pickSupplier pd i)
  /\ ShipmentRecord.supplierCountry r = Entity.country (DataProcessor.pickSupplier pd i)
  /\ ShipmentRecord.buyer r = Entity.name (DataProcessor.pickBuyer pd i)
  /\ ShipmentRecord.buyerCountry r = Entity.country (DataProcessor.pickBuyer pd i)
  /\ ShipmentRecord.hsCode r = or_str (ProductData.hsCode pd) "N/A".

(** One of the six section generators throws [e]. *)
Definition sectionThrows (R : Renderer) (self : MainOrchestrator.t) (e : Error) : Prop :=
  let data := DataProcessor.getProcessedData (MainOrchestrator.dataProcessor self) in
  let plan := MainOrchestrator.slideStructure self in
  exists g,
    FoundationSection.generateSlides R data
      (SectionPlan.slides (SlideStructure.foundation plan)) g = Throw e
    \/ ImportingCountriesSection.generateSlides R data
         (SectionPlan.slides (SlideStructure.importingCountries plan)) g = Throw e
    \/ ExportingCountriesSection.generateSlides R data
         (SectionPlan.slides (SlideStructure.exportingCountries plan)) g = Throw e
    \/ SupplierBuyerSection.generateSlides R data
         (SectionPlan.slides (SlideStructure.supplierBuyer plan)) g = Throw e
    \/ PricingSection.generateSlides R data
         (SectionPlan.slides (SlideStructure.pricing plan)) g = Throw e
    \/ ShipmentRecordsSection.generateSlides R data
         (SectionPlan.slides (SlideStructure.shipmentRecords plan)) g = Throw e.

(** The kinds the importing-countries section has a generator for. *)
Definition registeredImporting (type : string) : bool :=
  String.eqb type "importing_country_suppliers"
  || String.eqb type "importing_country_companies".

(** The message of the error thrown for an entry of the importing-countries
    section that cannot be resolved. *)
Definition unresolvedMessage (d : SlideDef.t) : string :=
  if registeredImporting (SlideDef.type d)
  then "Importing country at rank " ++ show (SlideDef.countryRank d) ++ " not found"
  else "Unknown slide type: " ++ SlideDef.type d.

(** The occurrences of a country in a list. *)
Definition occurrences (countries : list string) (country : string) : nat :=
  count_occ string_dec countries country.

(** The entities of a country, in the order of the list. *)
Definition ofCountry (country : string) (entities : list Entity.t) : list Entity.t :=
  filter (fun e => String.eqb (Entity.country e) country) entities.

(** The entries of a structure table, section after section. *)
Definition allEntries (plan : SlideStructure.t) : list SlideDef.t :=
  (SectionPlan.slides (SlideStructure.foundation plan)
   ++ SectionPlan.slides (SlideStructure.importingCountries plan)
   ++ SectionPlan.slides (SlideStructure.exportingCountries plan)
   ++ SectionPlan.slides (SlideStructure.supplierBuyer plan)
   ++ SectionPlan.slides (SlideStructure.pricing plan)
   ++ SectionPlan.slides (SlideStructure.shipmentRecords plan))%list.






(** The path of the document of an input. *)
Definition outputPath (pd : ProductData.t) : string :=
  "output/" ++ MainOrchestrator.showName (ProductData.name pd) ++ "-300-slides.html".



(** The report of a section, from the ids of the slides generated. *)
Definition reportOfIds (ids : list Z) (name : string) (section : SectionPlan.t)
  : MainOrchestrator.SectionReport :=
  let '(first, last) := SectionPlan.range section in
  let inside := filter (fun id => (first <=? id) && (id <=? last)) ids in
  {| MainOrchestrator.name := name;
     MainOrchestrator.reportRange := SectionPlan.range section;
     MainOrchestrator.expected := last - first + 1;
     MainOrchestrator.generatedCount := List.length inside;
     MainOrchestrator.status :=
       if Z.of_nat (List.length inside) =? last - first + 1
       then "Complete" else "In Progress" |}.


(** The kinds the foundation section has a generator for. *)
Definition foundationKinds : list string :=
  [ "title_agenda"; "table_of_contents"; "executive_summary"; "product_overview";
    "market_share_analysis"; "geography_intelligence"; "supplier_buyer_relationships";
    "top_importing_countries" ].

(** An entry that each section resolves when its list has [n] entries. *)
Definition foundationOk (d : SlideDef.t) : bool :=
  existsb (String.eqb (SlideDef.type d)) foundationKinds.




(** The bare view with a given geography. *)
Definition viewWith (geo : Geography.t) : ProcessedData.t :=
  {| ProcessedData.product := ProcessedData.product Inputs.bareView;
     ProcessedData.market := ProcessedData.market Inputs.bareView;
     ProcessedData.geography := geo;
     ProcessedData.suppliers := ProcessedData.suppliers Inputs.bareView;
     ProcessedData.buyers := ProcessedData.buyers Inputs.bareView;
     ProcessedData.pricing := ProcessedData.pricing Inputs.bareView;
     ProcessedData.shipments := ProcessedData.shipments Inputs.bareView |}.

(** The geography of the sample input. *)
Definition sampleGeography : Geography.t :=
  match DataProcessor.processGeographicData Sample.sampleProductData with
  | Ok geo => geo
  | Throw _ =>
      {| Geography.importingCountries := []; Geography.exportingCountries := [] |}
  end.

(** The number recorded for a country, 0 when there is none. *)
Definition countIn (countryCount : list (string * ShipmentRecordsSection.counter))
           (country : string) : nat :=
  match DataProcessor.lookup country countryCount with
  | Some (ShipmentRecordsSection.number n) => n
  | _ => 0%nat
  end.

(** No string of the list is a name of [Object.prototype]. *)
Definition plainNames (names : list string) : bool :=
  forallb (fun name => negb (inherited name)) names.

(** Every value of the table is a number. *)
Definition numeric (countryCount : list (string * ShipmentRecordsSection.counter)) : Prop :=
  forall k v, DataProcessor.lookup k countryCount = Some v ->
              exists n, v = ShipmentRecordsSection.number n.

(** No entity of the list has a name of [Object.prototype] as its country. *)
Definition plainCountries (entities : list Entity.t) : bool :=
  forallb (fun e => negb (inherited (Entity.country e))) entities.

(** No supplier and no buyer of the input has such a country. *)
Definition plainInput (pd : ProductData.t) : bool :=
  plainCountries (or_nil (ProductData.topSuppliers pd))
  && plainCountries (or_nil (ProductData.topBuyers pd)).

(** The table after an entity has been filed under a country. *)
Definition filed (k : string) (x : Entity.t) (grouped : ByCountry) : ByCountry :=
  DataProcessor.assign k
    match DataProcessor.lookup k grouped with
    | Some xs => (xs ++ [x])%list
    | None => [x]
    end
    grouped.

(** The error of a grouping loop whose variable is [what]. *)
Definition notAFunction (what : string) : Error :=
  TypeError ("grouped[" ++ what ++ ".country].push is not a function").
(** * Properties *)

(** ** Formatting *)

Lemma toFixed_in_range (x : float) (f : Z) :
  0 <= f <= 100 -> exists s, toFixed x f = Ok s.
Proof.
  intros Hf. unfold toFixed.
  destruct (Z.ltb_spec f 0); [lia|].
  destruct (Z.ltb_spec 100 f); [lia|].
  cbn [orb]. eexists. reflexivity.
Qed.

Lemma formatPercentage_returns (v : JS.value) :
  exists s, DataProcessor.formatPercentage v = Ok s.
Proof.
  unfold DataProcessor.formatPercentage.
  destruct (toFixed_in_range (or_num v 0) 1) as [s Hs]; [lia|].
  rewrite Hs. cbn [bind]. eexists. reflexivity.
Qed.

(** C8.  The three formatters take a number, [undefined] or [null] and
    return a string: [formatCurrency] and [formatNumber] go through
    [Intl.NumberFormat], which formats every number; [formatPercentage]
    calls [toFixed(1)], whose range check on the digits never fires.
    [undefined] and [null] are formatted as 0 is, so
    [formatCurrency(undefined)] is [formatCurrency(0)], the string "$0". *)
Theorem formatters_total (v : JS.value) :
  (exists s, DataProcessor.formatPercentage v = Ok s)
  /\ DataProcessor.formatCurrency v = Intl_currency (or_num v 0)
  /\ DataProcessor.formatNumber v = Intl_decimal (or_num v 0)
  /\ or_num undefined 0 = 0%float /\ or_num null 0 = 0%float
  /\ DataProcessor.formatCurrency undefined = DataProcessor.formatCurrency (num 0)
  /\ DataProcessor.formatCurrency null = DataProcessor.formatCurrency (num 0)
  /\ DataProcessor.formatCurrency undefined = "$0"
  /\ DataProcessor.formatNumber undefined = DataProcessor.formatNumber (num 0)
  /\ DataProcessor.formatNumber null = DataProcessor.formatNumber (num 0)
  /\ DataProcessor.formatNumber undefined = "0"
  /\ DataProcessor.formatPercentage undefined = DataProcessor.formatPercentage (num 0)
  /\ DataProcessor.formatPercentage null = DataProcessor.formatPercentage (num 0)
  /\ DataProcessor.formatPercentage undefined = Ok "0.0%".
Proof.
  split; [apply formatPercentage_returns|].
  repeat split; reflexivity.
Qed.
(** ** The market block *)

Lemma processMarketData_returns (pd : ProductData.t) :
  exists m,
    DataProcessor.processMarketData pd = Ok m
    /\ Market.totalRecords m
       = DataProcessor.formatNumber (num (or_num (ProductData.totalRecords pd) 0))
    /\ Market.totalValue m
       = DataProcessor.formatCurrency (num (or_num (ProductData.totalValue pd) 0))
    /\ Market.avgTransactionValue m
       = DataProcessor.formatCurrency
           (num (or_num (ProductData.totalValue pd) 0
                 / or_num (ProductData.totalRecords pd) 1)%float).
Proof.
  unfold DataProcessor.processMarketData. cbv zeta.
  destruct (formatPercentage_returns (num (or_num (ProductData.priceVolatility pd) 0)))
    as [s1 E1].
  destruct (formatPercentage_returns (num (or_num (ProductData.supplierConcentration pd) 0)))
    as [s2 E2].
  destruct (formatPercentage_returns (num (or_num (ProductData.buyerConcentration pd) 0)))
    as [s3 E3].
  destruct (formatPercentage_returns (num (or_num (ProductData.marketGrowth pd) 0)))
    as [s4 E4].
  rewrite E1, E2, E3, E4. cbn [bind].
  eexists. split; [reflexivity|]. cbn. repeat split.
Qed.

(** C9, as the code has it.  With [totalValue = 1245800000] and
    [totalRecords = 28456] the average transaction value is
    43779.87..., and the market block shows it as "$43,780": whole
    dollars, rounded to the nearest. *)
Theorem avgTransactionValue_scenario (pd : ProductData.t) :
  ProductData.totalValue pd = num 1245800000 ->
  ProductData.totalRecords pd = num 28456 ->
  exists m,
    DataProcessor.processMarketData pd = Ok m
    /\ Market.avgTransactionValue m = "$43,780".
Proof.
  intros Hv Hr.
  destruct (processMarketData_returns pd) as (m & Hm & _ & _ & Havg).
  exists m. split; [exact Hm|].
  rewrite Havg, Hv, Hr. vm_compute. reflexivity.
Qed.

Lemma avgTransactionValue_scenario_witness :
  ProductData.totalValue Sample.sampleProductData = num 1245800000
  /\ ProductData.totalRecords Sample.sampleProductData = num 28456
  /\ exists m,
       DataProcessor.processMarketData Sample.sampleProductData = Ok m
       /\ Market.avgTransactionValue m = "$43,780".
Proof.
  split; [reflexivity|]. split; [reflexivity|].
  apply (avgTransactionValue_scenario Sample.sampleProductData); reflexivity.
Defined.

(** C9, as the specification words it, fails: on the sample input, whose
    totals are those of the scenario, the formatted average is "$43,780"
    and not "$43,776". *)
Lemma avgTransactionValue_not_43776 :
  returns (DataProcessor.processMarketData Sample.sampleProductData)
          (fun m => Market.avgTransactionValue m = "$43,780"
                    /\ String.eqb (Market.avgTransactionValue m) "$43,776" = false).
Proof. vm_compute. split; reflexivity. Qed.
(** ** Objects used as tables *)

Lemma assign_lookup {A : Type} (k : string) (a : A) (t : list (string * A)) (q : string) :
  DataProcessor.lookup q (DataProcessor.assign k a t)
  = if String.eqb k q then Some a else DataProcessor.lookup q t.
Proof.
  induction t as [|[k' a'] t IH]; cbn [DataProcessor.assign DataProcessor.lookup].
  - reflexivity.
  - destruct (String.eqb_spec k' k) as [->|Hne]; cbn [DataProcessor.lookup].
    + destruct (String.eqb_spec k q); reflexivity.
    + destruct (String.eqb_spec k' q) as [->|Hq].
      * destruct (String.eqb_spec k q); [congruence|reflexivity].
      * exact IH.
Qed.

Lemma lookup_none {A : Type} (k : string) (t : list (string * A)) :
  DataProcessor.lookup k t = None <-> ~ In k (map fst t).
Proof.
  induction t as [|[k' a'] t IH]; cbn [DataProcessor.lookup map fst In].
  - tauto.
  - destruct (String.eqb_spec k' k) as [->|Hne].
    + split; [discriminate|]. intros H. exfalso. apply H. left. reflexivity.
    + rewrite IH. tauto.
Qed.

Lemma assign_new {A : Type} (k : string) (a : A) (t : list (string * A)) :
  DataProcessor.lookup k t = None -> DataProcessor.assign k a t = (t ++ [(k, a)])%list.
Proof.
  induction t as [|[k' a'] t IH]; cbn [DataProcessor.assign DataProcessor.lookup app].
  - reflexivity.
  - destruct (String.eqb k' k); [discriminate|]. intros H. rewrite IH by exact H. reflexivity.
Qed.

Lemma assign_own {A : Type} (k : string) (a : A) (t : list (string * A)) :
  DataProcessor.lookup k t <> None ->
  map fst (DataProcessor.assign k a t) = map fst t.
Proof.
  induction t as [|[k' a'] t IH]; cbn [DataProcessor.assign DataProcessor.lookup map fst].
  - congruence.
  - destruct (String.eqb_spec k' k) as [->|Hne]; cbn [map fst]; [reflexivity|].
    intros H. rewrite IH by exact H. reflexivity.
Qed.

Lemma filed_cons (k : string) (x : Entity.t) (k' : string) (xs : list Entity.t)
      (rest : ByCountry) :
  filed k x ((k', xs) :: rest)
  = if String.eqb k' k then (k', (xs ++ [x])%list) :: rest
    else (k', xs) :: filed k x rest.
Proof.
  unfold filed. cbn [DataProcessor.lookup DataProcessor.assign].
  destruct (String.eqb k' k); reflexivity.
Qed.

Lemma filed_lookup (k : string) (x : Entity.t) (g : ByCountry) (q : string) :
  DataProcessor.lookup q (filed k x g)
  = if String.eqb k q
    then Some (match DataProcessor.lookup q g with
               | Some xs => xs ++ [x]
               | None => [x]
               end)%list
    else DataProcessor.lookup q g.
Proof.
  unfold filed. rewrite assign_lookup.
  destruct (String.eqb_spec k q) as [->|]; reflexivity.
Qed.

Lemma push_at_plain (what k : string) (x : Entity.t) (g : ByCountry) :
  inherited k = false -> DataProcessor.push_at what k x g = Ok (filed k x g).
Proof.
  intros H. unfold DataProcessor.push_at, filed. rewrite H.
  destruct (DataProcessor.lookup k g); reflexivity.
Qed.

Lemma push_at_inherited (what k : string) (x : Entity.t) (g : ByCountry) :
  inherited k = true -> DataProcessor.lookup k g = None ->
  DataProcessor.push_at what k x g = Throw (notAFunction what).
Proof.
  intros H Hk. unfold DataProcessor.push_at. rewrite Hk, H. reflexivity.
Qed.

Lemma group_into_plain (what : string) (l : list Entity.t) :
  plainCountries l = true ->
  forall g,
    DataProcessor.group_into what l g
    = Ok (fold_left (fun grouped e => filed (Entity.country e) e grouped) l g).
Proof.
  induction l as [|e l IH]; intros Hp g; cbn [DataProcessor.group_into fold_left].
  - reflexivity.
  - cbn [plainCountries forallb] in Hp. apply andb_true_iff in Hp. destruct Hp as [He Hl].
    apply negb_true_iff in He. rewrite push_at_plain by exact He. cbn [bind].
    apply IH. exact Hl.
Qed.

(** The loop throws at the first entity whose country is a name of
    [Object.prototype]: the object never owns such a key. *)
Lemma group_into_throws (what : string) (l : list Entity.t) :
  plainCountries l = false ->
  forall g,
    (forall k, inherited k = true -> DataProcessor.lookup k g = None) ->
    DataProcessor.group_into what l g = Throw (notAFunction what).
Proof.
  induction l as [|e l IH]; intros Hp g Hg; cbn [DataProcessor.group_into].
  - discriminate.
  - cbn [plainCountries forallb] in Hp.
    destruct (inherited (Entity.country e)) eqn:He.
    + rewrite push_at_inherited by auto. reflexivity.
    + rewrite push_at_plain by exact He. cbn [bind negb andb] in *.
      apply IH; [exact Hp|].
      intros k Hk. rewrite filed_lookup.
      destruct (String.eqb_spec (Entity.country e) k) as [E|_]; [|auto].
      rewrite E in He. congruence.
Qed.

(** ** Ranked lists *)

Lemma rankCountry_list (l : list Country.t) :
  forall i, exists ys,
    mapi_from DataProcessor.rankCountry i l = Ok ys
    /\ map RankedCountry.rank ys = map Z.of_nat (seq (S i) (List.length l))
    /\ map RankedCountry.country ys = map Country.country l
    /\ map RankedCountry.rawValue ys = map Country.value l.
Proof.
  induction l as [|c l IH]; intros i.
  - exists []. repeat split.
  - destruct (IH (S i)) as (ys & Hys & Hrank & Hname & Hraw).
    destruct (formatPercentage_returns (Country.share c)) as [s Hs].
    cbn [mapi_from]. unfold DataProcessor.rankCountry at 1.
    rewrite Hs. cbn [bind]. rewrite Hys. cbn [bind].
    eexists. split; [reflexivity|].
    cbn [map List.length seq RankedCountry.rank RankedCountry.country
         RankedCountry.rawValue].
    rewrite Hrank, Hname, Hraw.
    repeat split. f_equal. lia.
Qed.

Lemma rankEntity_list (pd : ProductData.t) (l : list Entity.t) :
  forall i, exists ys,
    mapi_from (DataProcessor.rankEntity pd) i l = Ok ys
    /\ map RankedEntity.rank ys = map Z.of_nat (seq (S i) (List.length l))
    /\ map RankedEntity.name ys = map Entity.name l
    /\ map RankedEntity.rawShare ys
       = map (fun e => (JS.div (Entity.value e) (ProductData.totalValue pd) * 100)%float) l.
Proof.
  induction l as [|e l IH]; intros i.
  - exists []. repeat split.
  - destruct (IH (S i)) as (ys & Hys & Hrank & Hname & Hraw).
    destruct (formatPercentage_returns
                (num (JS.div (Entity.value e) (ProductData.totalValue pd) * 100)%float))
      as [s Hs].
    cbn [mapi_from]. unfold DataProcessor.rankEntity at 1. cbv zeta.
    rewrite Hs. cbn [bind]. rewrite Hys. cbn [bind].
    eexists. split; [reflexivity|].
    cbn [map List.length seq RankedEntity.rank RankedEntity.name RankedEntity.rawShare].
    rewrite Hrank, Hname, Hraw.
    repeat split. f_equal. lia.
Qed.

Lemma processGeographicData_returns (pd : ProductData.t) :
  exists geo,
    DataProcessor.processGeographicData pd = Ok geo
    /\ map RankedCountry.rank (Geography.importingCountries geo)
       = map Z.of_nat (seq 1 (List.length (or_nil (ProductData.importingCountries pd))))
    /\ map RankedCountry.country (Geography.importingCountries geo)
       = map Country.country (or_nil (ProductData.importingCountries pd))
    /\ map RankedCountry.rank (Geography.exportingCountries geo)
       = map Z.of_nat (seq 1 (List.length (or_nil (ProductData.exportingCountries pd))))
    /\ map RankedCountry.country (Geography.exportingCountries geo)
       = map Country.country (or_nil (ProductData.exportingCountries pd)).
Proof.
  unfold DataProcessor.processGeographicData, Array_map. cbv zeta.
  destruct (rankCountry_list (or_nil (ProductData.importingCountries pd)) 0)
    as (imp & Himp & Hir & Hic & _).
  destruct (rankCountry_list (or_nil (ProductData.exportingCountries pd)) 0)
    as (exp & Hexp & Her & Hec & _).
  rewrite Himp, Hexp. cbn [bind].
  eexists. split; [reflexivity|]. cbn. auto.
Qed.

Lemma processSupplierData_returns (pd : ProductData.t) :
  plainCountries (or_nil (ProductData.topSuppliers pd)) = true ->
  exists sup,
    DataProcessor.processSupplierData pd = Ok sup
    /\ map RankedEntity.rank (Suppliers.topSuppliers sup)
       = map Z.of_nat (seq 1 (List.length (or_nil (ProductData.topSuppliers pd))))
    /\ map RankedEntity.name (Suppliers.topSuppliers sup)
       = map Entity.name (or_nil (ProductData.topSuppliers pd)).
Proof.
  intros Hp.
  unfold DataProcessor.processSupplierData, Array_map,
    DataProcessor.groupSuppliersByCountry. cbv zeta.
  destruct (rankEntity_list pd (or_nil (ProductData.topSuppliers pd)) 0)
    as (ys & Hys & Hr & Hn & _).
  rewrite Hys, group_into_plain by exact Hp. cbn [bind].
  eexists. split; [reflexivity|]. cbn. auto.
Qed.

Lemma processSupplierData_throws (pd : ProductData.t) :
  plainCountries (or_nil (ProductData.topSuppliers pd)) = false ->
  DataProcessor.processSupplierData pd = Throw (notAFunction "supplier").
Proof.
  intros Hp.
  unfold DataProcessor.processSupplierData, Array_map,
    DataProcessor.groupSuppliersByCountry. cbv zeta.
  destruct (rankEntity_list pd (or_nil (ProductData.topSuppliers pd)) 0)
    as (ys & Hys & _).
  rewrite Hys. cbn [bind]. rewrite group_into_throws; auto.
Qed.

Lemma processBuyerData_returns (pd : ProductData.t) :
  plainCountries (or_nil (ProductData.topBuyers pd)) = true ->
  exists buy,
    DataProcessor.processBuyerData pd = Ok buy
    /\ map RankedEntity.rank (Buyers.topBuyers buy)
       = map Z.of_nat (seq 1 (List.length (or_nil (ProductData.topBuyers pd))))
    /\ map RankedEntity.name (Buyers.topBuyers buy)
       = map Entity.name (or_nil (ProductData.topBuyers pd)).
Proof.
  intros Hp.
  unfold DataProcessor.processBuyerData, Array_map,
    DataProcessor.groupBuyersByCountry. cbv zeta.
  destruct (rankEntity_list pd (or_nil (ProductData.topBuyers pd)) 0)
    as (ys & Hys & Hr & Hn & _).
  rewrite Hys, group_into_plain by exact Hp. cbn [bind].
  eexists. split; [reflexivity|]. cbn. auto.
Qed.

Lemma processBuyerData_throws (pd : ProductData.t) :
  plainCountries (or_nil (ProductData.topBuyers pd)) = false ->
  DataProcessor.processBuyerData pd = Throw (notAFunction "buyer").
Proof.
  intros Hp.
  unfold DataProcessor.processBuyerData, Array_map,
    DataProcessor.groupBuyersByCountry. cbv zeta.
  destruct (rankEntity_list pd (or_nil (ProductData.topBuyers pd)) 0)
    as (ys & Hys & _).
  rewrite Hys. cbn [bind]. rewrite group_into_throws; auto.
Qed.

(** C3.  The two ranked lists of countries are built for every input, and
    the ranked lists of suppliers and of buyers are built whenever no
    country of theirs is a name of [Object.prototype] (for such a country
    the grouping that follows the ranking throws a [TypeError], and there
    is no view).  In each list the ranks are 1, 2, ..., up to the length of
    the input list, in this order (so without gap or repetition), the
    entries standing in the order of the input. *)
Theorem ranks_contiguous (pd : ProductData.t) :
  (exists geo,
      DataProcessor.processGeographicData pd = Ok geo
      /\ map RankedCountry.rank (Geography.importingCountries geo)
         = map Z.of_nat (seq 1 (List.length (or_nil (ProductData.importingCountries pd))))
      /\ map RankedCountry.country (Geography.importingCountries geo)
         = map Country.country (or_nil (ProductData.importingCountries pd))
      /\ map RankedCountry.rank (Geography.exportingCountries geo)
         = map Z.of_nat (seq 1 (List.length (or_nil (ProductData.exportingCountries pd))))
      /\ map RankedCountry.country (Geography.exportingCountries geo)
         = map Country.country (or_nil (ProductData.exportingCountries pd)))
  /\ (if plainCountries (or_nil (ProductData.topSuppliers pd))
      then exists sup,
          DataProcessor.processSupplierData pd = Ok sup
          /\ map RankedEntity.rank (Suppliers.topSuppliers sup)
             = map Z.of_nat (seq 1 (List.length (or_nil (ProductData.topSuppliers pd))))
          /\ map RankedEntity.name (Suppliers.topSuppliers sup)
             = map Entity.name (or_nil (ProductData.topSuppliers pd))
      else exists message,
          DataProcessor.processSupplierData pd = Throw (TypeError message))
  /\ (if plainCountries (or_nil (ProductData.topBuyers pd))
      then exists buy,
          DataProcessor.processBuyerData pd = Ok buy
          /\ map RankedEntity.rank (Buyers.topBuyers buy)
             = map Z.of_nat (seq 1 (List.length (or_nil (ProductData.topBuyers pd))))
          /\ map RankedEntity.name (Buyers.topBuyers buy)
             = map Entity.name (or_nil (ProductData.topBuyers pd))
      else exists message,
          DataProcessor.processBuyerData pd = Throw (TypeError message)).
Proof.
  split; [exact (processGeographicData_returns pd)|]. split.
  - destruct (plainCountries (or_nil (ProductData.topSuppliers pd))) eqn:Hp.
    + exact (processSupplierData_returns pd Hp).
    + rewrite (processSupplierData_throws pd Hp). unfold notAFunction. eauto.
  - destruct (plainCountries (or_nil (ProductData.topBuyers pd))) eqn:Hp.
    + exact (processBuyerData_returns pd Hp).
    + rewrite (processBuyerData_throws pd Hp). unfold notAFunction. eauto.
Qed.
(** ** Market shares *)

(** C4 on the code.  With [totalValue = 0] the share of a supplier is
    [value / 0 * 100]: [Infinity] for the first supplier of the sample
    (value 245000000), shown as "Infinity%", and [NaN] for a supplier of
    value 0.  The quotient is not guarded, unlike the average transaction
    value ([totalRecords || 1]) and the price by country
    ([shipments || 1]). *)
Theorem share_of_zero_total :
  returns (DataProcessor.processSupplierData (Inputs.withTotals (num 28456) (num 0)))
    (fun sup =>
       match Suppliers.topSuppliers sup with
       | first :: _ =>
           RankedEntity.name first = "Bristol-Myers Squibb"
           /\ RankedEntity.rawShare first = infinity
           /\ RankedEntity.share first = "Infinity%"
       | [] => False
       end)
  /\ returns (DataProcessor.rankEntity (Inputs.withTotals (num 28456) (num 0))
                (Sample.E "Idle Supplier" "USA" 0) 0)
       (fun e => RankedEntity.rawShare e = nan /\ RankedEntity.share e = "0.0%").
Proof. vm_compute. repeat split. Qed.
(** ** Shipment records *)

Lemma shipmentRecord_returns (pd : ProductData.t) (i : nat) (g : Rng) :
  datesValid g ->
  exists r, DataProcessor.shipmentRecord pd i g = Ok (r, advance 7 g) /\ pickedAt pd r i.
Proof.
  intros Hd. destruct (Hd (pos g)) as [date Hdate].
  unfold DataProcessor.shipmentRecord, DataProcessor.generateRandomDate,
    DataProcessor.generateRandomQuantity, DataProcessor.generateRandomPrice,
    DataProcessor.generateRandomValue, DataProcessor.generateRandomPort,
    DataProcessor.generateRandomQuantity, DataProcessor.generateRandomPrice.
  cbv beta iota zeta delta [mbind Math_random ret lift].
  rewrite Hdate.
  eexists. split; [reflexivity|].
  repeat split.
Qed.

Lemma advance_datesValid (k : nat) (g : Rng) : datesValid g -> datesValid (advance k g).
Proof. intros H n. exact (H n). Qed.

Lemma recordsLoop_returns (pd : ProductData.t) :
  forall n i acc g,
    datesValid g ->
    exists rs,
      DataProcessor.recordsLoop pd n i acc g = Ok ((acc ++ rs)%list, advance (7 * n) g)
      /\ Forall2 (pickedAt pd) rs (seq i n).
Proof.
  induction n as [|n IH]; intros i acc g Hd.
  - exists []. split; [|constructor].
    cbn [DataProcessor.recordsLoop]. unfold ret. rewrite app_nil_r.
    destruct g; reflexivity.
  - destruct (shipmentRecord_returns pd i g Hd) as (r & Hr & Hp).
    destruct (IH (S i) (acc ++ [r])%list (advance 7 g) (advance_datesValid 7 g Hd))
      as (rs & Hrs & Hall).
    exists (r :: rs). split.
    + cbn [DataProcessor.recordsLoop]. unfold mbind at 1. rewrite Hr, Hrs.
      rewrite <- app_assoc. cbn [app]. do 2 f_equal.
      unfold advance. cbn [stream pos]. f_equal. lia.
    + cbn [seq]. constructor; assumption.
Qed.

Lemma Forall2_seq_nth {A : Type} (P : A -> nat -> Prop) :
  forall n i (l : list A),
    Forall2 P l (seq i n) ->
    List.length l = n
    /\ forall k, (k < n)%nat -> exists a, nth_error l k = Some a /\ P a (i + k)%nat.
Proof.
  induction n as [|n IH]; intros i l H; cbn [seq] in H.
  - inversion H; subst. split; [reflexivity|]. intros k Hk. lia.
  - inversion H as [|a j l' s' Ha Hl]; subst.
    destruct (IH (S i) l' Hl) as [Hlen Hnth].
    split; [cbn; lia|].
    intros [|k] Hk.
    + exists a. rewrite Nat.add_0_r. split; [reflexivity|assumption].
    + destruct (Hnth k ltac:(lia)) as (b & Hb & HP).
      exists b. split; [exact Hb|].
      replace (i + S k)%nat with (S i + k)%nat by lia. exact HP.
Qed.

Lemma pickedAt_ids (pd : ProductData.t) :
  forall n i rs,
    Forall2 (pickedAt pd) rs (seq i n) ->
    map ShipmentRecord.id rs = map Z.of_nat (seq (S i) n).
Proof.
  induction n as [|n IH]; intros i rs H; cbn [seq] in H.
  - inversion H; subst. reflexivity.
  - inversion H as [|a j l' s' Ha Hl]; subst.
    cbn [map seq]. rewrite (IH (S i) l' Hl).
    destruct Ha as [Hid _]. rewrite Hid. f_equal. lia.
Qed.

Lemma at_index_mod_nonempty {A : Type} (l : list A) (i : nat) :
  l <> [] ->
  exists a, nth_error l (Nat.modulo i (List.length l)) = Some a
            /\ at_index_mod l i = Some a.
Proof.
  intros Hne. unfold at_index_mod.
  destruct (List.length l) as [|n] eqn:Hlen.
  - destruct l; [congruence|discriminate].
  - destruct (nth_error l (Nat.modulo i (S n))) as [a|] eqn:E.
    + exists a. auto.
    + apply nth_error_None in E.
      pose proof (Nat.mod_upper_bound i (S n) ltac:(lia)). lia.
Qed.

(** C7.  Whenever the dates drawn are valid, record generation returns
    exactly 2340 records, whose ids are 1, 2, ..., 2340 in this order.  In
    the record of index [i] the supplier (name and country) is the entry
    of [topSuppliers] at position [i] modulo its length, the buyer the
    entry of [topBuyers] at position [i] modulo its length, when these
    lists are not empty; the importing country that the loop body picks for
    index [i] is the entry of [importingCountries] at position [i] modulo
    its length. *)
Theorem records_round_robin (pd : ProductData.t) (g : Rng) :
  datesValid g ->
  exists records g',
    DataProcessor.generateShipmentRecords pd g = Ok (records, g')
    /\ List.length records = 2340%nat
    /\ map ShipmentRecord.id records = map Z.of_nat (seq 1 2340)
    /\ forall i, (i < 2340)%nat ->
         exists r,
           nth_error records i = Some r
           /\ (or_nil (ProductData.topSuppliers pd) <> [] ->
               exists s,
                 nth_error (or_nil (ProductData.topSuppliers pd))
                           (Nat.modulo i (List.length (or_nil (ProductData.topSuppliers pd))))
                 = Some s
                 /\ ShipmentRecord.supplier r = Entity.name s
                 /\ ShipmentRecord.supplierCountry r = Entity.country s)
           /\ (or_nil (ProductData.topBuyers pd) <> [] ->
               exists b,
                 nth_error (or_nil (ProductData.topBuyers pd))
                           (Nat.modulo i (List.length (or_nil (ProductData.topBuyers pd))))
                 = Some b
                 /\ ShipmentRecord.buyer r = Entity.name b
                 /\ ShipmentRecord.buyerCountry r = Entity.country b)
           /\ (or_nil (ProductData.importingCountries pd) <> [] ->
               nth_error (or_nil (ProductData.importingCountries pd))
                         (Nat.modulo i
                            (List.length (or_nil (ProductData.importingCountries pd))))
               = Some (DataProcessor.pickCountry pd i)).
Proof.
  intros Hd.
  destruct (recordsLoop_returns pd 2340 0 [] g Hd) as (rs & Hrs & Hall).
  exists rs, (advance (7 * 2340) g).
  destruct (Forall2_seq_nth (pickedAt pd) 2340 0 rs Hall) as [Hlen Hnth].
  split; [exact Hrs|]. split; [exact Hlen|].
  split; [exact (pickedAt_ids pd 2340 0 rs Hall)|].
  intros i Hi. destruct (Hnth i Hi) as (r & Hr & Hp).
  cbn [Nat.add] in Hp.
  destruct Hp as (_ & Hs & Hsc & Hb & Hbc & _).
  exists r. split; [exact Hr|]. repeat split.
  - intros Hne. destruct (at_index_mod_nonempty _ i Hne) as (s & Hn & Hat).
    exists s. split; [exact Hn|].
    unfold DataProcessor.pickSupplier in Hs, Hsc. rewrite Hat in Hs, Hsc. auto.
  - intros Hne. destruct (at_index_mod_nonempty _ i Hne) as (b & Hn & Hat).
    exists b. split; [exact Hn|].
    unfold DataProcessor.pickBuyer in Hb, Hbc. rewrite Hat in Hb, Hbc. auto.
  - intros Hne. destruct (at_index_mod_nonempty _ i Hne) as (c & Hn & Hat).
    unfold DataProcessor.pickCountry. rewrite Hat. exact Hn.
Qed.

Lemma halves_datesValid : datesValid Inputs.halves.
Proof. intros n. vm_compute. eexists. reflexivity. Qed.

Lemma records_round_robin_witness :
  datesValid Inputs.halves
  /\ exists records g',
       DataProcessor.generateShipmentRecords Sample.sampleProductData Inputs.halves
       = Ok (records, g')
       /\ List.length records = 2340%nat
       /\ map ShipmentRecord.id records = map Z.of_nat (seq 1 2340).
Proof.
  split; [exact halves_datesValid|].
  destruct (records_round_robin Sample.sampleProductData Inputs.halves halves_datesValid)
    as (records & g' & Hrun & Hlen & Hids & _).
  exists records, g'. auto.
Defined.

(** C6 on the code.  On the sample input, with the draws 0, 0.919, 0.838,
    0.757, 0.676, ..., the first record has quantity 9290 (second draw) and
    unit price "$48,187" (third draw), but its total value is "$353,284,399":
    [generateRandomValue] draws a quantity and a price of its own (fourth
    and fifth draws) instead of multiplying the two of the record, whose
    product is shown as "$447,657,230". *)
Theorem totalValue_is_redrawn :
  returns (DataProcessor.generateShipmentRecords Sample.sampleProductData Inputs.draws)
    (fun out =>
       match fst out with
       | r :: _ =>
           ShipmentRecord.quantity r = 9290%float
           /\ ShipmentRecord.unitPrice r = "$48,187"
           /\ ShipmentRecord.totalValue r = "$353,284,399"
           /\ DataProcessor.formatCurrency (num (ShipmentRecord.quantity r * 48187)%float)
              = "$447,657,230"
       | [] => False
       end).
Proof. vm_compute. repeat split. Qed.
(** ** Normalization *)

Lemma processPricingData_returns (pd : ProductData.t) :
  exists p, DataProcessor.processPricingData pd = Ok p.
Proof.
  unfold DataProcessor.processPricingData. cbv zeta.
  destruct (formatPercentage_returns (num (or_num (ProductData.priceVolatility pd) 0)))
    as [s Hs].
  rewrite Hs. cbn [bind]. eexists. reflexivity.
Qed.

Lemma supplier_list (pd : ProductData.t) (sup : Suppliers.t) :
  DataProcessor.processSupplierData pd = Ok sup ->
  plainCountries (or_nil (ProductData.topSuppliers pd)) = true
  /\ map RankedEntity.rank (Suppliers.topSuppliers sup)
     = map Z.of_nat (seq 1 (List.length (or_nil (ProductData.topSuppliers pd))))
  /\ map RankedEntity.name (Suppliers.topSuppliers sup)
     = map Entity.name (or_nil (ProductData.topSuppliers pd)).
Proof.
  intros H. destruct (plainCountries (or_nil (ProductData.topSuppliers pd))) eqn:Hp.
  - destruct (processSupplierData_returns pd Hp) as (sup' & Hs & Hr & Hn).
    rewrite Hs in H. injection H as <-. auto.
  - rewrite (processSupplierData_throws pd Hp) in H. discriminate.
Qed.

Lemma buyer_list (pd : ProductData.t) (buy : Buyers.t) :
  DataProcessor.processBuyerData pd = Ok buy ->
  plainCountries (or_nil (ProductData.topBuyers pd)) = true
  /\ map RankedEntity.rank (Buyers.topBuyers buy)
     = map Z.of_nat (seq 1 (List.length (or_nil (ProductData.topBuyers pd))))
  /\ map RankedEntity.name (Buyers.topBuyers buy)
     = map Entity.name (or_nil (ProductData.topBuyers pd)).
Proof.
  intros H. destruct (plainCountries (or_nil (ProductData.topBuyers pd))) eqn:Hp.
  - destruct (processBuyerData_returns pd Hp) as (buy' & Hs & Hr & Hn).
    rewrite Hs in H. injection H as <-. auto.
  - rewrite (processBuyerData_throws pd Hp) in H. discriminate.
Qed.

(** What the constructor has computed when it returns. *)
Lemma new_inversion (pd : ProductData.t) (g : Rng) (dp : DataProcessor.t) (g' : Rng) :
  DataProcessor.new pd g = Ok (dp, g') ->
  let view := DataProcessor.processedData dp in
  DataProcessor.processMarketData pd = Ok (ProcessedData.market view)
  /\ DataProcessor.processGeographicData pd = Ok (ProcessedData.geography view)
  /\ DataProcessor.processSupplierData pd = Ok (ProcessedData.suppliers view)
  /\ DataProcessor.processBuyerData pd = Ok (ProcessedData.buyers view)
  /\ DataProcessor.generateShipmentRecords pd g
     = Ok (Shipments.shipmentRecords (ProcessedData.shipments view), g')
  /\ Shipments.totalShipments (ProcessedData.shipments view)
     = List.length (Shipments.shipmentRecords (ProcessedData.shipments view))
  /\ Shipments.shipmentsPerSlide (ProcessedData.shipments view) = 10
  /\ Shipments.totalSlides (ProcessedData.shipments view)
     = (Z.of_nat (List.length (Shipments.shipmentRecords (ProcessedData.shipments view)))
        + 9) / 10.
Proof.
  unfold DataProcessor.new, DataProcessor.processAllData,
    DataProcessor.processShipmentData.
  cbv beta iota zeta delta [mbind lift ret].
  destruct (DataProcessor.processMarketData pd); [|discriminate].
  destruct (DataProcessor.processGeographicData pd); [|discriminate].
  destruct (DataProcessor.processSupplierData pd); [|discriminate].
  destruct (DataProcessor.processBuyerData pd); [|discriminate].
  destruct (DataProcessor.processPricingData pd); [|discriminate].
  destruct (DataProcessor.generateShipmentRecords pd g) as [[rs g1]|]; [|discriminate].
  intros H. injection H as <- <-. cbn. repeat split.
Qed.

Lemma new_returns (pd : ProductData.t) (g : Rng) :
  datesValid g ->
  plainInput pd = true ->
  exists dp,
    DataProcessor.new pd g = Ok (dp, advance (7 * 2340) g)
    /\ Forall2 (pickedAt pd)
               (Shipments.shipmentRecords
                  (ProcessedData.shipments (DataProcessor.processedData dp)))
               (seq 0 2340).
Proof.
  intros Hd Hp. apply andb_true_iff in Hp. destruct Hp as [Hps Hpb].
  destruct (processMarketData_returns pd) as (m & Hm & _).
  destruct (processGeographicData_returns pd) as (geo & Hg & _).
  destruct (processSupplierData_returns pd Hps) as (sup & Hs & _).
  destruct (processBuyerData_returns pd Hpb) as (buy & Hb & _).
  destruct (processPricingData_returns pd) as (pr & Hp).
  destruct (recordsLoop_returns pd 2340 0 [] g Hd) as (rs & Hrs & Hall).
  eexists. split.
  - unfold DataProcessor.new, DataProcessor.processAllData,
      DataProcessor.processShipmentData, DataProcessor.generateShipmentRecords.
    cbv beta iota zeta delta [mbind lift ret].
    rewrite Hm, Hg, Hs, Hb, Hp, Hrs. cbn [app]. reflexivity.
  - cbn [DataProcessor.processedData ProcessedData.shipments Shipments.shipmentRecords].
    exact Hall.
Qed.

(** The constructor on an input with a country named as a property of
    [Object.prototype]: the grouping of the suppliers, or else that of the
    buyers, throws. *)
Lemma new_throws (pd : ProductData.t) (g : Rng) :
  plainInput pd = false ->
  DataProcessor.new pd g
  = Throw (notAFunction (if plainCountries (or_nil (ProductData.topSuppliers pd))
                         then "buyer" else "supplier")).
Proof.
  intros Hp. unfold plainInput in Hp.
  destruct (processMarketData_returns pd) as (m & Hm & _).
  destruct (processGeographicData_returns pd) as (geo & Hg & _).
  unfold DataProcessor.new, DataProcessor.processAllData.
  cbv beta iota zeta delta [mbind lift ret].
  rewrite Hm, Hg.
  destruct (plainCountries (or_nil (ProductData.topSuppliers pd))) eqn:Hps.
  - cbn [andb] in Hp.
    destruct (processSupplierData_returns pd Hps) as (sup & Hs & _).
    rewrite Hs, (processBuyerData_throws pd Hp). reflexivity.
  - rewrite (processSupplierData_throws pd Hps). reflexivity.
Qed.

Lemma records_unknown (pd : ProductData.t) (rs : list ShipmentRecord.t) :
  Forall2 (pickedAt pd) rs (seq 0 2340) ->
  (or_nil (ProductData.topSuppliers pd) = [] ->
   Forall (fun r => ShipmentRecord.supplier r = "Unknown Supplier"
                    /\ ShipmentRecord.supplierCountry r = "Unknown") rs)
  /\ (or_nil (ProductData.topBuyers pd) = [] ->
      Forall (fun r => ShipmentRecord.buyer r = "Unknown Buyer"
                       /\ ShipmentRecord.buyerCountry r = "Unknown") rs).
Proof.
  intros Hall.
  destruct (Forall2_seq_nth (pickedAt pd) 2340 0 rs Hall) as [Hlen Hnth].
  assert (Hpick : forall r, In r rs -> exists k, pickedAt pd r k).
  { intros r Hin. apply In_nth_error in Hin. destruct Hin as [k Hk].
    assert (Hlt : (k < 2340)%nat).
    { rewrite <- Hlen. apply nth_error_Some. congruence. }
    destruct (Hnth k Hlt) as (r' & Hr' & Hp').
    rewrite Hk in Hr'. injection Hr' as <-. eauto. }
  split; intros Hnil; apply Forall_forall; intros r Hin;
    destruct (Hpick r Hin) as (k & _ & Hs & Hsc & Hb & Hbc & _).
  - rewrite Hs, Hsc. unfold DataProcessor.pickSupplier. rewrite Hnil. split; reflexivity.
  - rewrite Hb, Hbc. unfold DataProcessor.pickBuyer. rewrite Hnil. split; reflexivity.
Qed.

(** C5, as the code has it.  Normalization validates nothing.  For every
    input in which no supplier and no buyer has a name of
    [Object.prototype] as its country (and every random source whose dates
    are valid) the constructor returns a view: the record count shown is
    that of [totalRecords || 0], the average divides by [totalRecords || 1],
    each of the four ranked lists has the length of the input list, a
    missing list being ranked as the empty one, and 2340 records are
    generated, whose supplier and buyer are "Unknown Supplier" and
    "Unknown Buyer", of country "Unknown", when the lists are empty.  For
    the other inputs the constructor throws the [TypeError] of the grouping
    loop. *)
Theorem normalize_substitutes_defaults (pd : ProductData.t) (g : Rng) :
  datesValid g ->
  if plainInput pd
  then
    exists dp g',
      DataProcessor.new pd g = Ok (dp, g')
      /\ Market.totalRecords (ProcessedData.market (DataProcessor.processedData dp))
         = DataProcessor.formatNumber (num (or_num (ProductData.totalRecords pd) 0))
      /\ Market.avgTransactionValue (ProcessedData.market (DataProcessor.processedData dp))
         = DataProcessor.formatCurrency
             (num (or_num (ProductData.totalValue pd) 0
                   / or_num (ProductData.totalRecords pd) 1)%float)
      /\ List.length (Geography.importingCountries
                        (ProcessedData.geography (DataProcessor.processedData dp)))
         = List.length (or_nil (ProductData.importingCountries pd))
      /\ List.length (Geography.exportingCountries
                        (ProcessedData.geography (DataProcessor.processedData dp)))
         = List.length (or_nil (ProductData.exportingCountries pd))
      /\ List.length (Suppliers.topSuppliers
                        (ProcessedData.suppliers (DataProcessor.processedData dp)))
         = List.length (or_nil (ProductData.topSuppliers pd))
      /\ List.length (Buyers.topBuyers
                        (ProcessedData.buyers (DataProcessor.processedData dp)))
         = List.length (or_nil (ProductData.topBuyers pd))
      /\ List.length (Shipments.shipmentRecords
                        (ProcessedData.shipments (DataProcessor.processedData dp)))
         = 2340%nat
      /\ (or_nil (ProductData.topSuppliers pd) = [] ->
          Forall (fun r => ShipmentRecord.supplier r = "Unknown Supplier"
                           /\ ShipmentRecord.supplierCountry r = "Unknown")
                 (Shipments.shipmentRecords
                    (ProcessedData.shipments (DataProcessor.processedData dp))))
      /\ (or_nil (ProductData.topBuyers pd) = [] ->
          Forall (fun r => ShipmentRecord.buyer r = "Unknown Buyer"
                           /\ ShipmentRecord.buyerCountry r = "Unknown")
                 (Shipments.shipmentRecords
                    (ProcessedData.shipments (DataProcessor.processedData dp))))
  else exists message, DataProcessor.new pd g = Throw (TypeError message).
Proof.
  intros Hd. destruct (plainInput pd) eqn:Hplain.
  - destruct (new_returns pd g Hd Hplain) as (dp & Hnew & Hall).
    destruct (new_inversion pd g dp _ Hnew) as (Hm & Hg & Hs & Hb & _).
    cbv zeta in Hm, Hg, Hs, Hb.
    destruct (processMarketData_returns pd) as (m & Hm' & Hrec & _ & Havg).
    rewrite Hm in Hm'. injection Hm' as <-.
    destruct (processGeographicData_returns pd) as (geo & Hg' & Hir & _ & Her & _).
    rewrite Hg in Hg'. injection Hg' as <-.
    destruct (supplier_list pd _ Hs) as (_ & Hsr & _).
    destruct (buyer_list pd _ Hb) as (_ & Hbr & _).
    apply (f_equal (@List.length Z)) in Hir, Her, Hsr, Hbr.
    rewrite !length_map, length_seq in Hir, Her, Hsr, Hbr.
    destruct (Forall2_seq_nth (pickedAt pd) 2340 0 _ Hall) as [Hlen _].
    destruct (records_unknown pd _ Hall) as [Hus Hub].
    exists dp, (advance (7 * 2340) g). repeat split; assumption.
  - rewrite (new_throws pd g Hplain). unfold notAFunction. eauto.
Qed.

Lemma normalize_substitutes_defaults_witness :
  datesValid Inputs.halves
  /\ plainInput Inputs.empty = true
  /\ exists dp g',
       DataProcessor.new Inputs.empty Inputs.halves = Ok (dp, g')
       /\ Market.totalRecords (ProcessedData.market (DataProcessor.processedData dp)) = "0"
       /\ Market.avgTransactionValue (ProcessedData.market (DataProcessor.processedData dp))
          = "$0"
       /\ Forall (fun r => ShipmentRecord.buyer r = "Unknown Buyer"
                           /\ ShipmentRecord.buyerCountry r = "Unknown")
                 (Shipments.shipmentRecords
                    (ProcessedData.shipments (DataProcessor.processedData dp))).
Proof.
  split; [exact halves_datesValid|]. split; [reflexivity|].
  pose proof (normalize_substitutes_defaults Inputs.empty Inputs.halves halves_datesValid)
    as H.
  change (plainInput Inputs.empty) with true in H. cbv iota in H.
  destruct H as (dp & g' & Hrun & Hrec & Havg & _ & _ & _ & _ & _ & _ & Hub).
  exists dp, g'. split; [exact Hrun|]. split; [exact Hrec|]. split; [exact Havg|].
  apply Hub. reflexivity.
Defined.

(** On the sample input with one more supplier, whose country is
    "constructor", the constructor throws: [grouped["constructor"]] is the
    inherited function [Object], which has no [push]. *)
Lemma new_throws_on_inherited (g : Rng) :
  DataProcessor.new Inputs.inheritedCountry g
  = Throw (TypeError "grouped[supplier.country].push is not a function").
Proof. rewrite new_throws by reflexivity. reflexivity. Qed.

(** C5, as the specification words it, fails: the constructor returns a
    view for the empty object, for [totalRecords = 0] and for
    [totalRecords = -5]; no error is signalled. *)
Lemma normalize_accepts_invalid_input :
  returns (DataProcessor.new Inputs.empty Inputs.draws)
    (fun out =>
       let d := DataProcessor.processedData (fst out) in
       Market.totalRecords (ProcessedData.market d) = "0"
       /\ Market.avgTransactionValue (ProcessedData.market d) = "$0"
       /\ Geography.importingCountries (ProcessedData.geography d) = []
       /\ Suppliers.topSuppliers (ProcessedData.suppliers d) = []
       /\ Shipments.totalShipments (ProcessedData.shipments d) = 2340%nat
       /\ map ShipmentRecord.supplier
              (firstn 1 (Shipments.shipmentRecords (ProcessedData.shipments d)))
          = ["Unknown Supplier"])
  /\ returns (DataProcessor.processMarketData (Inputs.withTotals (num 0) (num 1245800000)))
       (fun m => Market.totalRecords m = "0"
                 /\ Market.avgTransactionValue m = "$1,245,800,000")
  /\ returns (DataProcessor.processMarketData (Inputs.withTotals (num (-5)) (num 1245800000)))
       (fun m => Market.totalRecords m = "-5"
                 /\ Market.avgTransactionValue m = "-$249,160,000")
  /\ returns (DataProcessor.new (Inputs.withTotals (num 0) (num 1245800000)) Inputs.draws)
       (fun out => Shipments.totalShipments
                     (ProcessedData.shipments (DataProcessor.processedData (fst out)))
                   = 2340%nat).
Proof. vm_compute. repeat split. Qed.
(** ** Batches of shipment records *)

Lemma firstn_min_length {A : Type} (a : nat) (x : list A) :
  firstn (Nat.min a (List.length x)) x = firstn a x.
Proof.
  destruct (Nat.le_ge_cases a (List.length x)) as [H|H].
  - rewrite Nat.min_l by exact H. reflexivity.
  - rewrite Nat.min_r by exact H. rewrite !firstn_all2; auto.
Qed.

(** A slice from a multiple of the batch size to the next one is the
    batch, cut short at the end of the list. *)
Lemma slice_batch {A : Type} (l : list A) (size : nat) (i : nat) :
  slice l (Z.of_nat i * Z.of_nat size + 1 - 1) ((Z.of_nat i + 1) * Z.of_nat size)
  = firstn size (skipn (i * size)%nat l).
Proof.
  unfold slice, relative_index.
  set (len := List.length l).
  replace (Z.of_nat i * Z.of_nat size + 1 - 1) with (Z.of_nat (i * size)%nat) by lia.
  replace ((Z.of_nat i + 1) * Z.of_nat size) with (Z.of_nat (i * size + size)%nat) by lia.
  destruct (Z.ltb_spec (Z.of_nat (i * size)%nat) 0); [lia|].
  destruct (Z.ltb_spec (Z.of_nat (i * size + size)%nat) 0); [lia|].
  destruct (Nat.le_gt_cases len (i * size)%nat) as [Hout|Hin].
  - rewrite !Z.min_r by lia.
    rewrite Nat2Z.id. rewrite !skipn_all2 by (subst len; lia).
    rewrite !firstn_nil. reflexivity.
  - rewrite (Z.min_l (Z.of_nat (i * size)%nat)) by lia.
    rewrite Nat2Z.id.
    rewrite <- (firstn_min_length size (skipn (i * size)%nat l)).
    f_equal. rewrite length_skipn. fold len. lia.
Qed.

Lemma chunks_from {A : Type} (size : nat) (l : list A) :
  forall n j,
    (List.length l <= (j + n) * size)%nat ->
    List.concat (map (fun i => firstn size (skipn (i * size)%nat l)) (seq j n))
    = skipn (j * size)%nat l.
Proof.
  induction n as [|n IH]; intros j Hlen.
  - cbn [seq map List.concat]. rewrite skipn_all2 by lia. reflexivity.
  - cbn [seq map List.concat]. rewrite (IH (S j)) by lia.
    replace (S j * size)%nat with (size + j * size)%nat by lia.
    rewrite <- skipn_skipn. apply firstn_skipn.
Qed.

Lemma entries_reassemble (records : list ShipmentRecord.t) (n size : nat) (first : Z) :
  (List.length records <= n * size)%nat ->
  List.concat (map (fun d => ShipmentRecordsSection.slideRecords d records)
              (MainOrchestrator.shipmentEntries n (Z.of_nat size) first))
  = records.
Proof.
  intros Hlen.
  unfold MainOrchestrator.shipmentEntries, MainOrchestrator.Array_from.
  rewrite map_map.
  rewrite (map_ext _ (fun i => firstn size (skipn (i * size)%nat records))).
  - rewrite (chunks_from size records n 0) by lia. reflexivity.
  - intros i. unfold ShipmentRecordsSection.slideRecords.
    cbn [MainOrchestrator.withRecords SlideDef.recordStart SlideDef.recordEnd].
    apply slice_batch.
Qed.

(** C2.  The slices [records.slice(recordStart - 1, recordEnd)] of the
    234 shipment entries of the structure table, concatenated in the order
    of the table (ascending id: the entries are numbered from 67 on), give
    back a list of 2340 records exactly.
    The same holds for any number [n] of entries of any batch size and any
    list of at most [n] times that many records: where the length is not a
    multiple of the batch size the last slice is short, the slice stopping
    at the end of the list. *)
Theorem batches_reassemble (records : list ShipmentRecord.t) :
  (List.length records = 2340%nat ->
   List.concat (map (fun d => ShipmentRecordsSection.slideRecords d records)
               (SectionPlan.slides
                  (SlideStructure.shipmentRecords MainOrchestrator.defineSlideStructure)))
   = records)
  /\ (forall (n size : nat) (first : Z),
        (List.length records <= n * size)%nat ->
        List.concat (map (fun d => ShipmentRecordsSection.slideRecords d records)
                    (MainOrchestrator.shipmentEntries n (Z.of_nat size) first))
        = records)
  /\ (forall (n : nat) (size first : Z),
        map SlideDef.id (MainOrchestrator.shipmentEntries n size first)
        = map (fun i => first + Z.of_nat i) (seq 0 n)).
Proof.
  split; [|split].
  - intros Hlen.
    change (SectionPlan.slides
              (SlideStructure.shipmentRecords MainOrchestrator.defineSlideStructure))
      with (MainOrchestrator.shipmentEntries 234 (Z.of_nat 10) 67).
    apply entries_reassemble. rewrite Hlen. apply Nat.eq_le_incl. reflexivity.
  - intros n size first Hlen. apply entries_reassemble. exact Hlen.
  - intros n size first.
    unfold MainOrchestrator.shipmentEntries, MainOrchestrator.Array_from.
    rewrite map_map. reflexivity.
Qed.

Lemma batches_reassemble_witness :
  List.length (Inputs.numbered 2340) = 2340%nat
  /\ List.concat (map (fun d => ShipmentRecordsSection.slideRecords d (Inputs.numbered 2340))
                 (SectionPlan.slides
                    (SlideStructure.shipmentRecords MainOrchestrator.defineSlideStructure)))
     = Inputs.numbered 2340
  /\ (List.length (Inputs.numbered 25) <= 3 * 10)%nat
  /\ List.concat (map (fun d => ShipmentRecordsSection.slideRecords d (Inputs.numbered 25))
                 (MainOrchestrator.shipmentEntries 3 10 1))
     = Inputs.numbered 25.
Proof.
  assert (H1 : List.length (Inputs.numbered 2340) = 2340%nat)
    by (unfold Inputs.numbered; rewrite length_map, length_seq; reflexivity).
  assert (H2 : (List.length (Inputs.numbered 25) <= 3 * 10)%nat)
    by (unfold Inputs.numbered; rewrite length_map, length_seq; repeat constructor).
  split; [exact H1|].
  split; [exact (proj1 (batches_reassemble (Inputs.numbered 2340)) H1)|].
  split; [exact H2|].
  exact (proj1 (proj2 (batches_reassemble (Inputs.numbered 25))) 3%nat 10%nat 1 H2).
Defined.

(** The batches of 25 records by 10 hold 10, 10 and 5 records. *)
Lemma short_last_batch :
  map (fun d => List.length (ShipmentRecordsSection.slideRecords d (Inputs.numbered 25)))
      (MainOrchestrator.shipmentEntries 3 10 1)
  = [10; 10; 5]%nat.
Proof. vm_compute. reflexivity. Qed.
(** ** The slide count *)

Lemma pushSlides_length (generate : SlideDef.t -> M Slide.t) :
  forall defs acc g out g',
    pushSlides generate defs acc g = Ok (out, g') ->
    List.length out = (List.length acc + List.length defs)%nat.
Proof.
  induction defs as [|d defs IH]; intros acc g out g' H.
  - cbn [pushSlides] in H. unfold ret in H. injection H as <- _. cbn. lia.
  - cbn [pushSlides] in H. unfold mbind in H.
    destruct (generate d g) as [[slide g1]|e]; [|discriminate].
    apply IH in H. rewrite H, length_app. cbn. lia.
Qed.

Lemma pushSlides_count (generate : SlideDef.t -> M Slide.t) defs g out g' :
  pushSlides generate defs [] g = Ok (out, g') -> List.length out = List.length defs.
Proof. intros H. apply pushSlides_length in H. exact H. Qed.

(** C1.  [generateAllSlides] returns only when the six sections of the
    table hold 297 entries in all, and then with 297 slides.  Otherwise it
    throws: the error of a section, or, when every section has produced
    its slides and their number is not 297, the structure-deviation error
    with that number.  The table of the source holds
    8 + 15 + 16 + 23 + 1 + 234 = 297 entries, 234 being the number of
    batches of 10 in 2340 records. *)
Theorem generateAllSlides_checks_total (R : Renderer) (self : MainOrchestrator.t) (g : Rng) :
  match MainOrchestrator.generateAllSlides R self g with
  | Ok (self', _) =>
      MainOrchestrator.totalEntries (MainOrchestrator.slideStructure self) = 297%nat
      /\ List.length (MainOrchestrator.slides self') = 297%nat
  | Throw e =>
      sectionThrows R self e
      \/ (MainOrchestrator.totalEntries (MainOrchestrator.slideStructure self) <> 297%nat
          /\ e = MainOrchestrator.deviation
                   (MainOrchestrator.totalEntries (MainOrchestrator.slideStructure self)))
  end
  /\ map (fun section => List.length (SectionPlan.slides section))
         [ SlideStructure.foundation MainOrchestrator.defineSlideStructure;
           SlideStructure.importingCountries MainOrchestrator.defineSlideStructure;
           SlideStructure.exportingCountries MainOrchestrator.defineSlideStructure;
           SlideStructure.supplierBuyer MainOrchestrator.defineSlideStructure;
           SlideStructure.pricing MainOrchestrator.defineSlideStructure;
           SlideStructure.shipmentRecords MainOrchestrator.defineSlideStructure ]
     = [8; 15; 16; 23; 1; 234]%nat
  /\ MainOrchestrator.totalEntries MainOrchestrator.defineSlideStructure = 297%nat
  /\ (8 + 15 + 16 + 23 + 1 + (2340 + 9) / 10 = 297)%Z.
Proof.
  split; [|repeat split].
  unfold MainOrchestrator.generateAllSlides, sectionThrows. cbv zeta.
  set (data := DataProcessor.getProcessedData (MainOrchestrator.dataProcessor self)).
  set (plan := MainOrchestrator.slideStructure self).
  unfold mbind.
  destruct (FoundationSection.generateSlides R data _ g) as [[s1 g1]|e] eqn:E1;
    [|left; exists g; auto].
  destruct (ImportingCountriesSection.generateSlides R data _ g1) as [[s2 g2]|e] eqn:E2;
    [|left; exists g1; auto].
  destruct (ExportingCountriesSection.generateSlides R data _ g2) as [[s3 g3]|e] eqn:E3;
    [|left; exists g2; auto].
  destruct (SupplierBuyerSection.generateSlides R data _ g3) as [[s4 g4]|e] eqn:E4;
    [|left; exists g3; auto 6].
  destruct (PricingSection.generateSlides R data _ g4) as [[s5 g5]|e] eqn:E5;
    [|left; exists g4; auto 7].
  destruct (ShipmentRecordsSection.generateSlides R data _ g5) as [[s6 g6]|e] eqn:E6;
    [|left; exists g5; auto 8].
  apply pushSlides_count in E1, E2, E3, E4, E5, E6.
  unfold MainOrchestrator.totalEntries. fold plan.
  rewrite <- E1, <- E2, <- E3, <- E4, <- E5, <- E6.
  destruct (Nat.eqb_spec
              (List.length s1 + List.length s2 + List.length s3 + List.length s4
               + List.length s5 + List.length s6) 297) as [Heq|Hne]; cbn [negb].
  - unfold ret. cbn [MainOrchestrator.slides]. split; [exact Heq|].
    rewrite !length_app. lia.
  - unfold throw. right. split; [exact Hne|reflexivity].
Qed.

(** A table of 297 entries (the foundation and pricing entries of the
    source and 288 shipment entries): the driver returns 297 slides. *)
Lemma exact_total_returns :
  returns
    (MainOrchestrator.generateAllSlides Inputs.blank
       (Inputs.orchestratorOver
          {| SlideStructure.foundation :=
               SlideStructure.foundation MainOrchestrator.defineSlideStructure;
             SlideStructure.importingCountries :=
               {| SectionPlan.range := (9, 23); SectionPlan.slides := [] |};
             SlideStructure.exportingCountries :=
               {| SectionPlan.range := (24, 39); SectionPlan.slides := [] |};
             SlideStructure.supplierBuyer :=
               {| SectionPlan.range := (40, 62); SectionPlan.slides := [] |};
             SlideStructure.pricing :=
               SlideStructure.pricing MainOrchestrator.defineSlideStructure;
             SlideStructure.shipmentRecords :=
               {| SectionPlan.range := (67, 300);
                  SectionPlan.slides := MainOrchestrator.shipmentEntries 288 10 67 |} |})
       Inputs.halves)
    (fun out => List.length (MainOrchestrator.slides (fst out)) = 297%nat).
Proof. vm_compute. reflexivity. Qed.

(** A table of 296 entries (the foundation and pricing entries of the
    source and 287 shipment entries): every section produces its slides and
    the driver throws the deviation error. *)
Lemma deviation_by_one :
  MainOrchestrator.generateAllSlides Inputs.blank
    (Inputs.orchestratorOver
       {| SlideStructure.foundation :=
            SlideStructure.foundation MainOrchestrator.defineSlideStructure;
          SlideStructure.importingCountries :=
            {| SectionPlan.range := (9, 23); SectionPlan.slides := [] |};
          SlideStructure.exportingCountries :=
            {| SectionPlan.range := (24, 39); SectionPlan.slides := [] |};
          SlideStructure.supplierBuyer :=
            {| SectionPlan.range := (40, 62); SectionPlan.slides := [] |};
          SlideStructure.pricing :=
            SlideStructure.pricing MainOrchestrator.defineSlideStructure;
          SlideStructure.shipmentRecords :=
            {| SectionPlan.range := (67, 300);
               SectionPlan.slides := MainOrchestrator.shipmentEntries 287 10 67 |} |})
    Inputs.halves
  = Throw (GenericError "❌ STRUCTURE DEVIATION DETECTED: Expected 297 slides, got 296").
Proof. vm_compute. reflexivity. Qed.
(** ** Entries that cannot be resolved *)

Lemma rankedSlide_missing {A : Type} (R : Renderer) (data : ProcessedData.t)
      (gen : Generator) (d : SlideDef.t) (l : list A) (rank : option Z)
      (what : string) (title : A -> string) (g : Rng) :
  at_rank l rank = None ->
  rankedSlide R data gen d l rank what title g
  = Throw (GenericError (what ++ " at rank " ++ show rank ++ " not found")).
Proof. intros H. unfold rankedSlide. rewrite H. reflexivity. Qed.

Lemma pushSlides_throws (generate : SlideDef.t -> M Slide.t) (d : SlideDef.t) :
  (forall g, exists e, generate d g = Throw e) ->
  forall defs acc g,
    In d defs -> exists e, pushSlides generate defs acc g = Throw e.
Proof.
  intros Hd. induction defs as [|d' defs IH]; intros acc g Hin; [destruct Hin|].
  cbn [pushSlides]. unfold mbind.
  destruct Hin as [->|Hin].
  - destruct (Hd g) as [e He]. rewrite He. eauto.
  - destruct (generate d' g) as [[slide g1]|e]; [|eauto].
    apply IH. exact Hin.
Qed.

Lemma pushSlides_first_failure (generate : SlideDef.t -> M Slide.t) :
  forall pre acc g done g1 d post e,
    pushSlides generate pre acc g = Ok (done, g1) ->
    generate d g1 = Throw e ->
    pushSlides generate (pre ++ d :: post) acc g = Throw e.
Proof.
  induction pre as [|p pre IH]; intros acc g done g1 d post e Hpre Hd.
  - cbn [pushSlides] in Hpre. unfold ret in Hpre. injection Hpre as _ <-.
    cbn [app pushSlides]. unfold mbind. rewrite Hd. reflexivity.
  - cbn [app pushSlides] in *. unfold mbind in *.
    destruct (generate p g) as [[slide g2]|e']; [|discriminate].
    eapply IH; eassumption.
Qed.

Lemma importing_unresolved (R : Renderer) (data : ProcessedData.t) (d : SlideDef.t) :
  (registeredImporting (SlideDef.type d) = true ->
   at_rank (Geography.importingCountries (ProcessedData.geography data))
           (SlideDef.countryRank d) = None) ->
  forall g,
    ImportingCountriesSection.generateSlide R data d g
    = Throw (GenericError (unresolvedMessage d)).
Proof.
  intros H g. unfold ImportingCountriesSection.generateSlide, unresolvedMessage,
    registeredImporting in *. cbv zeta.
  destruct (String.eqb (SlideDef.type d) "importing_country_suppliers").
  - cbn [orb] in *.
    unfold ImportingCountriesSection.importingCountrySuppliersSlide.
    rewrite rankedSlide_missing by (apply H; reflexivity). reflexivity.
  - destruct (String.eqb (SlideDef.type d) "importing_country_companies").
    + cbn [orb] in *.
      unfold ImportingCountriesSection.importingCountryCompaniesSlide.
      rewrite rankedSlide_missing by (apply H; reflexivity). reflexivity.
    + reflexivity.
Qed.

Lemma importing_section_aborts (R : Renderer) (self : MainOrchestrator.t) (d : SlideDef.t) :
  In d (SectionPlan.slides
          (SlideStructure.importingCountries (MainOrchestrator.slideStructure self))) ->
  (forall g, exists e,
      ImportingCountriesSection.generateSlide R
        (DataProcessor.getProcessedData (MainOrchestrator.dataProcessor self)) d g
      = Throw e) ->
  forall g, exists e, MainOrchestrator.generateAllSlides R self g = Throw e.
Proof.
  intros Hin Hd g. unfold MainOrchestrator.generateAllSlides. cbv zeta. unfold mbind.
  destruct (FoundationSection.generateSlides R _ _ g) as [[s1 g1]|e]; [|eauto].
  destruct (pushSlides_throws _ d Hd _ [] g1 Hin) as [e He].
  unfold ImportingCountriesSection.generateSlides. rewrite He. eauto.
Qed.

Lemma new_geography (pd : ProductData.t) (g : Rng) (dp : DataProcessor.t) (g' : Rng) :
  DataProcessor.new pd g = Ok (dp, g') ->
  DataProcessor.processGeographicData pd
  = Ok (ProcessedData.geography (DataProcessor.processedData dp)).
Proof.
  unfold DataProcessor.new, DataProcessor.processAllData,
    DataProcessor.processShipmentData.
  cbv beta iota zeta delta [mbind lift ret].
  destruct (DataProcessor.processMarketData pd); [|discriminate].
  destruct (DataProcessor.processGeographicData pd); [|discriminate].
  destruct (DataProcessor.processSupplierData pd); [|discriminate].
  destruct (DataProcessor.processBuyerData pd); [|discriminate].
  destruct (DataProcessor.processPricingData pd); [|discriminate].
  destruct (DataProcessor.generateShipmentRecords pd g) as [[rs g1]|]; [|discriminate].
  intros H. injection H as <- _. reflexivity.
Qed.

Lemma run_throws (R : Renderer) (pd : ProductData.t) (g : Rng) :
  (List.length (or_nil (ProductData.importingCountries pd)) < 10)%nat ->
  exists e, Main.run R pd g = Throw e.
Proof.
  intros Hshort. unfold Main.run, MainOrchestrator.new, mbind, ret.
  destruct (DataProcessor.new pd g) as [[dp0 g1]|e]; [|eauto].
  destruct (DataProcessor.new pd g1) as [[dp g2]|e] eqn:Hnew; [|eauto].
  set (self := {| MainOrchestrator.productData := pd;
                  MainOrchestrator.slides := [];
                  MainOrchestrator.dataProcessor := dp;
                  MainOrchestrator.slideStructure := MainOrchestrator.defineSlideStructure |}).
  set (d := MainOrchestrator.withCountryRank 10
              (MainOrchestrator.entry 23 "importing_country_companies"
                 "Top 10 Importing country- Who are the top 10 suppliers companies")).
  assert (Hthrow : exists e, MainOrchestrator.generateAllSlides R self g2 = Throw e).
  { apply (importing_section_aborts R self d).
    - vm_compute. do 14 right. left. reflexivity.
    - intros g0. eexists. apply importing_unresolved. intros _.
      apply new_geography in Hnew.
      destruct (processGeographicData_returns pd) as (geo & Hgeo & Hranks & _).
      rewrite Hgeo in Hnew. injection Hnew as Hnew.
      apply (f_equal (@List.length Z)) in Hranks.
      rewrite !length_map, length_seq in Hranks.
      subst self. cbn [MainOrchestrator.dataProcessor].
      unfold DataProcessor.getProcessedData. rewrite <- Hnew. cbn [at_rank SlideDef.countryRank d MainOrchestrator.withCountryRank].
      apply nth_error_None. rewrite Hranks. cbn. lia. }
  destruct Hthrow as [e He]. rewrite He. eauto.
Qed.

(** C10, as the code has it.  An entry of the importing-countries section
    whose kind has no generator, or whose rank is missing from the list of
    importing countries, makes [generateSlide] throw before anything is
    rendered: "Unknown slide type: " followed by the kind, or
    "Importing country at rank " followed by the rank and " not found".
    The message names the kind or the rank; the slide id is not part of it.
    The section then returns no slides (the error is the one of the first
    entry that fails), the driver throws, and a run whose input has fewer
    than the ten importing countries the table asks for ends as a failure
    with no document and no summary written. *)
Theorem unresolved_entry_aborts (R : Renderer) :
  (forall (data : ProcessedData.t) (d : SlideDef.t) (g : Rng),
      (registeredImporting (SlideDef.type d) = true ->
       at_rank (Geography.importingCountries (ProcessedData.geography data))
               (SlideDef.countryRank d) = None) ->
      ImportingCountriesSection.generateSlide R data d g
      = Throw (GenericError (unresolvedMessage d)))
  /\ (forall (data : ProcessedData.t) (pre post : list SlideDef.t) (d : SlideDef.t)
             (g g1 : Rng) (done : list Slide.t),
         ImportingCountriesSection.generateSlides R data pre g = Ok (done, g1) ->
         (registeredImporting (SlideDef.type d) = true ->
          at_rank (Geography.importingCountries (ProcessedData.geography data))
                  (SlideDef.countryRank d) = None) ->
         ImportingCountriesSection.generateSlides R data (pre ++ d :: post) g
         = Throw (GenericError (unresolvedMessage d)))
  /\ (forall (self : MainOrchestrator.t) (d : SlideDef.t) (g : Rng),
         In d (SectionPlan.slides
                 (SlideStructure.importingCountries (MainOrchestrator.slideStructure self))) ->
         (registeredImporting (SlideDef.type d) = true ->
          at_rank (Geography.importingCountries
                     (ProcessedData.geography
                        (DataProcessor.getProcessedData
                           (MainOrchestrator.dataProcessor self))))
                  (SlideDef.countryRank d) = None) ->
         exists e, MainOrchestrator.generateAllSlides R self g = Throw e)
  /\ (forall (pd : ProductData.t) (g : Rng),
         (List.length (or_nil (ProductData.importingCountries pd)) < 10)%nat ->
         Main.success (Main.generatePresentation R pd g) = false
         /\ Main.outputFile (Main.generatePresentation R pd g) = None
         /\ Main.summary (Main.generatePresentation R pd g) = None
         /\ exists msg, Main.error (Main.generatePresentation R pd g) = Some msg).
Proof.
  split; [|split; [|split]].
  - intros data d g H. apply importing_unresolved. exact H.
  - intros data pre post d g g1 done Hpre H.
    unfold ImportingCountriesSection.generateSlides in *.
    eapply pushSlides_first_failure; [exact Hpre|].
    apply importing_unresolved. exact H.
  - intros self d g Hin H.
    apply (importing_section_aborts R self d Hin).
    intros g0. eexists. apply importing_unresolved. exact H.
  - intros pd g Hshort. unfold Main.generatePresentation.
    destruct (run_throws R pd g Hshort) as [e He]. rewrite He.
    cbn. repeat split. eauto.
Qed.

Lemma unresolved_entry_aborts_witness :
  (registeredImporting "importing_country_companies" = true ->
   at_rank (Geography.importingCountries (ProcessedData.geography Inputs.bareView))
           (Some 9) = None)
  /\ ImportingCountriesSection.generateSlide Inputs.blank Inputs.bareView
       (MainOrchestrator.withCountryRank 9
          (MainOrchestrator.entry 22 "importing_country_companies" "Top 9"))
       Inputs.halves
     = Throw (GenericError "Importing country at rank 9 not found")
  /\ (List.length (or_nil (ProductData.importingCountries Inputs.eightImporters)) < 10)%nat
  /\ Main.success (Main.generatePresentation Inputs.blank Inputs.eightImporters Inputs.halves)
     = false
  /\ Main.outputFile
       (Main.generatePresentation Inputs.blank Inputs.eightImporters Inputs.halves)
     = None.
Proof.
  assert (H1 : registeredImporting "importing_country_companies" = true ->
               at_rank (Geography.importingCountries
                          (ProcessedData.geography Inputs.bareView)) (Some 9) = None)
    by (intros _; reflexivity).
  assert (H2 : (List.length (or_nil (ProductData.importingCountries Inputs.eightImporters))
                < 10)%nat)
    by (cbn; repeat constructor).
  split; [exact H1|].
  split.
  { exact (proj1 (unresolved_entry_aborts Inputs.blank) Inputs.bareView
             (MainOrchestrator.withCountryRank 9
                (MainOrchestrator.entry 22 "importing_country_companies" "Top 9"))
             Inputs.halves H1). }
  split; [exact H2|].
  destruct (proj2 (proj2 (proj2 (unresolved_entry_aborts Inputs.blank)))
              Inputs.eightImporters Inputs.halves H2) as (Hs & Ho & _).
  split; [exact Hs|exact Ho].
Defined.

(** C10, as the specification words it, fails.  On the sample input cut
    to eight importing countries the run stops at slide 22, the entry of
    rank 9, and the error message is "Importing country at rank 9 not
    found": it names the rank, and the slide id 22 is nowhere in it.  An
    entry of an unknown kind is reported by its kind alone. *)
Lemma error_names_rank_not_slide :
  (fun outcome =>
     Main.success outcome = false
     /\ Main.error outcome = Some "Importing country at rank 9 not found"
     /\ Main.outputFile outcome = None)
    (Main.generatePresentation Inputs.blank Inputs.eightImporters Inputs.draws)
  /\ map SlideDef.id
         (filter (fun d => match SlideDef.countryRank d with
                           | Some 9 => true
                           | _ => false
                           end)
                 (SectionPlan.slides
                    (SlideStructure.importingCountries MainOrchestrator.defineSlideStructure)))
     = [22]
  /\ includes "22" "Importing country at rank 9 not found" = false
  /\ ImportingCountriesSection.generateSlides Inputs.blank Inputs.bareView
       [MainOrchestrator.entry 22 "importing_country_chart" "Chart"] Inputs.halves
     = Throw (GenericError "Unknown slide type: importing_country_chart")
  /\ includes "22" "Unknown slide type: importing_country_chart" = false.
Proof. vm_compute. repeat split. Qed.
(** * Further properties of the code *)

(** ** Cell texts: [truncateText] *)

Lemma substring_prefix (t : ShipmentRecordsSection.text) (n : Z) :
  0 <= n <= Z.of_nat (List.length t) ->
  ShipmentRecordsSection.substring t 0 n = firstn (Z.to_nat n) t.
Proof.
  intros H. unfold ShipmentRecordsSection.substring. cbv zeta.
  rewrite (Z.max_l 0 0) by lia.
  rewrite (Z.min_l 0 (Z.of_nat (List.length t))) by lia.
  rewrite (Z.max_l n 0) by lia.
  rewrite (Z.min_l n (Z.of_nat (List.length t))) by lia.
  rewrite Z.max_r, Z.min_l by lia.
  rewrite Z.sub_0_r. reflexivity.
Qed.

(** X1.  For a limit of at least 3, [truncateText] returns a text of at
    most the limit: the text itself when it fits, and otherwise its first
    [maxLength - 3] units followed by three dots, which is exactly
    [maxLength] long; truncating the result again changes nothing. *)
Theorem truncateText_bound (t : ShipmentRecordsSection.text) (maxLength : Z) :
  3 <= maxLength ->
  Z.of_nat (List.length (ShipmentRecordsSection.truncateText t maxLength)) <= maxLength
  /\ (Z.of_nat (List.length t) <= maxLength ->
      ShipmentRecordsSection.truncateText t maxLength = t)
  /\ (maxLength < Z.of_nat (List.length t) ->
      ShipmentRecordsSection.truncateText t maxLength
      = (firstn (Z.to_nat (maxLength - 3)) t ++ ShipmentRecordsSection.dots)%list
      /\ Z.of_nat (List.length (ShipmentRecordsSection.truncateText t maxLength))
         = maxLength)
  /\ ShipmentRecordsSection.truncateText
       (ShipmentRecordsSection.truncateText t maxLength) maxLength
     = ShipmentRecordsSection.truncateText t maxLength.
Proof.
  intros Hmax.
  assert (Hfit : Z.of_nat (List.length t) <= maxLength ->
                 ShipmentRecordsSection.truncateText t maxLength = t).
  { intros H. unfold ShipmentRecordsSection.truncateText.
    destruct (Z.leb_spec (Z.of_nat (List.length t)) maxLength); [reflexivity|lia]. }
  assert (Hcut : maxLength < Z.of_nat (List.length t) ->
                 ShipmentRecordsSection.truncateText t maxLength
                 = (firstn (Z.to_nat (maxLength - 3)) t ++ ShipmentRecordsSection.dots)%list
                 /\ Z.of_nat (List.length (ShipmentRecordsSection.truncateText t maxLength))
                    = maxLength).
  { intros H. unfold ShipmentRecordsSection.truncateText.
    destruct (Z.leb_spec (Z.of_nat (List.length t)) maxLength); [lia|].
    rewrite substring_prefix by lia. split; [reflexivity|].
    rewrite length_app, length_firstn. cbn [List.length ShipmentRecordsSection.dots]. lia. }
  assert (Hlen : Z.of_nat (List.length (ShipmentRecordsSection.truncateText t maxLength))
                 <= maxLength).
  { destruct (Z.le_gt_cases (Z.of_nat (List.length t)) maxLength) as [H|H].
    - rewrite Hfit by exact H. exact H.
    - destruct (Hcut ltac:(lia)) as [_ ->]. lia. }
  split; [exact Hlen|]. split; [exact Hfit|]. split; [exact Hcut|].
  unfold ShipmentRecordsSection.truncateText at 1.
  destruct (Z.leb_spec
              (Z.of_nat (List.length (ShipmentRecordsSection.truncateText t maxLength)))
              maxLength); [reflexivity|lia].
Qed.

Lemma truncateText_bound_witness :
  3 <= 20
  /\ Z.of_nat (List.length
                 (ShipmentRecordsSection.truncateText
                    (map (fun i => Z.to_N (65 + Z.of_nat i)) (seq 0 26)) 20)) <= 20.
Proof.
  split; [lia|].
  exact (proj1 (truncateText_bound (map (fun i => Z.to_N (65 + Z.of_nat i)) (seq 0 26)) 20
                  ltac:(lia))).
Defined.

(** X2.  Below 3 the limit is not kept: a text longer than a limit below
    3 becomes the three dots alone, which is longer than the limit. *)
Theorem truncateText_small_limit (t : ShipmentRecordsSection.text) (maxLength : Z) :
  maxLength < 3 ->
  maxLength < Z.of_nat (List.length t) ->
  ShipmentRecordsSection.truncateText t maxLength = ShipmentRecordsSection.dots
  /\ maxLength < Z.of_nat (List.length (ShipmentRecordsSection.truncateText t maxLength)).
Proof.
  intros Hsmall Hlong.
  assert (E : ShipmentRecordsSection.truncateText t maxLength = ShipmentRecordsSection.dots).
  { unfold ShipmentRecordsSection.truncateText.
    destruct (Z.leb_spec (Z.of_nat (List.length t)) maxLength); [lia|].
    unfold ShipmentRecordsSection.substring. cbv zeta.
    rewrite (Z.max_l 0 0) by lia.
    rewrite (Z.min_l 0 (Z.of_nat (List.length t))) by lia.
    rewrite (Z.max_r (maxLength - 3) 0) by lia.
    rewrite (Z.min_l 0 (Z.of_nat (List.length t))) by lia.
    reflexivity. }
  split; [exact E|]. rewrite E. cbn. lia.
Qed.

Lemma truncateText_small_limit_witness :
  2 < 3
  /\ 2 < Z.of_nat (List.length [72; 105; 33]%N)
  /\ ShipmentRecordsSection.truncateText [72; 105; 33]%N 2 = ShipmentRecordsSection.dots.
Proof.
  split; [lia|]. split; [cbn; lia|].
  exact (proj1 (truncateText_small_limit [72; 105; 33]%N 2 ltac:(lia) ltac:(cbn; lia))).
Defined.
(** ** The most frequent country: [getTopCountry] *)

Lemma bump_plain (k : string) (c : list (string * ShipmentRecordsSection.counter)) :
  inherited k = false -> numeric c ->
  ShipmentRecordsSection.bump k c
  = DataProcessor.assign k (ShipmentRecordsSection.number (S (countIn c k))) c.
Proof.
  intros Hk Hc. unfold ShipmentRecordsSection.bump, ShipmentRecordsSection.next, countIn.
  destruct (String.eqb_spec k "__proto__") as [->|_]; [discriminate|].
  rewrite Hk. destruct (DataProcessor.lookup k c) as [v|] eqn:E; [|reflexivity].
  destruct (Hc k v E) as [n ->]. reflexivity.
Qed.

Lemma bump_numeric (k : string) (c : list (string * ShipmentRecordsSection.counter)) :
  inherited k = false -> numeric c -> numeric (ShipmentRecordsSection.bump k c).
Proof.
  intros Hk Hc. rewrite bump_plain by assumption. intros x v.
  rewrite assign_lookup. destruct (String.eqb k x); [|apply Hc].
  intros H. injection H as <-. eauto.
Qed.

Lemma bump_count (k : string) (c : list (string * ShipmentRecordsSection.counter))
      (x : string) :
  inherited k = false -> numeric c ->
  countIn (ShipmentRecordsSection.bump k c) x
  = (countIn c x + if string_dec k x then 1 else 0)%nat.
Proof.
  intros Hk Hc. rewrite bump_plain by assumption. unfold countIn at 1.
  rewrite assign_lookup.
  destruct (string_dec k x) as [->|Hne].
  - rewrite String.eqb_refl. lia.
  - destruct (String.eqb_spec k x); [congruence|]. fold (countIn c x). lia.
Qed.

Lemma assign_keys {A : Type} (k : string) (a : A) (t : list (string * A)) (x : string) :
  In x (map fst (DataProcessor.assign k a t)) <-> x = k \/ In x (map fst t).
Proof.
  induction t as [|[k' a'] t IH]; cbn [DataProcessor.assign].
  - cbn. intuition.
  - destruct (String.eqb_spec k' k) as [->|Hne]; cbn [map fst In] in *.
    + intuition.
    + rewrite IH. intuition.
Qed.

Lemma countCountries_from (l : list string) :
  plainNames l = true ->
  forall c x,
    numeric c ->
    numeric (fold_left (fun cc k => ShipmentRecordsSection.bump k cc) l c)
    /\ countIn (fold_left (fun cc k => ShipmentRecordsSection.bump k cc) l c) x
       = (countIn c x + occurrences l x)%nat
    /\ (In x (map fst (fold_left (fun cc k => ShipmentRecordsSection.bump k cc) l c))
        <-> In x (map fst c) \/ In x l).
Proof.
  unfold occurrences.
  induction l as [|k l IH]; intros Hp c x Hc; cbn [fold_left count_occ].
  - split; [exact Hc|]. split; [lia|]. cbn. intuition.
  - cbn [plainNames forallb] in Hp. apply andb_true_iff in Hp. destruct Hp as [Hk Hl].
    apply negb_true_iff in Hk.
    destruct (IH Hl (ShipmentRecordsSection.bump k c) x (bump_numeric k c Hk Hc))
      as (Hn & Hcnt & Hkeys).
    split; [exact Hn|]. rewrite Hcnt, Hkeys, bump_count by assumption.
    rewrite bump_plain by assumption. rewrite assign_keys. split.
    + destruct (string_dec k x); lia.
    + cbn [In]. intuition.
Qed.

Lemma insert_index_In (i : N) (k : string) (sorted : list (N * string)) (x : string) :
  In x (map snd (insert_index i k sorted)) <-> x = k \/ In x (map snd sorted).
Proof.
  induction sorted as [|[j k'] sorted IH]; cbn [insert_index].
  - cbn. intuition.
  - destruct (i <? j)%N; cbn [map snd In] in *.
    + intuition.
    + rewrite IH. intuition.
Qed.

Lemma index_keys_In (keys : list string) (x : string) :
  In x (map snd (index_keys keys)) <-> In x keys /\ arrayIndex x <> None.
Proof.
  induction keys as [|k keys IH]; cbn [index_keys].
  - cbn. tauto.
  - destruct (arrayIndex k) as [i|] eqn:E.
    + rewrite insert_index_In, IH. cbn [In]. split.
      * intros [->|[H1 H2]]; [split; [auto|congruence]|auto].
      * intros [[<-|H1] H2]; auto.
    + rewrite IH. cbn [In]. split.
      * intros [H1 H2]. auto.
      * intros [[<-|H1] H2]; [congruence|auto].
Qed.

(** [Object.keys] lists the own keys, each of them. *)
Lemma Object_keys_In {A : Type} (table : list (string * A)) (x : string) :
  In x (Object_keys table) <-> In x (map fst table).
Proof.
  unfold Object_keys. rewrite in_app_iff, index_keys_In, filter_In.
  destruct (arrayIndex x); split; intros H.
  - destruct H as [[H _]|[_ H]]; [exact H|discriminate].
  - left. split; [exact H|discriminate].
  - destruct H as [[_ H]|[H _]]; [congruence|exact H].
  - right. auto.
Qed.

Lemma key_has_count (c : list (string * ShipmentRecordsSection.counter)) (x : string) :
  numeric c -> In x (map fst c) ->
  DataProcessor.lookup x c = Some (ShipmentRecordsSection.number (countIn c x)).
Proof.
  intros Hc Hin. unfold countIn.
  destruct (DataProcessor.lookup x c) as [v|] eqn:E.
  - destruct (Hc x v E) as [n ->]. reflexivity.
  - apply lookup_none in E. contradiction.
Qed.

Lemma reduce_greatest (c : list (string * ShipmentRecordsSection.counter)) :
  numeric c ->
  forall keys first,
    (forall x, In x (first :: keys) -> In x (map fst c)) ->
    let r := fold_left (fun a b => if ShipmentRecordsSection.greater c a b then a else b)
                       keys first in
    In r (first :: keys)
    /\ forall x, In x (first :: keys) -> (countIn c x <= countIn c r)%nat.
Proof.
  intros Hc.
  induction keys as [|k keys IH]; intros first Hin; cbn [fold_left].
  - split; [left; reflexivity|]. intros x [<-|[]]. constructor.
  - set (next := if ShipmentRecordsSection.greater c first k then first else k).
    assert (Hnext : (next = first \/ next = k)
                    /\ (countIn c first <= countIn c next)%nat
                    /\ (countIn c k <= countIn c next)%nat).
    { subst next. unfold ShipmentRecordsSection.greater.
      rewrite (key_has_count c first Hc (Hin first (or_introl eq_refl))).
      rewrite (key_has_count c k Hc (Hin k (or_intror (or_introl eq_refl)))).
      destruct (Nat.ltb_spec (countIn c k) (countIn c first)).
      - split; [auto|]. split; lia.
      - split; [auto|]. split; lia. }
    destruct Hnext as (Hwhich & Hf & Hk).
    destruct (IH next) as [Hr Hmax].
    { intros x [<-|Hx].
      - destruct Hwhich as [->| ->]; apply Hin; cbn; auto.
      - apply Hin. cbn. auto. }
    split.
    + destruct Hr as [<-|Hr]; [|cbn; auto].
      destruct Hwhich as [->| ->]; cbn; auto.
    + intros x [<-|[<-|Hx]].
      * etransitivity; [exact Hf|]. apply Hmax. left. reflexivity.
      * etransitivity; [exact Hk|]. apply Hmax. left. reflexivity.
      * apply Hmax. right. exact Hx.
Qed.

Lemma numeric_nil : numeric [].
Proof. intros k v H. discriminate. Qed.

(** On a list of plain names with at least one element the call returns,
    and its result is a most frequent element. *)
Lemma getTopCountry_returns (countries : list string) :
  countries <> [] -> plainNames countries = true ->
  exists top,
    ShipmentRecordsSection.getTopCountry countries = Ok top
    /\ In top countries
    /\ forall country, (occurrences countries country <= occurrences countries top)%nat.
Proof.
  intros Hne Hp. unfold ShipmentRecordsSection.getTopCountry. cbv zeta.
  unfold ShipmentRecordsSection.countCountries.
  set (c := fold_left (fun cc k => ShipmentRecordsSection.bump k cc) countries []).
  assert (Hnum : numeric c).
  { subst c. exact (proj1 (countCountries_from countries Hp [] "" numeric_nil)). }
  assert (Hkeys : forall x, In x (map fst c) <-> In x countries).
  { intros x. subst c.
    destruct (countCountries_from countries Hp [] x numeric_nil) as (_ & _ & H).
    rewrite H. cbn. intuition. }
  assert (Hcount : forall x, countIn c x = occurrences countries x).
  { intros x. subst c.
    destruct (countCountries_from countries Hp [] x numeric_nil) as (_ & H & _).
    rewrite H. reflexivity. }
  destruct (Object_keys c) as [|first keys] eqn:Ek.
  - destruct countries as [|k l]; [congruence|].
    exfalso. assert (Hin : In k (Object_keys c)).
    { apply Object_keys_In, Hkeys. left. reflexivity. }
    rewrite Ek in Hin. exact Hin.
  - destruct (reduce_greatest c Hnum keys first) as [Hr Hmax].
    { intros x Hx. apply Object_keys_In. rewrite Ek. exact Hx. }
    eexists. split; [reflexivity|]. split.
    + apply Hkeys, Object_keys_In. rewrite Ek. exact Hr.
    + intros country. rewrite <- !Hcount.
      destruct (in_dec string_dec country countries) as [Hin|Hout].
      * apply Hmax. rewrite <- Ek. apply Object_keys_In, Hkeys. exact Hin.
      * rewrite (Hcount country). unfold occurrences.
        rewrite (proj1 (count_occ_not_In string_dec countries country) Hout). lia.
Qed.

(** X3.  [getTopCountry] throws a [TypeError] when its list is empty or
    holds nothing but [__proto__]: no key is created, and [reduce] has no
    initial value.  On a list that is not empty and holds no name of
    [Object.prototype] it returns a country of the list that no other
    country outnumbers.  (With such a name in the list the counts are
    strings, and the result need not be a most frequent country.) *)
Theorem getTopCountry_most_frequent (countries : list string) :
  ((forall country, In country countries -> country = "__proto__") ->
   ShipmentRecordsSection.getTopCountry countries
   = Throw (TypeError "Reduce of empty array with no initial value"))
  /\ (countries <> [] -> plainNames countries = true ->
      exists top,
        ShipmentRecordsSection.getTopCountry countries = Ok top
        /\ In top countries
        /\ forall country, (occurrences countries country <= occurrences countries top)%nat).
Proof.
  split; [|apply getTopCountry_returns].
  intros Hall. unfold ShipmentRecordsSection.getTopCountry. cbv zeta.
  assert (E : ShipmentRecordsSection.countCountries countries = []).
  { unfold ShipmentRecordsSection.countCountries.
    induction countries as [|k l IH]; [reflexivity|].
    cbn [fold_left]. rewrite (Hall k (or_introl eq_refl)).
    change (ShipmentRecordsSection.bump "__proto__" []) with (@nil (string * ShipmentRecordsSection.counter)).
    apply IH. intros c Hc. apply Hall. right. exact Hc. }
  rewrite E. reflexivity.
Qed.

Lemma getTopCountry_most_frequent_witness :
  ["USA"; "India"; "USA"] <> []
  /\ plainNames ["USA"; "India"; "USA"] = true
  /\ (exists top,
         ShipmentRecordsSection.getTopCountry ["USA"; "India"; "USA"] = Ok top
         /\ In top ["USA"; "India"; "USA"])
  /\ ShipmentRecordsSection.getTopCountry ["__proto__"; "__proto__"]
     = Throw (TypeError "Reduce of empty array with no initial value").
Proof.
  assert (H : ["USA"; "India"; "USA"] <> []) by discriminate.
  split; [exact H|]. split; [reflexivity|]. split.
  - destruct (proj2 (getTopCountry_most_frequent ["USA"; "India"; "USA"]) H eq_refl)
      as (top & Hrun & Hin & _).
    exists top. split; [exact Hrun|exact Hin].
  - apply (proj1 (getTopCountry_most_frequent ["__proto__"; "__proto__"])).
    intros country [<-|[<-|[]]]; reflexivity.
Defined.

(** With a name of [Object.prototype] in the list the call still returns,
    but the count of that name is a string, which compares false with
    every number: here the name that occurs once is the result. *)
Lemma getTopCountry_inherited_name :
  ShipmentRecordsSection.getTopCountry ["USA"; "USA"; "constructor"] = Ok "constructor"
  /\ ShipmentRecordsSection.countCountries ["USA"; "USA"; "constructor"]
     = [ ("USA", ShipmentRecordsSection.number 2);
         ("constructor",
          ShipmentRecordsSection.str "function Object() { [native code] }1") ]
  /\ ShipmentRecordsSection.getTopCountry ["Chad"; "10"; "9"] = Ok "Chad"
  /\ Object_keys (ShipmentRecordsSection.countCountries ["Chad"; "10"; "9"])
     = ["9"; "10"; "Chad"].
Proof. vm_compute. repeat split. Qed.
(** ** Grouping by country *)

Lemma group_from (l : list Entity.t) (q : string) :
  forall g,
    DataProcessor.lookup q
      (fold_left (fun grouped e => filed (Entity.country e) e grouped) l g)
    = match DataProcessor.lookup q g, ofCountry q l with
      | Some xs, found => Some (xs ++ found)%list
      | None, [] => None
      | None, found => Some found
      end.
Proof.
  unfold ofCountry.
  induction l as [|e l IH]; intros g; cbn [fold_left filter].
  - destruct (DataProcessor.lookup q g); [rewrite app_nil_r|]; reflexivity.
  - rewrite IH, filed_lookup.
    destruct (String.eqb_spec (Entity.country e) q) as [E|E].
    + destruct (DataProcessor.lookup q g) as [xs|].
      * rewrite <- app_assoc. reflexivity.
      * reflexivity.
    + reflexivity.
Qed.

(** X4.  [groupSuppliersByCountry] and [groupBuyersByCountry] throw a
    [TypeError] when an entity has a name of [Object.prototype] as its
    country ([grouped[country]] is then the inherited value, which has no
    [push]).  Otherwise they return a table in which the entry of a country
    is the list of the entities of that country, in the order of the input;
    a country of no entity has no entry, so no group is empty. *)
Theorem groups_by_country (entities : list Entity.t) :
  if plainCountries entities
  then exists grouped,
      DataProcessor.groupSuppliersByCountry entities = Ok grouped
      /\ DataProcessor.groupBuyersByCountry entities = Ok grouped
      /\ forall country,
           DataProcessor.lookup country grouped
           = match ofCountry country entities with
             | [] => None
             | found => Some found
             end
  else exists message message',
      DataProcessor.groupSuppliersByCountry entities = Throw (TypeError message)
      /\ DataProcessor.groupBuyersByCountry entities = Throw (TypeError message').
Proof.
  unfold DataProcessor.groupSuppliersByCountry, DataProcessor.groupBuyersByCountry.
  destruct (plainCountries entities) eqn:Hp.
  - rewrite !group_into_plain by exact Hp.
    eexists. split; [reflexivity|]. split; [reflexivity|].
    intros country. apply (group_from entities country []).
  - rewrite !group_into_throws by auto. unfold notAFunction. eauto.
Qed.

Lemma filed_keys (k : string) (x : Entity.t) (g : ByCountry) :
  NoDup (map fst g) ->
  NoDup (map fst (filed k x g))
  /\ (forall q, In q (map fst (filed k x g)) <-> q = k \/ In q (map fst g))
  /\ Permutation (List.concat (map snd (filed k x g)))
                 (x :: List.concat (map snd g)).
Proof.
  induction g as [|[k' xs] g IH]; intros Hnd.
  - cbn. split; [repeat constructor; tauto|]. split; [intuition|]. apply Permutation_refl.
  - rewrite filed_cons.
    cbn [map fst] in Hnd. inversion Hnd as [|? ? Hnotin Hnd']; subst.
    destruct (String.eqb_spec k' k) as [->|Hne].
    + cbn [map fst snd List.concat]. split; [exact Hnd|]. split; [cbn; intuition|].
      rewrite <- app_assoc. cbn [app].
      symmetry. apply Permutation_middle.
    + destruct (IH Hnd') as (H1 & H2 & H3).
      cbn [map fst snd List.concat]. split.
      * constructor; [|exact H1]. rewrite H2. intros [->|Hin]; [congruence|tauto].
      * split.
        -- intros q. cbn [In]. rewrite H2. intuition.
        -- rewrite H3. symmetry. apply Permutation_middle.
Qed.

Lemma group_partition (l : list Entity.t) :
  forall g,
    NoDup (map fst g) ->
    let out := fold_left (fun grouped e => filed (Entity.country e) e grouped) l g in
    NoDup (map fst out)
    /\ Permutation (List.concat (map snd out)) (List.concat (map snd g) ++ l).
Proof.
  induction l as [|e l IH]; intros g Hnd; cbn [fold_left].
  - split; [exact Hnd|]. rewrite app_nil_r. apply Permutation_refl.
  - destruct (filed_keys (Entity.country e) e g Hnd) as (H1 & _ & H3).
    destruct (IH _ H1) as [Hk Hp]. split; [exact Hk|].
    etransitivity; [exact Hp|].
    rewrite H3. cbn [app]. apply Permutation_middle.
Qed.

Lemma lookup_member {A : Type} (k : string) (a : A) (t : list (string * A)) :
  NoDup (map fst t) -> In (k, a) t -> DataProcessor.lookup k t = Some a.
Proof.
  induction t as [|[k' a'] t IH]; intros Hnd Hin; [destruct Hin|].
  cbn [DataProcessor.lookup]. cbn [map fst] in Hnd.
  inversion Hnd as [|? ? Hnotin Hnd']; subst.
  destruct Hin as [E|Hin].
  - injection E as -> ->. rewrite String.eqb_refl. reflexivity.
  - destruct (String.eqb_spec k' k) as [->|Hne].
    + exfalso. apply Hnotin. apply (in_map fst) in Hin. exact Hin.
    + apply IH; assumption.
Qed.

(** X5.  When no entity has a name of [Object.prototype] as its country,
    [groupSuppliersByCountry] returns groups that are a partition of the
    input: no country is the key of two groups, the groups together hold
    every entity of the input exactly once, and every member of a group
    has the key of the group as its country. *)
Theorem groups_partition (entities : list Entity.t) :
  plainCountries entities = true ->
  exists grouped,
    DataProcessor.groupSuppliersByCountry entities = Ok grouped
    /\ NoDup (map fst grouped)
    /\ Permutation (List.concat (map snd grouped)) entities
    /\ Forall (fun group => Forall (fun e => Entity.country e = fst group) (snd group))
              grouped.
Proof.
  intros Hplain. unfold DataProcessor.groupSuppliersByCountry.
  rewrite group_into_plain by exact Hplain.
  destruct (group_partition entities [] (NoDup_nil _)) as [Hk Hp].
  eexists. split; [reflexivity|]. split; [exact Hk|]. split; [exact Hp|].
  apply Forall_forall. intros [k xs] Hin. cbn [fst snd].
  pose proof (lookup_member k xs _ Hk Hin) as Hlook.
  rewrite (group_from entities k []) in Hlook. cbn [DataProcessor.lookup] in Hlook.
  unfold ofCountry in Hlook.
  assert (Hxs : xs = filter (fun e => String.eqb (Entity.country e) k) entities).
  { destruct (filter _ entities); [discriminate|]. injection Hlook as <-. reflexivity. }
  rewrite Hxs. apply Forall_forall. intros e He.
  apply filter_In in He. destruct He as [_ He]. apply String.eqb_eq. exact He.
Qed.

Lemma groups_partition_witness :
  plainCountries Sample.topSuppliers = true
  /\ exists grouped,
       DataProcessor.groupSuppliersByCountry Sample.topSuppliers = Ok grouped
       /\ map fst grouped
          = ["USA"; "India"; "Israel"; "Germany"; "France"; "Switzerland"; "UK"]
       /\ NoDup (map fst grouped).
Proof.
  split; [reflexivity|].
  destruct (groups_partition Sample.topSuppliers eq_refl) as (grouped & Hrun & Hnd & _).
  exists grouped. split; [exact Hrun|]. split; [|exact Hnd].
  vm_compute in Hrun. injection Hrun as <-. reflexivity.
Defined.
(** ** The price by country *)

Lemma guarded_divisor (v : JS.value) : truthy (or_num v 1) = true.
Proof.
  unfold or_num. destruct (ToBoolean v) eqn:E.
  - destruct v; cbn in *; try discriminate. exact E.
  - reflexivity.
Qed.

(** X6.  [calculatePriceByCountry] keeps the importing countries in their
    order and divides the value of each by [shipments || 1]: the divisor is
    never zero nor [NaN], and it is 1 when [shipments] is missing, [null],
    zero or [NaN]. *)
Theorem priceByCountry_guarded (pd : ProductData.t) :
  map CountryPrice.country (DataProcessor.calculatePriceByCountry pd)
  = map Country.country (or_nil (ProductData.importingCountries pd))
  /\ map CountryPrice.rawPrice (DataProcessor.calculatePriceByCountry pd)
     = map (fun c => (ToNumber (Country.value c) / or_num (Country.shipments c) 1)%float)
           (or_nil (ProductData.importingCountries pd))
  /\ Forall (fun c => truthy (or_num (Country.shipments c) 1) = true
                      /\ (ToBoolean (Country.shipments c) = false ->
                          or_num (Country.shipments c) 1 = 1%float))
            (or_nil (ProductData.importingCountries pd)).
Proof.
  unfold DataProcessor.calculatePriceByCountry. cbv zeta.
  rewrite !map_map. split; [reflexivity|]. split; [reflexivity|].
  apply Forall_forall. intros c _. split; [apply guarded_divisor|].
  intros H. unfold or_num. rewrite H. reflexivity.
Qed.
(** ** Ports *)

(** X7.  The port that [generateRandomPort] returns for a country, when
    it returns one, is a port listed for that country, or "Unknown Port"
    for a country that is not in the table, whatever the draw. *)
Theorem port_of_the_country (country : string) (g : Rng) :
  exists port g',
    DataProcessor.generateRandomPort country g = Ok (port, g')
    /\ pos g' = S (pos g)
    /\ forall p, port = Some p ->
         match DataProcessor.lookup country DataProcessor.ports with
         | Some listed => In p listed
         | None => p = "Unknown Port"
         end.
Proof.
  unfold DataProcessor.generateRandomPort. cbv zeta.
  unfold mbind, Math_random, ret.
  eexists. eexists. split; [reflexivity|]. split; [reflexivity|].
  intros p Hp.
  assert (Hat : forall l x, at_float l x = Some p -> In p l).
  { intros l x H. unfold at_float in H.
    destruct (floor_Z x) as [z|]; [|discriminate].
    destruct (_ && _); [|discriminate].
    apply nth_error_In in H. exact H. }
  destruct (DataProcessor.lookup country DataProcessor.ports) as [listed|].
  - apply Hat in Hp. exact Hp.
  - destruct (inherited country); [discriminate|].
    apply Hat in Hp. destruct Hp as [<-|[]]. reflexivity.
Qed.
(** ** Shipment records and the shipment entries of the table *)

Lemma firstn_seq_le (k a n : nat) : (k <= n)%nat -> firstn k (seq a n) = seq a k.
Proof.
  revert a n. induction k as [|k IH]; intros a n H; [reflexivity|].
  destruct n as [|n]; [lia|]. cbn [seq firstn]. rewrite IH by lia. reflexivity.
Qed.

(** X8.  Whenever the dates drawn are valid and no supplier or buyer has
    a name of [Object.prototype] as its country, the constructor of the
    aggregator returns; it reports 2340 shipments, 10 per slide and 234
    slides, which is the number of shipment entries of the structure table,
    and its construction takes 7 draws per record from the random source,
    16380 in all. *)
Theorem shipments_match_table (pd : ProductData.t) (g : Rng) :
  datesValid g ->
  plainInput pd = true ->
  exists dp g',
    DataProcessor.new pd g = Ok (dp, g')
    /\ Shipments.totalShipments (ProcessedData.shipments (DataProcessor.processedData dp))
       = 2340%nat
    /\ Shipments.shipmentsPerSlide (ProcessedData.shipments (DataProcessor.processedData dp))
       = 10
    /\ Shipments.totalSlides (ProcessedData.shipments (DataProcessor.processedData dp))
       = Z.of_nat (List.length
                     (SectionPlan.slides
                        (SlideStructure.shipmentRecords MainOrchestrator.defineSlideStructure)))
    /\ stream g' = stream g
    /\ pos g' = (7 * 2340 + pos g)%nat.
Proof.
  intros Hd Hplain.
  destruct (new_returns pd g Hd Hplain) as (dp & Hnew & Hall).
  destruct (new_inversion pd g dp _ Hnew) as (_ & _ & _ & _ & _ & Htotal & Hper & Hslides).
  cbv zeta in Htotal, Hper, Hslides.
  destruct (Forall2_seq_nth (pickedAt pd) 2340 0 _ Hall) as [Hlen _].
  exists dp, (advance (7 * 2340) g).
  split; [exact Hnew|].
  split; [rewrite Htotal; exact Hlen|].
  split; [exact Hper|].
  split.
  - rewrite Hslides, Hlen.
    change (SectionPlan.slides
              (SlideStructure.shipmentRecords MainOrchestrator.defineSlideStructure))
      with (MainOrchestrator.shipmentEntries 234 10 67).
    unfold MainOrchestrator.shipmentEntries, MainOrchestrator.Array_from.
    rewrite length_map, length_seq. reflexivity.
  - split; reflexivity.
Qed.

Lemma shipments_match_table_witness :
  datesValid Inputs.halves
  /\ plainInput Sample.sampleProductData = true
  /\ exists dp g',
       DataProcessor.new Sample.sampleProductData Inputs.halves = Ok (dp, g')
       /\ Shipments.totalSlides (ProcessedData.shipments (DataProcessor.processedData dp))
          = Z.of_nat (List.length
                        (SectionPlan.slides
                           (SlideStructure.shipmentRecords
                              MainOrchestrator.defineSlideStructure))).
Proof.
  split; [exact halves_datesValid|]. split; [reflexivity|].
  destruct (shipments_match_table Sample.sampleProductData Inputs.halves
              halves_datesValid eq_refl)
    as (dp & g' & Hnew & _ & _ & Hslides & _).
  exists dp, g'. split; [exact Hnew|exact Hslides].
Defined.

(** X9.  Every shipment entry of the table shows ten records, and they
    are the records whose ids run from its [recordStart] to its
    [recordEnd]: the slice of entry [i] holds the ids
    [10 i + 1, ..., 10 i + 10]. *)
Theorem slide_shows_its_records (pd : ProductData.t) (g : Rng) :
  datesValid g ->
  exists records g',
    DataProcessor.generateShipmentRecords pd g = Ok (records, g')
    /\ Forall (fun d =>
                 exists first,
                   SlideDef.recordStart d = Some (Z.of_nat first)
                   /\ SlideDef.recordEnd d = Some (Z.of_nat first + 9)
                   /\ map ShipmentRecord.id (ShipmentRecordsSection.slideRecords d records)
                      = map Z.of_nat (seq first 10))
              (SectionPlan.slides
                 (SlideStructure.shipmentRecords MainOrchestrator.defineSlideStructure)).
Proof.
  intros Hd.
  destruct (recordsLoop_returns pd 2340 0 [] g Hd) as (rs & Hrs & Hall).
  exists rs, (advance (7 * 2340) g). split; [exact Hrs|].
  pose proof (pickedAt_ids pd 2340 0 rs Hall) as Hids.
  change (SectionPlan.slides
            (SlideStructure.shipmentRecords MainOrchestrator.defineSlideStructure))
    with (MainOrchestrator.shipmentEntries 234 (Z.of_nat 10) 67).
  unfold MainOrchestrator.shipmentEntries, MainOrchestrator.Array_from.
  apply Forall_map. apply Forall_forall. intros i Hi. apply in_seq in Hi.
  exists (S (i * 10)).
  cbn [MainOrchestrator.withRecords SlideDef.recordStart SlideDef.recordEnd].
  split; [f_equal; lia|]. split; [f_equal; lia|].
  unfold ShipmentRecordsSection.slideRecords.
  cbn [MainOrchestrator.withRecords SlideDef.recordStart SlideDef.recordEnd].
  rewrite slice_batch.
  rewrite <- firstn_map, <- skipn_map, Hids.
  rewrite skipn_map, firstn_map. f_equal.
  rewrite skipn_seq. rewrite firstn_seq_le by lia.
  reflexivity.
Qed.

Lemma slide_shows_its_records_witness :
  datesValid Inputs.halves
  /\ exists records g',
       DataProcessor.generateShipmentRecords Sample.sampleProductData Inputs.halves
       = Ok (records, g').
Proof.
  split; [exact halves_datesValid|].
  destruct (slide_shows_its_records Sample.sampleProductData Inputs.halves halves_datesValid)
    as (records & g' & Hrun & _).
  exists records, g'. exact Hrun.
Defined.
(** ** What a generated slide keeps of its entry *)

Lemma plainSlide_keeps R data gen d g slide g' :
  plainSlide R data gen d g = Ok (slide, g') ->
  Slide.id slide = SlideDef.id d /\ Slide.type slide = SlideDef.type d.
Proof.
  unfold plainSlide, mbind, ret.
  destruct (html R gen d data g) as [[m g1]|]; [|discriminate].
  intros H. injection H as <- _. auto.
Qed.

Lemma rankedSlide_keeps {A : Type} R data gen d (l : list A) rank what title g slide g' :
  rankedSlide R data gen d l rank what title g = Ok (slide, g') ->
  Slide.id slide = SlideDef.id d /\ Slide.type slide = SlideDef.type d.
Proof.
  unfold rankedSlide, mbind, ret, throw.
  destruct (at_rank l rank); [|discriminate].
  destruct (html R gen d data g) as [[m g1]|]; [|discriminate].
  intros H. injection H as <- _. auto.
Qed.

Ltac keeps_by_dispatch :=
  cbv zeta;
  repeat match goal with
         | |- context [if String.eqb ?a ?b then _ else _] =>
             destruct (String.eqb a b);
             [first [apply plainSlide_keeps | apply rankedSlide_keeps]|]
         end;
  unfold unknownSlideType, throw; discriminate.

Lemma foundation_keeps R data d g slide g' :
  FoundationSection.generateSlide R data d g = Ok (slide, g') ->
  Slide.id slide = SlideDef.id d /\ Slide.type slide = SlideDef.type d.
Proof. unfold FoundationSection.generateSlide. keeps_by_dispatch. Qed.

Lemma importing_keeps R data d g slide g' :
  ImportingCountriesSection.generateSlide R data d g = Ok (slide, g') ->
  Slide.id slide = SlideDef.id d /\ Slide.type slide = SlideDef.type d.
Proof.
  unfold ImportingCountriesSection.generateSlide,
    ImportingCountriesSection.importingCountrySuppliersSlide,
    ImportingCountriesSection.importingCountryCompaniesSlide.
  keeps_by_dispatch.
Qed.

Lemma exporting_keeps R data d g slide g' :
  ExportingCountriesSection.generateSlide R data d g = Ok (slide, g') ->
  Slide.id slide = SlideDef.id d /\ Slide.type slide = SlideDef.type d.
Proof.
  unfold ExportingCountriesSection.generateSlide,
    ExportingCountriesSection.exportingCountryDestinationsSlide,
    ExportingCountriesSection.exportingCountryCompaniesSlide.
  keeps_by_dispatch.
Qed.

Lemma supplierBuyer_keeps R data d g slide g' :
  SupplierBuyerSection.generateSlide R data d g = Ok (slide, g') ->
  Slide.id slide = SlideDef.id d /\ Slide.type slide = SlideDef.type d.
Proof.
  unfold SupplierBuyerSection.generateSlide,
    SupplierBuyerSection.supplierDetailedAnalysisSlide,
    SupplierBuyerSection.importerDetailedAnalysisSlide.
  keeps_by_dispatch.
Qed.

Lemma pricing_keeps R data d g slide g' :
  PricingSection.generateSlide R data d g = Ok (slide, g') ->
  Slide.id slide = SlideDef.id d /\ Slide.type slide = SlideDef.type d.
Proof. unfold PricingSection.generateSlide. keeps_by_dispatch. Qed.

Lemma shipment_keeps R data records d g slide g' :
  ShipmentRecordsSection.generateShipmentRecordsSlide R data d records g = Ok (slide, g') ->
  Slide.id slide = SlideDef.id d /\ Slide.type slide = SlideDef.type d.
Proof.
  unfold ShipmentRecordsSection.generateShipmentRecordsSlide, mbind, ret.
  destruct (recordsHtml R d _ data g) as [[m g1]|]; [|discriminate].
  intros H. injection H as <- _. auto.
Qed.

Lemma pushSlides_keeps (generate : SlideDef.t -> M Slide.t) :
  (forall d g slide g',
      generate d g = Ok (slide, g') ->
      Slide.id slide = SlideDef.id d /\ Slide.type slide = SlideDef.type d) ->
  forall defs acc g out g',
    pushSlides generate defs acc g = Ok (out, g') ->
    map Slide.id out = (map Slide.id acc ++ map SlideDef.id defs)%list
    /\ map Slide.type out = (map Slide.type acc ++ map SlideDef.type defs)%list.
Proof.
  intros Hk. induction defs as [|d defs IH]; intros acc g out g' H.
  - cbn [pushSlides] in H. unfold ret in H. injection H as <- _.
    cbn [map]. rewrite !app_nil_r. auto.
  - cbn [pushSlides] in H. unfold mbind in H.
    destruct (generate d g) as [[slide g1]|e] eqn:E; [|discriminate].
    destruct (Hk _ _ _ _ E) as [Hid Hty].
    destruct (IH _ _ _ _ H) as [H1 H2].
    rewrite H1, H2, !map_app. cbn [map]. rewrite Hid, Hty, <- !app_assoc. auto.
Qed.

Lemma generated_ids (R : Renderer) (self : MainOrchestrator.t) (g : Rng) :
  match MainOrchestrator.generateAllSlides R self g with
  | Ok (self', _) =>
      map Slide.id (MainOrchestrator.slides self')
      = map SlideDef.id (allEntries (MainOrchestrator.slideStructure self))
      /\ map Slide.type (MainOrchestrator.slides self')
         = map SlideDef.type (allEntries (MainOrchestrator.slideStructure self))
      /\ MainOrchestrator.slideStructure self' = MainOrchestrator.slideStructure self
      /\ MainOrchestrator.dataProcessor self' = MainOrchestrator.dataProcessor self
  | Throw _ => True
  end.
Proof.
  unfold MainOrchestrator.generateAllSlides. cbv zeta.
  set (data := DataProcessor.getProcessedData (MainOrchestrator.dataProcessor self)).
  set (plan := MainOrchestrator.slideStructure self).
  unfold mbind.
  destruct (FoundationSection.generateSlides R data _ g) as [[s1 g1]|e] eqn:E1; [|exact I].
  destruct (ImportingCountriesSection.generateSlides R data _ g1) as [[s2 g2]|e] eqn:E2;
    [|exact I].
  destruct (ExportingCountriesSection.generateSlides R data _ g2) as [[s3 g3]|e] eqn:E3;
    [|exact I].
  destruct (SupplierBuyerSection.generateSlides R data _ g3) as [[s4 g4]|e] eqn:E4;
    [|exact I].
  destruct (PricingSection.generateSlides R data _ g4) as [[s5 g5]|e] eqn:E5; [|exact I].
  destruct (ShipmentRecordsSection.generateSlides R data _ g5) as [[s6 g6]|e] eqn:E6;
    [|exact I].
  destruct (negb _); [exact I|]. unfold ret.
  cbn [MainOrchestrator.slides MainOrchestrator.slideStructure
       MainOrchestrator.dataProcessor].
  apply (pushSlides_keeps _ (foundation_keeps R data)) in E1.
  apply (pushSlides_keeps _ (importing_keeps R data)) in E2.
  apply (pushSlides_keeps _ (exporting_keeps R data)) in E3.
  apply (pushSlides_keeps _ (supplierBuyer_keeps R data)) in E4.
  apply (pushSlides_keeps _ (pricing_keeps R data)) in E5.
  apply (pushSlides_keeps _ (fun d => shipment_keeps R data _ d)) in E6.
  cbn [map app] in E1, E2, E3, E4, E5, E6.
  destruct E1 as [A1 B1], E2 as [A2 B2], E3 as [A3 B3], E4 as [A4 B4],
    E5 as [A5 B5], E6 as [A6 B6].
  unfold allEntries. fold plan.
  rewrite !map_app, A1, A2, A3, A4, A5, A6, B1, B2, B3, B4, B5, B6. auto.
Qed.

(** X10.  When [generateAllSlides] returns, its slides follow the table:
    one slide per entry, in the order of the sections and of their
    entries, each with the id and the kind of its entry; the table itself
    is left as it was. *)
Theorem slides_follow_the_table (R : Renderer) (self : MainOrchestrator.t) (g : Rng) :
  match MainOrchestrator.generateAllSlides R self g with
  | Ok (self', _) =>
      map Slide.id (MainOrchestrator.slides self')
      = map SlideDef.id (allEntries (MainOrchestrator.slideStructure self))
      /\ map Slide.type (MainOrchestrator.slides self')
         = map SlideDef.type (allEntries (MainOrchestrator.slideStructure self))
      /\ MainOrchestrator.slideStructure self' = MainOrchestrator.slideStructure self
      /\ MainOrchestrator.dataProcessor self' = MainOrchestrator.dataProcessor self
  | Throw _ => True
  end.
Proof. exact (generated_ids R self g). Qed.

Lemma reportSection_ids (self : MainOrchestrator.t) (name : string) (section : SectionPlan.t) :
  MainOrchestrator.reportSection self name section
  = reportOfIds (map Slide.id (MainOrchestrator.slides self)) name section.
Proof.
  unfold MainOrchestrator.reportSection, reportOfIds.
  destruct (SectionPlan.range section) as [first last].
  assert (E : forall l,
             List.length (filter (fun slide => (first <=? Slide.id slide)
                                               && (Slide.id slide <=? last)) l)
             = List.length (filter (fun id => (first <=? id) && (id <=? last))
                                   (map Slide.id l))).
  { induction l as [|s l IH]; [reflexivity|]. cbn [filter map].
    destruct ((first <=? Slide.id s) && (Slide.id s <=? last)); cbn [List.length];
      rewrite IH; reflexivity. }
  rewrite E. reflexivity.
Qed.

(** X11.  After [generateAllSlides] has returned on an orchestrator built
    by the constructor, the progress report counts 297 slides and finds
    every section complete, with 8, 15, 16, 23, 1 and 234 slides in the
    id ranges 1-8, 9-23, 24-39, 40-62, 63 and 67-300 (no slide has the
    id 64, 65 or 66). *)
Theorem report_after_generation (R : Renderer) (pd : ProductData.t) (g : Rng) :
  match (self <- MainOrchestrator.new pd ;; MainOrchestrator.generateAllSlides R self) g with
  | Ok (self', _) =>
      let report := MainOrchestrator.generateProgressReport self' in
      MainOrchestrator.totalSlides report = 297
      /\ MainOrchestrator.generatedSlides report = 297%nat
      /\ map (fun s => (MainOrchestrator.name s, MainOrchestrator.reportRange s,
                        MainOrchestrator.generatedCount s, MainOrchestrator.status s))
             (MainOrchestrator.sections report)
         = [ ("foundation", (1, 8), 8%nat, "Complete");
             ("importingCountries", (9, 23), 15%nat, "Complete");
             ("exportingCountries", (24, 39), 16%nat, "Complete");
             ("supplierBuyer", (40, 62), 23%nat, "Complete");
             ("pricing", (63, 63), 1%nat, "Complete");
             ("shipmentRecords", (67, 300), 234%nat, "Complete") ]
      /\ map MainOrchestrator.expected (MainOrchestrator.sections report)
         = [8; 15; 16; 23; 1; 234]
  | Throw _ => True
  end.
Proof.
  unfold mbind at 1. unfold MainOrchestrator.new, mbind, ret.
  destruct (DataProcessor.new pd g) as [[dp g1]|e]; [|exact I].
  set (self := {| MainOrchestrator.productData := pd;
                  MainOrchestrator.slides := [];
                  MainOrchestrator.dataProcessor := dp;
                  MainOrchestrator.slideStructure := MainOrchestrator.defineSlideStructure |}).
  pose proof (generated_ids R self g1) as H.
  destruct (MainOrchestrator.generateAllSlides R self g1) as [[self' g2]|e]; [|exact I].
  destruct H as (Hids & _ & Hplan & _).
  cbv zeta. unfold MainOrchestrator.generateProgressReport.
  rewrite !reportSection_ids. rewrite Hplan, Hids.
  cbn [MainOrchestrator.totalSlides MainOrchestrator.generatedSlides
       MainOrchestrator.sections].
  split; [reflexivity|]. split.
  - rewrite <- (length_map Slide.id), Hids. vm_compute. reflexivity.
  - vm_compute. split; reflexivity.
Qed.
(** ** When the sections return *)












(** ** Runs that succeed and runs that fail *)

Lemma new_view (pd : ProductData.t) (g : Rng) (dp : DataProcessor.t) (g' : Rng) :
  DataProcessor.new pd g = Ok (dp, g') ->
  List.length (Geography.importingCountries
                 (ProcessedData.geography (DataProcessor.processedData dp)))
  = List.length (or_nil (ProductData.importingCountries pd))
  /\ List.length (Geography.exportingCountries
                    (ProcessedData.geography (DataProcessor.processedData dp)))
     = List.length (or_nil (ProductData.exportingCountries pd))
  /\ List.length (Suppliers.topSuppliers
                    (ProcessedData.suppliers (DataProcessor.processedData dp)))
     = List.length (or_nil (ProductData.topSuppliers pd))
  /\ List.length (Buyers.topBuyers (ProcessedData.buyers (DataProcessor.processedData dp)))
     = List.length (or_nil (ProductData.topBuyers pd)).
Proof.
  intros Hnew.
  destruct (new_inversion pd g dp g' Hnew) as (_ & Hg & Hs & Hb & _). cbv zeta in Hg, Hs, Hb.
  destruct (processGeographicData_returns pd) as (geo & Hg' & Hir & _ & Her & _).
  rewrite Hg in Hg'. injection Hg' as <-.
  destruct (supplier_list pd _ Hs) as (_ & Hsr & _).
  destruct (buyer_list pd _ Hb) as (_ & Hbr & _).
  apply (f_equal (@List.length Z)) in Hir, Her, Hsr, Hbr.
  rewrite !length_map, length_seq in Hir, Her, Hsr, Hbr. auto.
Qed.

(** *** The batches of the records, and a renderer that summarizes them *)









(** The summarizing renderer does not render every batch: it throws on
    the empty one, as [generateRecordsSummary] does. *)
Lemma summarizing_throws_on_empty (d : SlideDef.t) (data : ProcessedData.t) (g : Rng) :
  recordsHtml Inputs.summarizing d [] data g
  = Throw (TypeError "Reduce of empty array with no initial value").
Proof. reflexivity. Qed.

(** *** The run *)









Lemma run_aborts (R : Renderer) (pd : ProductData.t) (g : Rng) :
  (forall g1 dp g2,
      DataProcessor.new pd g1 = Ok (dp, g2) ->
      exists e,
        MainOrchestrator.generateAllSlides R
          {| MainOrchestrator.productData := pd;
             MainOrchestrator.slides := [];
             MainOrchestrator.dataProcessor := dp;
             MainOrchestrator.slideStructure := MainOrchestrator.defineSlideStructure |} g2
        = Throw e) ->
  exists e, Main.run R pd g = Throw e.
Proof.
  intros H. unfold Main.run, MainOrchestrator.new, mbind, ret.
  destruct (DataProcessor.new pd g) as [[dp0 g1]|e]; [|eauto].
  destruct (DataProcessor.new pd g1) as [[dp g2]|e] eqn:Hnew; [|eauto].
  destruct (H g1 dp g2 Hnew) as [e He]. rewrite He. eauto.
Qed.

Lemma exporting_section_aborts (R : Renderer) (self : MainOrchestrator.t) (d : SlideDef.t) :
  In d (SectionPlan.slides
          (SlideStructure.exportingCountries (MainOrchestrator.slideStructure self))) ->
  (forall g, exists e,
      ExportingCountriesSection.generateSlide R
        (DataProcessor.getProcessedData (MainOrchestrator.dataProcessor self)) d g
      = Throw e) ->
  forall g, exists e, MainOrchestrator.generateAllSlides R self g = Throw e.
Proof.
  intros Hin Hd g. unfold MainOrchestrator.generateAllSlides. cbv zeta. unfold mbind.
  destruct (FoundationSection.generateSlides R _ _ g) as [[s1 g1]|e]; [|eauto].
  destruct (ImportingCountriesSection.generateSlides R _ _ g1) as [[s2 g2]|e]; [|eauto].
  destruct (pushSlides_throws _ d Hd _ [] g2 Hin) as [e He].
  unfold ExportingCountriesSection.generateSlides. rewrite He. eauto.
Qed.

Lemma supplierBuyer_section_aborts (R : Renderer) (self : MainOrchestrator.t)
      (d : SlideDef.t) :
  In d (SectionPlan.slides
          (SlideStructure.supplierBuyer (MainOrchestrator.slideStructure self))) ->
  (forall g, exists e,
      SupplierBuyerSection.generateSlide R
        (DataProcessor.getProcessedData (MainOrchestrator.dataProcessor self)) d g
      = Throw e) ->
  forall g, exists e, MainOrchestrator.generateAllSlides R self g = Throw e.
Proof.
  intros Hin Hd g. unfold MainOrchestrator.generateAllSlides. cbv zeta. unfold mbind.
  destruct (FoundationSection.generateSlides R _ _ g) as [[s1 g1]|e]; [|eauto].
  destruct (ImportingCountriesSection.generateSlides R _ _ g1) as [[s2 g2]|e]; [|eauto].
  destruct (ExportingCountriesSection.generateSlides R _ _ g2) as [[s3 g3]|e]; [|eauto].
  destruct (pushSlides_throws _ d Hd _ [] g3 Hin) as [e He].
  unfold SupplierBuyerSection.generateSlides. rewrite He. eauto.
Qed.

Lemma at_rank_beyond {A : Type} (l : list A) (r : Z) :
  Z.of_nat (List.length l) < r -> at_rank l (Some r) = None.
Proof.
  intros H. unfold at_rank. destruct (Z.leb_spec 0 (r - 1)); [|reflexivity].
  apply nth_error_None. lia.
Qed.

(** X13.  A run fails, and writes neither the document nor the summary,
    when the input has fewer than ten exporting countries, fewer than ten
    top suppliers or fewer than ten top buyers: the table asks for the
    rank 10 of each of these lists. *)
Theorem short_list_fails (R : Renderer) (pd : ProductData.t) (g : Rng) :
  (List.length (or_nil (ProductData.exportingCountries pd)) < 10)%nat
  \/ (List.length (or_nil (ProductData.topSuppliers pd)) < 10)%nat
  \/ (List.length (or_nil (ProductData.topBuyers pd)) < 10)%nat ->
  Main.success (Main.generatePresentation R pd g) = false
  /\ Main.outputFile (Main.generatePresentation R pd g) = None
  /\ Main.summary (Main.generatePresentation R pd g) = None
  /\ exists msg, Main.error (Main.generatePresentation R pd g) = Some msg.
Proof.
  intros Hshort.
  assert (Hthrow : exists e, Main.run R pd g = Throw e).
  { apply run_aborts. intros g1 dp g2 Hnew.
    destruct (new_view pd g1 dp g2 Hnew) as (_ & Le & Ls & Lb).
    destruct Hshort as [H|[H|H]].
    - apply (exporting_section_aborts R _
               (MainOrchestrator.withCountryRank 10
                  (MainOrchestrator.entry 39 "exporting_country_companies"
                     "Top 10 Exporting country- Who are the top 10 Importer companies"))).
      + vm_compute. do 15 right. left. reflexivity.
      + intros g0. eexists.
        unfold ExportingCountriesSection.generateSlide,
          ExportingCountriesSection.exportingCountryCompaniesSlide.
        cbn [SlideDef.type MainOrchestrator.withCountryRank MainOrchestrator.entry
             SlideDef.countryRank].
        apply rankedSlide_missing. apply at_rank_beyond.
        cbn [MainOrchestrator.dataProcessor]. unfold DataProcessor.getProcessedData.
        rewrite Le. lia.
    - apply (supplierBuyer_section_aborts R _
               (MainOrchestrator.withSupplierRank 10
                  (MainOrchestrator.entry 51 "supplier_detailed_analysis"
                     "Top 10 Supplier detailed analysis- price, number of destination countries, market share and charts"))).
      + vm_compute. do 11 right. left. reflexivity.
      + intros g0. eexists.
        unfold SupplierBuyerSection.generateSlide,
          SupplierBuyerSection.supplierDetailedAnalysisSlide.
        cbn [SlideDef.type MainOrchestrator.withSupplierRank MainOrchestrator.entry
             SlideDef.supplierRank].
        apply rankedSlide_missing. apply at_rank_beyond.
        cbn [MainOrchestrator.dataProcessor]. unfold DataProcessor.getProcessedData.
        rewrite Ls. lia.
    - apply (supplierBuyer_section_aborts R _
               (MainOrchestrator.withImporterRank 10
                  (MainOrchestrator.entry 62 "importer_detailed_analysis"
                     "Top 10 Importer detailed analysis- price, market share, number of suppliers countries and charts"))).
      + vm_compute. do 22 right. left. reflexivity.
      + intros g0. eexists.
        unfold SupplierBuyerSection.generateSlide,
          SupplierBuyerSection.importerDetailedAnalysisSlide.
        cbn [SlideDef.type MainOrchestrator.withImporterRank MainOrchestrator.entry
             SlideDef.importerRank].
        apply rankedSlide_missing. apply at_rank_beyond.
        cbn [MainOrchestrator.dataProcessor]. unfold DataProcessor.getProcessedData.
        rewrite Lb. lia. }
  destruct Hthrow as [e He]. unfold Main.generatePresentation. rewrite He.
  cbn. repeat split. eauto.
Qed.

Lemma short_list_fails_witness :
  ((List.length (or_nil (ProductData.exportingCountries Inputs.nineExporters)) < 10)%nat
   \/ (List.length (or_nil (ProductData.topSuppliers Inputs.nineExporters)) < 10)%nat
   \/ (List.length (or_nil (ProductData.topBuyers Inputs.nineExporters)) < 10)%nat)
  /\ List.length (or_nil (ProductData.importingCountries Inputs.nineExporters)) = 10%nat
  /\ Main.success (Main.generatePresentation Inputs.blank Inputs.nineExporters Inputs.halves)
     = false
  /\ Main.outputFile
       (Main.generatePresentation Inputs.blank Inputs.nineExporters Inputs.halves)
     = None
  /\ Main.error (Main.generatePresentation Inputs.blank Inputs.nineExporters Inputs.halves)
     = Some "Exporting country at rank 10 not found"
  /\ ((List.length (or_nil (ProductData.exportingCountries Inputs.nineSuppliers)) < 10)%nat
      \/ (List.length (or_nil (ProductData.topSuppliers Inputs.nineSuppliers)) < 10)%nat
      \/ (List.length (or_nil (ProductData.topBuyers Inputs.nineSuppliers)) < 10)%nat)
  /\ Main.success (Main.generatePresentation Inputs.blank Inputs.nineSuppliers Inputs.halves)
     = false
  /\ Main.error (Main.generatePresentation Inputs.blank Inputs.nineSuppliers Inputs.halves)
     = Some "Supplier at rank 10 not found"
  /\ ((List.length (or_nil (ProductData.exportingCountries Inputs.nineBuyers)) < 10)%nat
      \/ (List.length (or_nil (ProductData.topSuppliers Inputs.nineBuyers)) < 10)%nat
      \/ (List.length (or_nil (ProductData.topBuyers Inputs.nineBuyers)) < 10)%nat)
  /\ Main.success (Main.generatePresentation Inputs.blank Inputs.nineBuyers Inputs.halves)
     = false
  /\ Main.error (Main.generatePresentation Inputs.blank Inputs.nineBuyers Inputs.halves)
     = Some "Importer at rank 10 not found".
Proof.
  assert (H1 : (List.length (or_nil (ProductData.exportingCountries Inputs.nineExporters))
                < 10)%nat
               \/ (List.length (or_nil (ProductData.topSuppliers Inputs.nineExporters))
                   < 10)%nat
               \/ (List.length (or_nil (ProductData.topBuyers Inputs.nineExporters))
                   < 10)%nat)
    by (left; cbn; repeat constructor).
  assert (H2 : (List.length (or_nil (ProductData.exportingCountries Inputs.nineSuppliers))
                < 10)%nat
               \/ (List.length (or_nil (ProductData.topSuppliers Inputs.nineSuppliers))
                   < 10)%nat
               \/ (List.length (or_nil (ProductData.topBuyers Inputs.nineSuppliers))
                   < 10)%nat)
    by (right; left; cbn; repeat constructor).
  assert (H3 : (List.length (or_nil (ProductData.exportingCountries Inputs.nineBuyers))
                < 10)%nat
               \/ (List.length (or_nil (ProductData.topSuppliers Inputs.nineBuyers))
                   < 10)%nat
               \/ (List.length (or_nil (ProductData.topBuyers Inputs.nineBuyers))
                   < 10)%nat)
    by (right; right; cbn; repeat constructor).
  destruct (short_list_fails Inputs.blank Inputs.nineExporters Inputs.halves H1)
    as (Hs1 & Ho1 & _).
  destruct (short_list_fails Inputs.blank Inputs.nineSuppliers Inputs.halves H2)
    as (Hs2 & _).
  destruct (short_list_fails Inputs.blank Inputs.nineBuyers Inputs.halves H3)
    as (Hs3 & _).
  split; [exact H1|]. split; [reflexivity|]. split; [exact Hs1|]. split; [exact Ho1|].
  split; [vm_compute; reflexivity|].
  split; [exact H2|]. split; [exact Hs2|]. split; [vm_compute; reflexivity|].
  split; [exact H3|]. split; [exact Hs3|]. vm_compute. reflexivity.
Defined.



(** *** Files that cannot be written *)

(** X20.  A run fails when a file of its output cannot be written.  When
    the output directory cannot be made, the main template cannot be
    loaded or the document cannot be written, no document and no summary
    are left.  When only the summary cannot be written, the run fails
    with the message of that error, although the document has been
    written if the run got that far. *)
Theorem write_failure_fails (R : Renderer) (pd : ProductData.t) (g : Rng) :
  ((exists e, ensureDir R (outputPath pd) = Throw e)
   \/ (forall title slidesHTML n name, exists e,
          document R title slidesHTML n name = Throw e)
   \/ (forall html, exists e, writeFile R (outputPath pd) html = Throw e) ->
   Main.success (Main.generatePresentation R pd g) = false
   /\ Main.outputFile (Main.generatePresentation R pd g) = None
   /\ Main.summary (Main.generatePresentation R pd g) = None)
  /\ (forall e,
        writeSummary R Main.summaryPath = Throw e ->
        Main.success (Main.generatePresentation R pd g) = false
        /\ Main.summary (Main.generatePresentation R pd g) = None
        /\ match Main.run R pd g with
           | Ok ((_, written), _) =>
               Main.outputFile (Main.generatePresentation R pd g) = Some written
               /\ Main.error (Main.generatePresentation R pd g) = Some (message e)
           | Throw e' =>
               Main.outputFile (Main.generatePresentation R pd g) = None
               /\ Main.error (Main.generatePresentation R pd g) = Some (message e')
           end).
Proof.
  split.
  - intros H.
    assert (Hthrow : exists e, Main.run R pd g = Throw e).
    { unfold Main.run, MainOrchestrator.new, mbind, ret, lift.
      destruct (DataProcessor.new pd g) as [[dp0 g1]|e]; [|eauto].
      destruct (DataProcessor.new pd g1) as [[dp g2]|e]; [|eauto].
      destruct (MainOrchestrator.generateAllSlides R _ g2) as [[self' g3]|e]; [|eauto].
      fold (outputPath pd).
      destruct H as [[e He]|[H|H]].
      - rewrite He. eauto.
      - destruct (ensureDir R (outputPath pd)); [|eauto].
        unfold MainOrchestrator.exportToHTML.
        destruct (H (MainOrchestrator.showName
                       (ProductData.name (MainOrchestrator.productData self'))
                       ++ " Trade Intelligence Report")
                    (String.concat "\n" (map Slide.html (MainOrchestrator.slides self')))
                    (List.length (MainOrchestrator.slides self'))
                    (MainOrchestrator.showName
                       (ProductData.name (MainOrchestrator.productData self'))))
          as [e He].
        rewrite He. cbn [bind]. eauto.
      - destruct (ensureDir R (outputPath pd)); [|eauto].
        unfold MainOrchestrator.exportToHTML.
        destruct (document R _ _ _ _) as [html|e]; [|cbn [bind]; eauto].
        cbn [bind]. destruct (H html) as [e He]. rewrite He. cbn [bind]. eauto. }
    destruct Hthrow as [e He]. unfold Main.generatePresentation. rewrite He.
    cbn. repeat split.
  - intros e He. unfold Main.generatePresentation.
    destruct (Main.run R pd g) as [[[o [path html]] g']|e'].
    + rewrite He. cbn. repeat split.
    + cbn. repeat split.
Qed.

Lemma write_failure_fails_witness :
  writeSummary Inputs.readOnlySummary Main.summaryPath
  = Throw (GenericError "EACCES: permission denied, open 'output/generation-summary.json'")
  /\ Main.success
       (Main.generatePresentation Inputs.readOnlySummary Sample.sampleProductData
          Inputs.halves) = false
  /\ Main.error
       (Main.generatePresentation Inputs.readOnlySummary Sample.sampleProductData
          Inputs.halves)
     = Some "EACCES: permission denied, open 'output/generation-summary.json'"
  /\ exists document,
       Main.outputFile
         (Main.generatePresentation Inputs.readOnlySummary Sample.sampleProductData
            Inputs.halves)
       = Some ("output/Paclitaxel-300-slides.html", document).
Proof.
  split; [reflexivity|].
  destruct (proj2 (write_failure_fails Inputs.readOnlySummary Sample.sampleProductData
                     Inputs.halves) _ eq_refl) as (Hs & _).
  split; [exact Hs|]. split; [vm_compute; reflexivity|].
  eexists. vm_compute. reflexivity.
Defined.
(** ** The other sections on entries they cannot resolve *)

(** X15.  In the exporting-countries section an entry of a ranked kind
    whose rank is missing from the list of exporting countries throws
    "Exporting country at rank N not found" before anything is rendered,
    and an entry of a kind other than the three of the section throws
    "Unknown slide type: " followed by the kind. *)
Theorem exporting_unresolved (R : Renderer) (data : ProcessedData.t) (d : SlideDef.t)
        (g : Rng) :
  (String.eqb (SlideDef.type d) "exporting_country_destinations"
   || String.eqb (SlideDef.type d) "exporting_country_companies" = true ->
   at_rank (Geography.exportingCountries (ProcessedData.geography data))
           (SlideDef.countryRank d) = None ->
   ExportingCountriesSection.generateSlide R data d g
   = Throw (GenericError ("Exporting country at rank " ++ show (SlideDef.countryRank d)
                            ++ " not found")))
  /\ (String.eqb (SlideDef.type d) "top_exporting_countries"
      || String.eqb (SlideDef.type d) "exporting_country_destinations"
      || String.eqb (SlideDef.type d) "exporting_country_companies" = false ->
      ExportingCountriesSection.generateSlide R data d g
      = Throw (GenericError ("Unknown slide type: " ++ SlideDef.type d))).
Proof.
  unfold ExportingCountriesSection.generateSlide,
    ExportingCountriesSection.exportingCountryDestinationsSlide,
    ExportingCountriesSection.exportingCountryCompaniesSlide. cbv zeta.
  split.
  - intros Hty Hrank.
    destruct (String.eqb_spec (SlideDef.type d) "top_exporting_countries") as [E|_].
    { rewrite E in Hty. discriminate. }
    destruct (String.eqb (SlideDef.type d) "exporting_country_destinations").
    + rewrite rankedSlide_missing by exact Hrank. reflexivity.
    + cbn [orb] in Hty. rewrite Hty.
      rewrite rankedSlide_missing by exact Hrank. reflexivity.
  - intros Hty. apply orb_false_elim in Hty. destruct Hty as [Hty H3].
    apply orb_false_elim in Hty. destruct Hty as [H1 H2].
    rewrite H1, H2, H3. reflexivity.
Qed.

Lemma exporting_unresolved_witness :
  (String.eqb "exporting_country_companies" "exporting_country_destinations"
   || String.eqb "exporting_country_companies" "exporting_country_companies" = true)
  /\ at_rank (Geography.exportingCountries (ProcessedData.geography Inputs.bareView))
             (Some 3) = None
  /\ ExportingCountriesSection.generateSlide Inputs.blank Inputs.bareView
       (MainOrchestrator.withCountryRank 3
          (MainOrchestrator.entry 32 "exporting_country_companies" "Top 3"))
       Inputs.halves
     = Throw (GenericError "Exporting country at rank 3 not found")
  /\ ExportingCountriesSection.generateSlide Inputs.blank Inputs.bareView
       (MainOrchestrator.entry 5 "market_share_analysis" "Market share") Inputs.halves
     = Throw (GenericError "Unknown slide type: market_share_analysis").
Proof.
  split; [reflexivity|]. split; [reflexivity|]. split.
  - exact (proj1 (exporting_unresolved Inputs.blank Inputs.bareView
                    (MainOrchestrator.withCountryRank 3
                       (MainOrchestrator.entry 32 "exporting_country_companies" "Top 3"))
                    Inputs.halves) eq_refl eq_refl).
  - exact (proj2 (exporting_unresolved Inputs.blank Inputs.bareView
                    (MainOrchestrator.entry 5 "market_share_analysis" "Market share")
                    Inputs.halves) eq_refl).
Defined.

(** X16.  In the supplier and buyer section a detailed-analysis entry
    whose rank is missing throws "Supplier at rank N not found" (suppliers)
    or "Importer at rank N not found" (buyers), and an entry of a kind
    other than the five of the section throws "Unknown slide type: "
    followed by the kind. *)
Theorem supplierBuyer_unresolved (R : Renderer) (data : ProcessedData.t) (d : SlideDef.t)
        (g : Rng) :
  (String.eqb (SlideDef.type d) "supplier_detailed_analysis" = true ->
   at_rank (Suppliers.topSuppliers (ProcessedData.suppliers data))
           (SlideDef.supplierRank d) = None ->
   SupplierBuyerSection.generateSlide R data d g
   = Throw (GenericError ("Supplier at rank " ++ show (SlideDef.supplierRank d)
                            ++ " not found")))
  /\ (String.eqb (SlideDef.type d) "importer_detailed_analysis" = true ->
      at_rank (Buyers.topBuyers (ProcessedData.buyers data))
              (SlideDef.importerRank d) = None ->
      SupplierBuyerSection.generateSlide R data d g
      = Throw (GenericError ("Importer at rank " ++ show (SlideDef.importerRank d)
                               ++ " not found")))
  /\ (String.eqb (SlideDef.type d) "supplier_buyer_intelligence"
      || String.eqb (SlideDef.type d) "top_suppliers_analysis"
      || String.eqb (SlideDef.type d) "supplier_detailed_analysis"
      || String.eqb (SlideDef.type d) "top_importers_analysis"
      || String.eqb (SlideDef.type d) "importer_detailed_analysis" = false ->
      SupplierBuyerSection.generateSlide R data d g
      = Throw (GenericError ("Unknown slide type: " ++ SlideDef.type d))).
Proof.
  unfold SupplierBuyerSection.generateSlide,
    SupplierBuyerSection.supplierDetailedAnalysisSlide,
    SupplierBuyerSection.importerDetailedAnalysisSlide. cbv zeta.
  split; [|split].
  - intros Hty Hrank. apply String.eqb_eq in Hty. rewrite Hty.
    cbn [String.eqb Ascii.eqb Bool.eqb andb].
    rewrite rankedSlide_missing by exact Hrank. reflexivity.
  - intros Hty Hrank. apply String.eqb_eq in Hty. rewrite Hty.
    cbn [String.eqb Ascii.eqb Bool.eqb andb].
    rewrite rankedSlide_missing by exact Hrank. reflexivity.
  - intros Hty.
    repeat match goal with
           | H : _ || _ = false |- _ =>
               apply orb_false_elim in H; let H1 := fresh in destruct H as [H H1]
           end.
    repeat match goal with
           | H : String.eqb _ _ = false |- _ => rewrite H; clear H
           end.
    reflexivity.
Qed.

Lemma supplierBuyer_unresolved_witness :
  String.eqb "supplier_detailed_analysis" "supplier_detailed_analysis" = true
  /\ at_rank (Suppliers.topSuppliers (ProcessedData.suppliers Inputs.bareView)) (Some 4)
     = None
  /\ SupplierBuyerSection.generateSlide Inputs.blank Inputs.bareView
       (MainOrchestrator.withSupplierRank 4
          (MainOrchestrator.entry 45 "supplier_detailed_analysis" "Top 4"))
       Inputs.halves
     = Throw (GenericError "Supplier at rank 4 not found")
  /\ SupplierBuyerSection.generateSlide Inputs.blank Inputs.bareView
       (MainOrchestrator.withImporterRank 4
          (MainOrchestrator.entry 56 "importer_detailed_analysis" "Top 4"))
       Inputs.halves
     = Throw (GenericError "Importer at rank 4 not found")
  /\ SupplierBuyerSection.generateSlide Inputs.blank Inputs.bareView
       (MainOrchestrator.entry 63 "pricing_analysis" "Pricing") Inputs.halves
     = Throw (GenericError "Unknown slide type: pricing_analysis").
Proof.
  split; [reflexivity|]. split; [reflexivity|]. split; [|split].
  - exact (proj1 (supplierBuyer_unresolved Inputs.blank Inputs.bareView
                    (MainOrchestrator.withSupplierRank 4
                       (MainOrchestrator.entry 45 "supplier_detailed_analysis" "Top 4"))
                    Inputs.halves) eq_refl eq_refl).
  - exact (proj1 (proj2 (supplierBuyer_unresolved Inputs.blank Inputs.bareView
                           (MainOrchestrator.withImporterRank 4
                              (MainOrchestrator.entry 56 "importer_detailed_analysis" "Top 4"))
                           Inputs.halves)) eq_refl eq_refl).
  - exact (proj2 (proj2 (supplierBuyer_unresolved Inputs.blank Inputs.bareView
                           (MainOrchestrator.entry 63 "pricing_analysis" "Pricing")
                           Inputs.halves)) eq_refl).
Defined.

(** X17.  The foundation and pricing sections throw
    "Unknown slide type: " followed by the kind for an entry whose kind is
    not one of theirs, and their [generateSlides] then returns no slide:
    the first such entry ends the loop. *)
Theorem unknown_kind_throws (R : Renderer) (data : ProcessedData.t) (d : SlideDef.t) :
  (foundationOk d = false ->
   (forall g, FoundationSection.generateSlide R data d g
              = Throw (GenericError ("Unknown slide type: " ++ SlideDef.type d)))
   /\ forall defs g, In d defs ->
        exists e, FoundationSection.generateSlides R data defs g = Throw e)
  /\ (String.eqb (SlideDef.type d) "pricing_analysis" = false ->
      (forall g, PricingSection.generateSlide R data d g
                 = Throw (GenericError ("Unknown slide type: " ++ SlideDef.type d)))
      /\ forall defs g, In d defs ->
           exists e, PricingSection.generateSlides R data defs g = Throw e).
Proof.
  split.
  - intros Hno.
    assert (H : forall g, FoundationSection.generateSlide R data d g
                          = Throw (GenericError ("Unknown slide type: " ++ SlideDef.type d))).
    { intros g. unfold FoundationSection.generateSlide. cbv zeta.
      unfold foundationOk, foundationKinds in Hno. cbn [existsb] in Hno.
      repeat match goal with
             | H : _ || _ = false |- _ =>
                 apply orb_false_elim in H; let H1 := fresh in destruct H as [H1 H]
             end.
      repeat match goal with
             | H : String.eqb _ _ = false |- _ => rewrite H; clear H
             end.
      reflexivity. }
    split; [exact H|]. intros defs g Hin.
    apply (pushSlides_throws _ d); [|exact Hin]. intros g0. rewrite H. eauto.
  - intros Hno.
    assert (H : forall g, PricingSection.generateSlide R data d g
                          = Throw (GenericError ("Unknown slide type: " ++ SlideDef.type d))).
    { intros g. unfold PricingSection.generateSlide. rewrite Hno. reflexivity. }
    split; [exact H|]. intros defs g Hin.
    apply (pushSlides_throws _ d); [|exact Hin]. intros g0. rewrite H. eauto.
Qed.

Lemma unknown_kind_throws_witness :
  foundationOk (MainOrchestrator.entry 63 "pricing_analysis" "Pricing") = false
  /\ FoundationSection.generateSlide Inputs.blank Inputs.bareView
       (MainOrchestrator.entry 63 "pricing_analysis" "Pricing") Inputs.halves
     = Throw (GenericError "Unknown slide type: pricing_analysis")
  /\ String.eqb "title_agenda" "pricing_analysis" = false
  /\ PricingSection.generateSlide Inputs.blank Inputs.bareView
       (MainOrchestrator.entry 1 "title_agenda" "Title") Inputs.halves
     = Throw (GenericError "Unknown slide type: title_agenda").
Proof.
  split; [reflexivity|]. split.
  - exact (proj1 (proj1 (unknown_kind_throws Inputs.blank Inputs.bareView
                           (MainOrchestrator.entry 63 "pricing_analysis" "Pricing"))
                    eq_refl) Inputs.halves).
  - split; [reflexivity|].
    exact (proj1 (proj2 (unknown_kind_throws Inputs.blank Inputs.bareView
                           (MainOrchestrator.entry 1 "title_agenda" "Title"))
                    eq_refl) Inputs.halves).
Defined.
(** ** Rank and country *)

(** X18.  The slide of an importing-country entry of rank [k + 1] is
    about the country that stands at position [k] of the input list: when
    the slide is generated, its title is the name of that country followed
    by ": Top Supplier Countries" or ": Top Supplier Companies", and it
    keeps the id and the kind of the entry. *)
Theorem rank_is_input_position (R : Renderer) (pd : ProductData.t)
        (data : ProcessedData.t) (d : SlideDef.t) (k : nat) (c : Country.t) (g : Rng) :
  DataProcessor.processGeographicData pd = Ok (ProcessedData.geography data) ->
  nth_error (or_nil (ProductData.importingCountries pd)) k = Some c ->
  SlideDef.countryRank d = Some (Z.of_nat k + 1) ->
  match ImportingCountriesSection.generateSlide R data d g with
  | Ok (slide, _) =>
      Slide.id slide = SlideDef.id d
      /\ Slide.type slide = SlideDef.type d
      /\ Slide.title slide
         = Country.country c
             ++ (if String.eqb (SlideDef.type d) "importing_country_suppliers"
                 then ": Top Supplier Countries" else ": Top Supplier Companies")
  | Throw _ => True
  end.
Proof.
  intros Hgeo Hnth Hrank.
  destruct (processGeographicData_returns pd) as (geo & Hg & _ & Hnames & _).
  rewrite Hg in Hgeo. injection Hgeo as Hgeo. rewrite Hgeo in Hnames.
  assert (Hat : exists rc,
             at_rank (Geography.importingCountries (ProcessedData.geography data))
                     (SlideDef.countryRank d) = Some rc
             /\ RankedCountry.country rc = Country.country c).
  { rewrite Hrank. unfold at_rank.
    destruct (Z.leb_spec 0 (Z.of_nat k + 1 - 1)); [|lia].
    replace (Z.to_nat (Z.of_nat k + 1 - 1)) with k by lia.
    pose proof (f_equal (fun l => nth_error l k) Hnames) as E. cbn beta in E.
    rewrite !nth_error_map, Hnth in E. cbn [option_map] in E.
    destruct (nth_error (Geography.importingCountries (ProcessedData.geography data)) k)
      as [rc|]; [|discriminate].
    cbn [option_map] in E. injection E as E. eauto. }
  destruct Hat as (rc & Hat & Hname).
  unfold ImportingCountriesSection.generateSlide,
    ImportingCountriesSection.importingCountrySuppliersSlide,
    ImportingCountriesSection.importingCountryCompaniesSlide. cbv zeta.
  unfold rankedSlide, mbind, ret, unknownSlideType, throw. rewrite Hat.
  destruct (String.eqb (SlideDef.type d) "importing_country_suppliers").
  - destruct (html R _ d data g) as [[m g1]|]; [|exact I].
    cbn. rewrite Hname. auto.
  - destruct (String.eqb (SlideDef.type d) "importing_country_companies"); [|exact I].
    destruct (html R _ d data g) as [[m g1]|]; [|exact I].
    cbn. rewrite Hname. auto.
Qed.

Lemma rank_is_input_position_witness :
  DataProcessor.processGeographicData Sample.sampleProductData
  = Ok (ProcessedData.geography (viewWith sampleGeography))
  /\ nth_error (or_nil (ProductData.importingCountries Sample.sampleProductData)) 2
     = Some (Sample.C "United Kingdom" 156000000 12.5 2876)
  /\ match ImportingCountriesSection.generateSlide Inputs.blank (viewWith sampleGeography)
             (MainOrchestrator.withCountryRank 3
                (MainOrchestrator.entry 11 "importing_country_suppliers" "Top 3"))
             Inputs.halves with
     | Ok (slide, _) => Slide.title slide = "United Kingdom: Top Supplier Countries"
     | Throw _ => True
     end.
Proof.
  assert (H1 : DataProcessor.processGeographicData Sample.sampleProductData
               = Ok (ProcessedData.geography (viewWith sampleGeography)))
    by (vm_compute; reflexivity).
  assert (H2 : nth_error (or_nil (ProductData.importingCountries Sample.sampleProductData)) 2
               = Some (Sample.C "United Kingdom" 156000000 12.5 2876))
    by reflexivity.
  split; [exact H1|]. split; [exact H2|].
  pose proof (rank_is_input_position Inputs.blank Sample.sampleProductData
                (viewWith sampleGeography)
                (MainOrchestrator.withCountryRank 3
                   (MainOrchestrator.entry 11 "importing_country_suppliers" "Top 3"))
                2%nat _ Inputs.halves H1 H2 eq_refl) as H.
  destruct (ImportingCountriesSection.generateSlide _ _ _ _) as [[slide g1]|e];
    [|exact I].
  destruct H as (_ & _ & Ht). exact Ht.
Defined.

(** X19.  Before [generateAllSlides] has run, the progress report of an
    orchestrator built by the constructor counts no generated slide out
    of 297 and finds each of the six sections "In Progress" with 0
    slides, for every input. *)
Theorem report_before_generation (pd : ProductData.t) (g : Rng) :
  match MainOrchestrator.new pd g with
  | Ok (self, _) =>
      let report := MainOrchestrator.generateProgressReport self in
      MainOrchestrator.totalSlides report = 297
      /\ MainOrchestrator.generatedSlides report = 0%nat
      /\ map (fun s => (MainOrchestrator.name s, MainOrchestrator.generatedCount s,
                        MainOrchestrator.status s))
             (MainOrchestrator.sections report)
         = [ ("foundation", 0%nat, "In Progress");
             ("importingCountries", 0%nat, "In Progress");
             ("exportingCountries", 0%nat, "In Progress");
             ("supplierBuyer", 0%nat, "In Progress");
             ("pricing", 0%nat, "In Progress");
             ("shipmentRecords", 0%nat, "In Progress") ]
  | Throw _ => True
  end.
Proof.
  unfold MainOrchestrator.new, mbind, ret.
  destruct (DataProcessor.new pd g) as [[dp g1]|e]; [|exact I].
  cbv zeta. unfold MainOrchestrator.generateProgressReport.
  rewrite !reportSection_ids.
  cbn [MainOrchestrator.slides MainOrchestrator.slideStructure map
       MainOrchestrator.totalSlides MainOrchestrator.generatedSlides
       MainOrchestrator.sections].
  split; [reflexivity|]. split; [reflexivity|]. vm_compute. reflexivity.
Qed.
